(** * calendar-mcp: the request/response mapping layer

    A shallow embedding of the mapping layer of the calendar MCP server
    (the single TypeScript source file of the repository): text escaping,
    date utilities, script builders, the operation functions and the tool
    dispatcher, followed by the properties checked against it.

    Strings are byte strings ([string] of the Standard Library): a text is
    the byte string of its UTF-8 encoding.  Time
    values are integers (milliseconds since the epoch); an invalid Date
    (NaN time value) is [None].  Exceptions are explicit ([result]).
    The collaborators the program does not define itself (the process
    runner, the JSON decoder, the locale formatter, the clock, the local
    time zone, the non-ISO fallback of the Date parser) are the fields of
    the record [Host]; every operation takes the host it runs on. *)

From Stdlib Require Import ZArith String Ascii List Bool Lia.
From Stdlib Require Import Sorting.Sorted Sorting.Permutation.
Import ListNotations.

Open Scope string_scope.

(* ====================================================================== *)
(** * Text utilities *)
(* ====================================================================== *)

Module Text.

(** The double quote, the backslash and the line feed as characters. *)
Definition dquote : ascii := "034"%char.
Definition backslash : ascii := "092"%char.
Definition LF : ascii := "010"%char.
Definition CR : ascii := "013"%char.
Definition TAB : ascii := "009"%char.

(** One-character strings. *)
Definition q : string := String dquote "".
Definition bs : string := String backslash "".
Definition nl : string := String LF "".

(** [s.replace(/c/g, by)] for a one-character pattern [c] and a replacement
    text that holds no dollar pattern. *)
Fixpoint replaceAllChar (c : ascii) (by_ : string) (s : string) : string :=
  match s with
  | EmptyString => EmptyString
  | String a s' =>
      (if Ascii.eqb a c then by_ else String a EmptyString)
        ++ replaceAllChar c by_ s'
  end.

(** The source's replace of every double quote by backslash-quote
    (regular expression with the g flag): the escaping applied to a dynamic
    string before it is placed between quotes in a generated script
    (createEvent, updateEvent, deleteEvent, getEvents, searchEvents). *)
Definition escapeQuotes (s : string) : string :=
  replaceAllChar dquote (bs ++ q) s.

(** runAppleScript's replace of every single quote by quote, backslash,
    quote, quote: quoting for the shell command line. *)
Definition shellEscape (s : string) : string :=
  replaceAllChar "'"%char ("'" ++ bs ++ "''") s.

(** [haystack.includes(needle)]. *)
Fixpoint includes (haystack needle : string) : bool :=
  if prefix needle haystack then true
  else match haystack with
       | EmptyString => false
       | String _ h' => includes h' needle
       end.

(** [a.toLowerCase()] on a text of ASCII characters: the letters A to Z
    are folded and every other byte is kept.  The host language also folds
    the cased letters beyond ASCII; the statements that depend on the
    lower-cased text are made for ASCII texts. *)
Definition lowerChar (c : ascii) : ascii :=
  let n := nat_of_ascii c in
  if (65 <=? n)%nat && (n <=? 90)%nat then ascii_of_nat (n + 32) else c.

Fixpoint toLowerCase (s : string) : string :=
  match s with
  | EmptyString => EmptyString
  | String c s' => String (lowerChar c) (toLowerCase s')
  end.

(** [lines.join(sep)]. *)
Fixpoint join (sep : string) (l : list string) : string :=
  match l with
  | [] => ""
  | [x] => x
  | x :: l' => x ++ sep ++ join sep l'
  end.

(** The ASCII blanks: bytes 9 to 13 and 32. *)
Definition isSpace (c : ascii) : bool :=
  let n := nat_of_ascii c in
  ((9 <=? n)%nat && (n <=? 13)%nat) || (n =? 32)%nat.

(** The leading ASCII blanks of a line removed: the indentation of a line
    of generated script (used by the readers of the script text below). *)
Fixpoint trimStart (s : string) : string :=
  match s with
  | String c s' => if isSpace c then trimStart s' else s
  | EmptyString => EmptyString
  end.

(** ** String.prototype.trim

    trim removes the WhiteSpace and LineTerminator code points of ECMA-262
    from both ends: the ASCII blanks, U+00A0, U+1680, U+2000 to U+200A,
    U+2028, U+2029, U+202F, U+205F, U+3000 and U+FEFF.  A text is the
    byte string of its UTF-8 encoding, so the code points above U+007F are
    the two- and three-byte sequences below. *)

(** U+00A0 is C2 A0. *)
Definition isSpace2 (c d : ascii) : bool :=
  Ascii.eqb c "194"%char && Ascii.eqb d "160"%char.

(** U+1680 is E1 9A 80; U+2000 to U+200A are E2 80 80 to E2 80 8A; U+2028,
    U+2029 and U+202F are E2 80 A8, E2 80 A9 and E2 80 AF; U+205F is
    E2 81 9F; U+3000 is E3 80 80; U+FEFF is EF BB BF. *)
Definition isSpace3 (c d e : ascii) : bool :=
  let n := nat_of_ascii e in
  (Ascii.eqb c "225"%char && Ascii.eqb d "154"%char && Ascii.eqb e "128"%char)
  || (Ascii.eqb c "226"%char && Ascii.eqb d "128"%char
      && (((128 <=? n)%nat && (n <=? 138)%nat)
          || Ascii.eqb e "168"%char || Ascii.eqb e "169"%char
          || Ascii.eqb e "175"%char))
  || (Ascii.eqb c "226"%char && Ascii.eqb d "129"%char && Ascii.eqb e "159"%char)
  || (Ascii.eqb c "227"%char && Ascii.eqb d "128"%char && Ascii.eqb e "128"%char)
  || (Ascii.eqb c "239"%char && Ascii.eqb d "187"%char && Ascii.eqb e "191"%char).

(** The first byte of a two-byte and of a three-byte white space. *)
Definition isLead2 (c : ascii) : bool := Ascii.eqb c "194"%char.

Definition isLead3 (c : ascii) : bool :=
  Ascii.eqb c "225"%char || Ascii.eqb c "226"%char || Ascii.eqb c "227"%char
  || Ascii.eqb c "239"%char.

(** The leading white space removed. *)
Fixpoint dropWhiteSpace (s : string) : string :=
  match s with
  | EmptyString => EmptyString
  | String c r1 =>
      if isSpace c then dropWhiteSpace r1
      else if isLead2 c then
        match r1 with
        | String d r2 => if isSpace2 c d then dropWhiteSpace r2 else s
        | EmptyString => s
        end
      else if isLead3 c then
        match r1 with
        | String d (String e r3) =>
            if isSpace3 c d e then dropWhiteSpace r3 else s
        | _ => s
        end
      else s
  end.

(** A text of white space only. *)
Definition isBlank (s : string) : bool :=
  match dropWhiteSpace s with
  | EmptyString => true
  | String _ _ => false
  end.

(** The trailing white space removed: the text is cut where what remains
    is white space only. *)
Fixpoint trimEnd (s : string) : string :=
  match s with
  | EmptyString => EmptyString
  | String c s' => if isBlank s then EmptyString else String c (trimEnd s')
  end.

(** [s.trim()]. *)
Definition trim (s : string) : string := trimEnd (dropWhiteSpace s).

(** ** Reading a quoted literal of the script language

    The generated scripts are AppleScript.  A text literal starts after an
    opening double quote and runs to the next double quote that is not
    preceded by a backslash; inside it a backslash introduces an escape:
    backslash-quote is a quote, backslash-backslash a backslash, and
    backslash-n, -r, -t the control characters.  Every other character,
    a raw line break included, stands for itself.  The scripts of getEvents
    and searchEvents rely on these very escapes in their own literals (the
    search and replacement texts given to replaceText). *)
Definition unescape (c : ascii) : option ascii :=
  if Ascii.eqb c dquote then Some dquote
  else if Ascii.eqb c backslash then Some backslash
  else if Ascii.eqb c "n"%char then Some LF
  else if Ascii.eqb c "r"%char then Some CR
  else if Ascii.eqb c "t"%char then Some TAB
  else None.

Definition consFst (c : ascii) (r : option (string * string)) :
  option (string * string) :=
  match r with
  | Some (d, rest) => Some (String c d, rest)
  | None => None
  end.

(** [readLiteral body]: [body] is the script text right after an opening
    quote; the result is the string the literal denotes and the script text
    after its closing quote.  [None]: the literal is not well formed. *)
Fixpoint readLiteral (body : string) : option (string * string) :=
  match body with
  | EmptyString => None
  | String c rest =>
      if Ascii.eqb c dquote then Some (EmptyString, rest)
      else if Ascii.eqb c backslash then
        match rest with
        | EmptyString => None
        | String e rest' =>
            match unescape e with
            | Some d => consFst d (readLiteral rest')
            | None => None
            end
        end
      else consFst c (readLiteral rest)
  end.

(** A string without backslash. *)
Fixpoint noBackslash (s : string) : bool :=
  match s with
  | EmptyString => true
  | String c s' => negb (Ascii.eqb c backslash) && noBackslash s'
  end.

End Text.

(* ====================================================================== *)
(** * The Date object of the host language (ECMA-262, Date objects) *)
(* ====================================================================== *)

Module JSDate.

Open Scope Z_scope.

Definition msPerDay : Z := 86400000.
Definition msPerHour : Z := 3600000.
Definition msPerMinute : Z := 60000.
Definition msPerSecond : Z := 1000.

(** Number of the first day of year [y], counted from 1 January 1970. *)
Definition DayFromYear (y : Z) : Z :=
  365 * (y - 1970) + (y - 1969) / 4 - (y - 1901) / 100 + (y - 1601) / 400.

Definition isLeapYear (y : Z) : bool :=
  (y mod 4 =? 0) && (negb (y mod 100 =? 0) || (y mod 400 =? 0)).

(** Days of the year before month [m] (0 is January). *)
Definition daysBeforeMonth (leap : bool) (m : Z) : Z :=
  let l := if leap then 1 else 0 in
  if m <=? 0 then 0
  else if m =? 1 then 31
  else if m =? 2 then 59 + l
  else if m =? 3 then 90 + l
  else if m =? 4 then 120 + l
  else if m =? 5 then 151 + l
  else if m =? 6 then 181 + l
  else if m =? 7 then 212 + l
  else if m =? 8 then 243 + l
  else if m =? 9 then 273 + l
  else if m =? 10 then 304 + l
  else if m =? 11 then 334 + l
  else 365 + l.

(** MakeDay, MakeTime, MakeDate for a month in 0..11. *)
Definition MakeDay (year month date : Z) : Z :=
  DayFromYear year + daysBeforeMonth (isLeapYear year) month + date - 1.

Definition MakeTime (hour min sec ms : Z) : Z :=
  hour * msPerHour + min * msPerMinute + sec * msPerSecond + ms.

Definition MakeDate (day time : Z) : Z := day * msPerDay + time.

(** TimeClip: a time value is at most 8.64e15 ms from the epoch. *)
Definition maxTime : Z := 8640000000000000.

Definition TimeClip (t : Z) : option Z :=
  if Z.abs t <=? maxTime then Some t else None.

Definition Day (t : Z) : Z := t / msPerDay.
Definition TimeWithinDay (t : Z) : Z := t mod msPerDay.

(** The year of day number [d]: the largest [y] with [DayFromYear y <= d]. *)
Definition YearFromDay (d : Z) : Z :=
  let y := 1970 + (400 * d) / 146097 in
  if DayFromYear (y + 1) <=? d then y + 1
  else if DayFromYear y <=? d then y
  else y - 1.

Definition YearFromTime (t : Z) : Z := YearFromDay (Day t).

Definition DayWithinYear (t : Z) : Z := Day t - DayFromYear (YearFromTime t).

Definition InLeapYear (t : Z) : bool := isLeapYear (YearFromTime t).

(** The month (0..11) in which day [dy] of a year falls. *)
Definition monthOfDay (leap : bool) (dy : Z) : Z :=
  if dy <? daysBeforeMonth leap 1 then 0
  else if dy <? daysBeforeMonth leap 2 then 1
  else if dy <? daysBeforeMonth leap 3 then 2
  else if dy <? daysBeforeMonth leap 4 then 3
  else if dy <? daysBeforeMonth leap 5 then 4
  else if dy <? daysBeforeMonth leap 6 then 5
  else if dy <? daysBeforeMonth leap 7 then 6
  else if dy <? daysBeforeMonth leap 8 then 7
  else if dy <? daysBeforeMonth leap 9 then 8
  else if dy <? daysBeforeMonth leap 10 then 9
  else if dy <? daysBeforeMonth leap 11 then 10
  else 11.

Definition MonthFromTime (t : Z) : Z :=
  monthOfDay (InLeapYear t) (DayWithinYear t).

Definition DateFromTime (t : Z) : Z :=
  DayWithinYear t - daysBeforeMonth (InLeapYear t) (MonthFromTime t) + 1.

Definition HourFromTime (t : Z) : Z := (t / msPerHour) mod 24.
Definition MinFromTime (t : Z) : Z := (t / msPerMinute) mod 60.
Definition SecFromTime (t : Z) : Z := (t / msPerSecond) mod 60.
Definition msFromTime (t : Z) : Z := t mod msPerSecond.

(** ** Decimal digits *)

Definition digitChar (d : Z) : ascii := ascii_of_nat (48 + Z.to_nat d).

Definition digitVal (c : ascii) : option Z :=
  let n := nat_of_ascii c in
  if (48 <=? n)%nat && (n <=? 57)%nat then Some (Z.of_nat (n - 48)) else None.

(** The last [n] decimal digits of [z], zero padded. *)
Fixpoint padDigits (n : nat) (z : Z) : string :=
  match n with
  | O => EmptyString
  | S n' => (padDigits n' (z / 10)%Z ++ String (digitChar (z mod 10)%Z) EmptyString)%string
  end.

(** Exactly [n] decimal digits at the head of [s]. *)
Fixpoint readDigits (n : nat) (acc : Z) (s : string) : option (Z * string) :=
  match n with
  | O => Some (acc, s)
  | S n' =>
      match s with
      | String c r =>
          match digitVal c with
          | Some d => readDigits n' (10 * acc + d) r
          | None => None
          end
      | EmptyString => None
      end
  end.

(** An integer in decimal, as a template literal prints a number that is
    an integer of magnitude below 2^53; the statements that depend on a
    printed number are made for such integers. *)
Fixpoint natDigits (fuel : nat) (z : Z) : string :=
  match fuel with
  | O => EmptyString
  | S f =>
      if z <? 10 then String (digitChar z) EmptyString
      else (natDigits f (z / 10)%Z ++ String (digitChar (z mod 10)%Z) EmptyString)%string
  end.

Definition intToString (z : Z) : string :=
  if z <? 0 then ("-" ++ natDigits (S (Z.to_nat (Z.log2 (- z)%Z))) (- z)%Z)%string
  else natDigits (S (Z.to_nat (Z.log2 z))) z.

(** ** Date.prototype.toISOString, for a valid time value *)

Definition yearString (y : Z) : string :=
  if (0 <=? y) && (y <=? 9999) then padDigits 4 y
  else ((if (y <? 0)%Z then "-" else "+") ++ padDigits 6 (Z.abs y))%string.

Definition isoString (t : Z) : string :=
  (yearString (YearFromTime t) ++ "-" ++ padDigits 2 (MonthFromTime t + 1)%Z
     ++ "-" ++ padDigits 2 (DateFromTime t)
     ++ "T" ++ padDigits 2 (HourFromTime t)
     ++ ":" ++ padDigits 2 (MinFromTime t)
     ++ ":" ++ padDigits 2 (SecFromTime t)
     ++ "." ++ padDigits 3 (msFromTime t) ++ "Z")%string.

(** ** The Date Time String Format

    [YYYY], [YYYY-MM] or [YYYY-MM-DD] (the year possibly expanded to a sign
    and six digits), alone or followed by [THH:mm], [THH:mm:ss] or
    [THH:mm:ss.sss] and then nothing, [Z] or an offset [+HH:mm] / [-HH:mm].
    A date alone is UTC; a date and time without offset is local time. *)

Inductive zone : Type :=
  | NoTime            (* no time part: UTC *)
  | NoOffset          (* time part without designator: local time *)
  | Offset (minutes : Z).   (* Z is Offset 0 *)

Record isoFields : Type := mkIso {
  f_year : Z; f_month : Z; f_day : Z;
  f_hour : Z; f_min : Z; f_sec : Z; f_ms : Z;
  f_zone : zone }.

Definition readYear (s : string) : option (Z * string) :=
  match s with
  | String "+" r => readDigits 6 0 r
  | String "-" r =>
      match readDigits 6 0 r with
      | Some (y, r') => if y =? 0 then None else Some (- y, r')
      | None => None
      end
  | _ => readDigits 4 0 s
  end.

(** The designator after the time: end of text, [Z], or a signed offset. *)
Definition readZone (s : string) : option zone :=
  match s with
  | EmptyString => Some NoOffset
  | String "Z" EmptyString => Some (Offset 0)
  | String sg r =>
      if Ascii.eqb sg "+" || Ascii.eqb sg "-" then
        match readDigits 2 0 r with
        | Some (hh, String ":" r1) =>
            match readDigits 2 0 r1 with
            | Some (mm, EmptyString) =>
                if (hh <=? 23) && (mm <=? 59) then
                  Some (Offset ((if Ascii.eqb sg "-" then -1 else 1) * (hh * 60 + mm)))
                else None
            | _ => None
            end
        | _ => None
        end
      else None
  end.

(** The part after the date: nothing, or [T] and a time. *)
Definition readTime (y m d : Z) (s : string) : option isoFields :=
  match s with
  | EmptyString => Some (mkIso y m d 0 0 0 0 NoTime)
  | String "T" r =>
      match readDigits 2 0 r with
      | Some (hh, String ":" r1) =>
          match readDigits 2 0 r1 with
          | Some (mi, r2) =>
              let '(ss, r3) :=
                match r2 with
                | String ":" r2' =>
                    match readDigits 2 0 r2' with
                    | Some (ss, r3) => (Some ss, r3)
                    | None => (None, r2)
                    end
                | _ => (Some 0, r2)
                end in
              match ss with
              | None => None
              | Some ss =>
                  let '(ms, r4) :=
                    match r2, r3 with
                    | String ":" _, String "." r3' =>
                        match readDigits 3 0 r3' with
                        | Some (ms, r4) => (Some ms, r4)
                        | None => (None, r3)
                        end
                    | _, _ => (Some 0, r3)
                    end in
                  match ms, readZone r4 with
                  | Some ms, Some z => Some (mkIso y m d hh mi ss ms z)
                  | _, _ => None
                  end
              end
          | None => None
          end
      | _ => None
      end
  | _ => None
  end.

Definition readIso (s : string) : option isoFields :=
  match readYear s with
  | Some (y, String "-" r) =>
      match readDigits 2 0 r with
      | Some (m, String "-" r1) =>
          match readDigits 2 0 r1 with
          | Some (d, r2) => readTime y m d r2
          | None => None
          end
      | Some (m, r1) => readTime y m 1 r1
      | None => None
      end
  | Some (y, r) => readTime y 1 1 r
  | None => None
  end.

(** The element values the format allows. *)
Definition legalFields (f : isoFields) : bool :=
  (1 <=? f_month f) && (f_month f <=? 12)
  && (1 <=? f_day f) && (f_day f <=? 31)
  && (f_hour f <=? 24) && (f_min f <=? 59) && (f_sec f <=? 59)
  && ((f_hour f <? 24) || ((f_min f =? 0) && (f_sec f =? 0) && (f_ms f =? 0))).

(** The time of the fields, read as if they were UTC. *)
Definition fieldsTime (f : isoFields) : Z :=
  MakeDate (MakeDay (f_year f) (f_month f - 1) (f_day f))
           (MakeTime (f_hour f) (f_min f) (f_sec f) (f_ms f)).

End JSDate.

(* ====================================================================== *)
(** * JSON.stringify(value, null, 2) *)
(* ====================================================================== *)

Module JSON.

Import Text.

#[local] Unset Elimination Schemes.
Inductive json : Type :=
  | JBool (b : bool)
  | JString (s : string)
  | JArray (items : list json)
  | JObject (props : list (string * json)).
#[local] Set Elimination Schemes.

Definition boolToString (b : bool) : string := if b then "true" else "false".

Definition hexDigit (n : nat) : ascii :=
  if (n <? 10)%nat then ascii_of_nat (48 + n) else ascii_of_nat (87 + n).

(** QuoteJSONString, one character. *)
Definition quoteChar (c : ascii) : string :=
  let n := nat_of_ascii c in
  if Ascii.eqb c dquote then bs ++ q
  else if Ascii.eqb c backslash then bs ++ bs
  else if (n =? 8)%nat then bs ++ "b"
  else if (n =? 12)%nat then bs ++ "f"
  else if (n =? 10)%nat then bs ++ "n"
  else if (n =? 13)%nat then bs ++ "r"
  else if (n =? 9)%nat then bs ++ "t"
  else if (n <? 32)%nat then
    bs ++ "u00" ++ String (hexDigit (n / 16)) (String (hexDigit (n mod 16)) "")
  else String c "".

Fixpoint quoteBody (s : string) : string :=
  match s with
  | EmptyString => EmptyString
  | String c s' => quoteChar c ++ quoteBody s'
  end.

Definition quote (s : string) : string := q ++ quoteBody s ++ q.

(** The text of [j] when it starts at indentation [indent]; the gap is two
    spaces. *)
Fixpoint stringifyAt (indent : string) (j : json) : string :=
  let inner := indent ++ "  " in
  match j with
  | JBool b => boolToString b
  | JString s => quote s
  | JArray [] => "[]"
  | JArray items =>
      "[" ++ nl
        ++ join ("," ++ nl) (map (fun x => inner ++ stringifyAt inner x) items)
        ++ nl ++ indent ++ "]"
  | JObject [] => "{}"
  | JObject props =>
      "{" ++ nl
        ++ join ("," ++ nl)
             (map (fun kv => inner ++ quote (fst kv) ++ ": " ++ stringifyAt inner (snd kv))
                  props)
        ++ nl ++ indent ++ "}"
  end.

Definition stringify (j : json) : string := stringifyAt "" j.

End JSON.

(* ====================================================================== *)
(** * Data model *)
(* ====================================================================== *)

Module CalendarInfo.
Record t : Type := mk {
  id : string; name : string; color : string; writable : bool }.

Definition toJSON (c : t) : JSON.json :=
  JSON.JObject [ ("id", JSON.JString (id c)); ("name", JSON.JString (name c));
                 ("color", JSON.JString (color c)); ("writable", JSON.JBool (writable c)) ].
End CalendarInfo.

Module CalendarEvent.
Record t : Type := mk {
  id : string; summary : string; description : string; location : string;
  startDate : string; endDate : string; allDay : bool;
  calendar : string; url : string; status : string }.

(** The object spread with new [startDate] and [endDate]. *)
Definition withDates (e : t) (s en : string) : t :=
  mk (id e) (summary e) (description e) (location e) s en (allDay e)
     (calendar e) (url e) (status e).

Definition toJSON (e : t) : JSON.json :=
  JSON.JObject
    [ ("id", JSON.JString (id e)); ("summary", JSON.JString (summary e));
      ("description", JSON.JString (description e));
      ("location", JSON.JString (location e));
      ("startDate", JSON.JString (startDate e)); ("endDate", JSON.JString (endDate e));
      ("allDay", JSON.JBool (allDay e)); ("calendar", JSON.JString (calendar e));
      ("url", JSON.JString (url e)); ("status", JSON.JString (status e)) ].
End CalendarEvent.

Module PermissionStatus.
Record t : Type := mk { calendar : bool; details : list string }.

Definition toJSON (s : t) : JSON.json :=
  JSON.JObject [ ("calendar", JSON.JBool (calendar s));
                 ("details", JSON.JArray (map JSON.JString (details s))) ].
End PermissionStatus.

(** The object returned by createEvent, updateEvent and deleteEvent:
    success, and the optional id and error. *)
Module OpResult.
Record t : Type := mk { success : bool; id : option string; error : option string }.

Definition optProp (k : string) (v : option string) : list (string * JSON.json) :=
  match v with
  | Some s => [ (k, JSON.JString s) ]
  | None => []
  end.

Definition toJSON (r : t) : JSON.json :=
  JSON.JObject ((("success", JSON.JBool (success r)) :: optProp "id" (id r))
                  ++ optProp "error" (error r))%list.
End OpResult.

(** The argument bag of a tool call, with the property types the tool
    schemas declare; [None] is an absent property. *)
Module Args.
Record t : Type := mk {
  calendar : option string;
  start_date : option string;
  end_date : option string;
  limit : option Z;
  summary : option string;
  all_day : option bool;
  description : option string;
  location : option string;
  url : option string;
  event_id : option string;
  query : option string;
  days : option Z }.

Definition empty : t :=
  mk None None None None None None None None None None None None.
End Args.

(** The response envelope. *)
Record ContentItem : Type := mkContent { type : string; text : string }.
Record Envelope : Type := mkEnvelope {
  content : list ContentItem; isError : option bool }.

(** A value or a raised exception with its message. *)
Inductive result (A : Type) : Type :=
  | Ok (a : A)
  | Throw (message : string).
Arguments Ok {A} a.
Arguments Throw {A} message.

(** What the promisified exec yields: the standard output, or a rejection
    with its message. *)
Inductive execResult : Type :=
  | Stdout (out : string)
  | Rejected (message : string).

(** What runAppleScriptJSON yields: the decoded value, or the raw text when
    the text does not decode. *)
Inductive decoded (T : Type) : Type :=
  | Structured (v : T)
  | Opaque (raw : string).
Arguments Structured {T} v.
Arguments Opaque {T} raw.

(** A Date object: its time value, [None] for NaN (an invalid Date). *)
Record Date : Type := mkDate { getTime : option Z }.

Record DateRange : Type := mkRange { start : string; end_ : string }.

(** ** The collaborators *)
Record Host : Type := mkHost {
  (** what Date.parse makes of a text outside the Date Time String Format *)
  legacyDateParse : string -> option Z;
  (** LocalTZA(t, isUTC): the offset of local time, in ms *)
  LocalTZA : Z -> bool -> Z;
  (** the n-th reading of the clock during a call *)
  clock : nat -> Z;
  (** toLocaleString for en-US with the options of formatDateForAppleScript *)
  toLocaleString : Z -> string;
  (** exec of a command line (buffer 10 MiB, timeout 30 s), given the
      command lines run before it *)
  execAsync : list string -> string -> execResult;
  (** JSON.parse, at the two result types of runAppleScriptJSON: [None] is
      a text that does not decode (a SyntaxError); a text that decodes is
      taken to have the declared type *)
  JSON_parse_events : string -> option (list CalendarEvent.t);
  JSON_parse_calendars : string -> option (list CalendarInfo.t) }.

(** The state a call runs in: the command lines handed to exec so far, and
    the number of clock readings. *)
Record World : Type := mkWorld { submitted : list string; ticks : nat }.

Definition M (A : Type) : Type := World -> result A * World.

Definition ret {A : Type} (a : A) : M A := fun w => (Ok a, w).

Definition throw {A : Type} (message : string) : M A := fun w => (Throw message, w).

Definition bind {A B : Type} (m : M A) (k : A -> M B) : M B :=
  fun w =>
    match m w with
    | (Ok a, w') => k a w'
    | (Throw e, w') => (Throw e, w')
    end.

Definition tryCatch {A : Type} (m : M A) (handler : string -> M A) : M A :=
  fun w =>
    match m w with
    | (Ok a, w') => (Ok a, w')
    | (Throw e, w') => handler e w'
    end.

Definition lift {A : Type} (r : result A) : M A := fun w => (r, w).

Notation "x <- m ;; k" := (bind m (fun x => k))
  (at level 61, m at next level, right associativity).

(** The same for code that raises but does not touch the world. *)
Definition rbind {A B : Type} (r : result A) (k : A -> result B) : result B :=
  match r with
  | Ok a => k a
  | Throw e => Throw e
  end.

Definition rcatch {A : Type} (r : result A) (handler : string -> result A) : result A :=
  match r with
  | Ok a => Ok a
  | Throw e => handler e
  end.

Fixpoint mapResult {A B : Type} (f : A -> result B) (l : list A) : result (list B) :=
  match l with
  | [] => Ok []
  | x :: l' => rbind (f x) (fun y => rbind (mapResult f l') (fun ys => Ok (y :: ys)))
  end.

(** ** Array.prototype.sort

    SortCompare turns a NaN of the comparison function into +0, and the
    sort reads only the sign of the result (the difference of two time
    values keeps its sign in floating point, so it is an integer here).
    The sort is the insertion sort that places each element, from left to
    right, after the last element of the sorted prefix it is not smaller
    than: a stable sort.  The standard fixes the result only for a
    consistent comparison function, for which every stable sort returns the
    same list; for the others the order depends on the engine, whose sort
    need not be this insertion sort.  The statements about the order of a
    result in general are made for lists in which every comparison is a
    number. *)
Definition SortCompare {A : Type} (comparefn : A -> A -> option Z) (x y : A) : Z :=
  match comparefn x y with
  | Some v => v
  | None => 0%Z
  end.

(** [revPrefix] is the sorted prefix, last element first. *)
Fixpoint insertBack {A : Type} (comparefn : A -> A -> option Z) (x : A)
    (revPrefix : list A) : list A :=
  match revPrefix with
  | [] => [x]
  | y :: rest =>
      if (SortCompare comparefn x y <? 0)%Z then y :: insertBack comparefn x rest
      else x :: y :: rest
  end.

Definition arraySort {A : Type} (comparefn : A -> A -> option Z) (l : list A) : list A :=
  rev (fold_left (fun revPrefix x => insertBack comparefn x revPrefix) l []).

(* ====================================================================== *)
(** * Script builder: the text of the generated scripts *)
(* ====================================================================== *)

Module Scripts.

Import Text JSDate JSON.

(** Truthiness of an optional string: absent and empty are both false. *)
Definition truthy (o : option string) : bool :=
  match o with
  | Some s => negb (String.eqb s "")
  | None => false
  end.

(** An optional string placed in a template literal. *)
Definition templ (o : option string) : string :=
  match o with
  | Some s => s
  | None => "undefined"
  end.

(** [o || ""] for an optional string. *)
Definition orEmpty (o : option string) : string :=
  match o with
  | Some s => s
  | None => ""
  end.

(** A script is its lines joined by line feeds. *)
Definition unlines (l : list string) : string := join nl l.

(** searchEvents: the line that chooses the calendars to search. *)
Definition searchTarget (calendar : option string) : string :=
  if truthy calendar then
    "set targetCals to {calendar " ++ q ++ escapeQuotes (orEmpty calendar) ++ q ++ "}"
  else "set targetCals to calendars".

(** The replaceText routine appended to the scripts that build JSON. *)
Definition replaceTextHandler : list string :=
  [ "    on replaceText(theText, searchStr, replaceStr)";
    "      set AppleScript's text item delimiters to searchStr";
    "      set theItems to text items of theText";
    "      set AppleScript's text item delimiters to replaceStr";
    "      set theText to theItems as text";
    "      set AppleScript's text item delimiters to " ++ q ++ q;
    "      return theText";
    "    end replaceText" ].

(** getCalendars: the template up to the replaceText routine. *)
Definition getCalendarsBody : list string :=
  [ "";
    "    tell application " ++ q ++ "Calendar" ++ q;
    "      set output to " ++ q ++ "[" ++ q;
    "      set allCals to calendars";
    "      repeat with i from 1 to count of allCals";
    "        set theCal to item i of allCals";
    "        set calId to uid of theCal";
    "        set calName to name of theCal";
    "        set calColor to color of theCal";
    "        set calWritable to writable of theCal";
    "";
    "        set calName to my replaceText(calName, " ++ q ++ "\\" ++ q ++ ", " ++ q ++ "\\\\" ++ q ++ ")";
    "        set calName to my replaceText(calName, " ++ q ++ "\" ++ q ++ q ++ ", " ++ q ++ "\\\" ++ q ++ q ++ ")";
    "";
    "        if i > 1 then set output to output & " ++ q ++ "," ++ q;
    "        set output to output & " ++ q ++ "{\" ++ q ++ "id\" ++ q ++ ":\" ++ q ++ q ++ " & calId & " ++ q ++ "\" ++ q ++ ",\" ++ q ++ "name\" ++ q ++ ":\" ++ q ++ q ++ " & calName & " ++ q ++ "\" ++ q ++ ",\" ++ q ++ "color\" ++ q ++ ":\" ++ q ++ q ++ " & calColor & " ++ q ++ "\" ++ q ++ ",\" ++ q ++ "writable\" ++ q ++ ":" ++ q ++ " & calWritable & " ++ q ++ "}" ++ q;
    "      end repeat";
    "      set output to output & " ++ q ++ "]" ++ q;
    "      return output";
    "    end tell";
    "" ].

(** getEvents: the opening of the script, with the date window. *)
Definition getEventsHeader (dateRange : DateRange) : list string :=
  [ "";
    "    tell application " ++ q ++ "Calendar" ++ q;
    "      set output to " ++ q ++ "[" ++ q;
    "      set startDate to date " ++ q ++ start dateRange ++ q;
    "      set endDate to date " ++ q ++ end_ dateRange ++ q;
    "      set matchCount to 0";
    "" ].

(** getEvents: the choice of the calendars to read. *)
Definition targetBlock (calendar : option string) : list string :=
  [ "      if " ++ q ++ templ calendar ++ q ++ " is " ++ q ++ q ++ " then";
    "        set targetCals to calendars";
    "      else";
    "        set targetCals to {calendar " ++ q ++ orEmpty (option_map escapeQuotes calendar) ++ q ++ "}";
    "      end if" ].

(** getEvents: the loop that prints the events as JSON. *)
Definition getEventsLoop (limit : Z) : list string :=
  [ "";
    "      repeat with theCal in targetCals";
    "        set calEvents to (events of theCal whose start date ≥ startDate and start date ≤ endDate)";
    "        repeat with e in calEvents";
    "          if matchCount < " ++ intToString limit ++ " then";
    "            set eId to uid of e";
    "            set eSummary to summary of e";
    "            set eDesc to description of e";
    "            if eDesc is missing value then set eDesc to " ++ q ++ q;
    "            set eLoc to location of e";
    "            if eLoc is missing value then set eLoc to " ++ q ++ q;
    "            set eStart to start date of e";
    "            set eEnd to end date of e";
    "            set eAllDay to allday event of e";
    "            set eCalName to name of theCal";
    "            set eUrl to url of e";
    "            if eUrl is missing value then set eUrl to " ++ q ++ q;
    "            set eStatus to status of e";
    "";
    "            set eSummary to my replaceText(eSummary, " ++ q ++ "\\" ++ q ++ ", " ++ q ++ "\\\\" ++ q ++ ")";
    "            set eSummary to my replaceText(eSummary, " ++ q ++ "\" ++ q ++ q ++ ", " ++ q ++ "\\\" ++ q ++ q ++ ")";
    "            set eSummary to my replaceText(eSummary, return, " ++ q ++ "\\n" ++ q ++ ")";
    "            set eDesc to my replaceText(eDesc, " ++ q ++ "\\" ++ q ++ ", " ++ q ++ "\\\\" ++ q ++ ")";
    "            set eDesc to my replaceText(eDesc, " ++ q ++ "\" ++ q ++ q ++ ", " ++ q ++ "\\\" ++ q ++ q ++ ")";
    "            set eDesc to my replaceText(eDesc, return, " ++ q ++ "\\n" ++ q ++ ")";
    "            set eLoc to my replaceText(eLoc, " ++ q ++ "\\" ++ q ++ ", " ++ q ++ "\\\\" ++ q ++ ")";
    "            set eLoc to my replaceText(eLoc, " ++ q ++ "\" ++ q ++ q ++ ", " ++ q ++ "\\\" ++ q ++ q ++ ")";
    "";
    "            if matchCount > 0 then set output to output & " ++ q ++ "," ++ q;
    "            set output to output & " ++ q ++ "{\" ++ q ++ "id\" ++ q ++ ":\" ++ q ++ q ++ " & eId & " ++ q ++ "\" ++ q ++ "," ++ q;
    "            set output to output & " ++ q ++ "\" ++ q ++ "summary\" ++ q ++ ":\" ++ q ++ q ++ " & eSummary & " ++ q ++ "\" ++ q ++ "," ++ q;
    "            set output to output & " ++ q ++ "\" ++ q ++ "description\" ++ q ++ ":\" ++ q ++ q ++ " & eDesc & " ++ q ++ "\" ++ q ++ "," ++ q;
    "            set output to output & " ++ q ++ "\" ++ q ++ "location\" ++ q ++ ":\" ++ q ++ q ++ " & eLoc & " ++ q ++ "\" ++ q ++ "," ++ q;
    "            set output to output & " ++ q ++ "\" ++ q ++ "startDate\" ++ q ++ ":\" ++ q ++ q ++ " & (eStart as «class isot» as string) & " ++ q ++ "\" ++ q ++ "," ++ q;
    "            set output to output & " ++ q ++ "\" ++ q ++ "endDate\" ++ q ++ ":\" ++ q ++ q ++ " & (eEnd as «class isot» as string) & " ++ q ++ "\" ++ q ++ "," ++ q;
    "            set output to output & " ++ q ++ "\" ++ q ++ "allDay\" ++ q ++ ":" ++ q ++ " & eAllDay & " ++ q ++ "," ++ q;
    "            set output to output & " ++ q ++ "\" ++ q ++ "calendar\" ++ q ++ ":\" ++ q ++ q ++ " & eCalName & " ++ q ++ "\" ++ q ++ "," ++ q;
    "            set output to output & " ++ q ++ "\" ++ q ++ "url\" ++ q ++ ":\" ++ q ++ q ++ " & eUrl & " ++ q ++ "\" ++ q ++ "," ++ q;
    "            set output to output & " ++ q ++ "\" ++ q ++ "status\" ++ q ++ ":\" ++ q ++ q ++ " & eStatus & " ++ q ++ "\" ++ q ++ "}" ++ q;
    "            set matchCount to matchCount + 1";
    "          end if";
    "        end repeat";
    "      end repeat";
    "      set output to output & " ++ q ++ "]" ++ q;
    "      return output";
    "    end tell";
    "" ].

(** createEvent: the template, with its holes as arguments. *)
Definition createEventLines (calendarTarget escapedSummary startText endText : string) (allDay : bool) (descLine locLine urlLine : string) : list string :=
  [ "";
    "    tell application " ++ q ++ "Calendar" ++ q;
    "      set newEvent to make new event at end of events of " ++ calendarTarget ++ " with properties {summary:" ++ q ++ escapedSummary ++ q ++ ", start date:date " ++ q ++ startText ++ q ++ ", end date:date " ++ q ++ endText ++ q ++ ", allday event:" ++ boolToString allDay ++ "}";
    "      " ++ descLine;
    "      " ++ locLine;
    "      " ++ urlLine;
    "      return uid of newEvent";
    "    end tell";
    "  " ].

(** updateEvent: the template around the joined update lines. *)
Definition updateEventLines (eventId calendarName : string) (updateLines : list string) : list string :=
  [ "";
    "    tell application " ++ q ++ "Calendar" ++ q;
    "      set theCal to calendar " ++ q ++ escapeQuotes calendarName ++ q;
    "      set theEvent to (first event of theCal whose uid is " ++ q ++ escapeQuotes eventId ++ q ++ ")";
    "      " ++ join (nl ++ "      ") updateLines;
    "      return " ++ q ++ "done" ++ q;
    "    end tell";
    "  " ].

(** deleteEvent: the template. *)
Definition deleteEventLines (eventId calendarName : string) : list string :=
  [ "";
    "    tell application " ++ q ++ "Calendar" ++ q;
    "      set theCal to calendar " ++ q ++ escapeQuotes calendarName ++ q;
    "      set theEvent to (first event of theCal whose uid is " ++ q ++ escapeQuotes eventId ++ q ++ ")";
    "      delete theEvent";
    "      return " ++ q ++ "done" ++ q;
    "    end tell";
    "  " ].

(** searchEvents: the template up to the replaceText routine. *)
Definition searchEventsBody (escapedQuery : string) (dateRange : DateRange) (calendar : option string) (limit : Z) : list string :=
  [ "";
    "    tell application " ++ q ++ "Calendar" ++ q;
    "      set output to " ++ q ++ "[" ++ q;
    "      set searchQuery to " ++ q ++ escapedQuery ++ q;
    "      set matchCount to 0";
    "      set startDate to date " ++ q ++ start dateRange ++ q;
    "      set endDate to date " ++ q ++ end_ dateRange ++ q;
    "";
    "      " ++ searchTarget calendar;
    "";
    "      repeat with theCal in targetCals";
    "        set calEvents to (events of theCal whose start date ≥ startDate and start date ≤ endDate)";
    "        repeat with e in calEvents";
    "          if matchCount < " ++ intToString limit ++ " then";
    "            set eSummary to summary of e";
    "            set eDesc to description of e";
    "            if eDesc is missing value then set eDesc to " ++ q ++ q;
    "            set eLoc to location of e";
    "            if eLoc is missing value then set eLoc to " ++ q ++ q;
    "";
    "            set lowerSummary to my toLowerCase(eSummary)";
    "            set lowerDesc to my toLowerCase(eDesc)";
    "            set lowerLoc to my toLowerCase(eLoc)";
    "";
    "            if lowerSummary contains searchQuery or lowerDesc contains searchQuery or lowerLoc contains searchQuery then";
    "              set eId to uid of e";
    "              set eStart to start date of e";
    "              set eEnd to end date of e";
    "              set eAllDay to allday event of e";
    "              set eCalName to name of theCal";
    "              set eUrl to url of e";
    "              if eUrl is missing value then set eUrl to " ++ q ++ q;
    "              set eStatus to status of e";
    "";
    "              set eSummary to my replaceText(eSummary, " ++ q ++ "\\" ++ q ++ ", " ++ q ++ "\\\\" ++ q ++ ")";
    "              set eSummary to my replaceText(eSummary, " ++ q ++ "\" ++ q ++ q ++ ", " ++ q ++ "\\\" ++ q ++ q ++ ")";
    "              set eSummary to my replaceText(eSummary, return, " ++ q ++ "\\n" ++ q ++ ")";
    "              set eDesc to my replaceText(eDesc, " ++ q ++ "\\" ++ q ++ ", " ++ q ++ "\\\\" ++ q ++ ")";
    "              set eDesc to my replaceText(eDesc, " ++ q ++ "\" ++ q ++ q ++ ", " ++ q ++ "\\\" ++ q ++ q ++ ")";
    "              set eDesc to my replaceText(eDesc, return, " ++ q ++ "\\n" ++ q ++ ")";
    "              set eLoc to my replaceText(eLoc, " ++ q ++ "\\" ++ q ++ ", " ++ q ++ "\\\\" ++ q ++ ")";
    "              set eLoc to my replaceText(eLoc, " ++ q ++ "\" ++ q ++ q ++ ", " ++ q ++ "\\\" ++ q ++ q ++ ")";
    "";
    "              if matchCount > 0 then set output to output & " ++ q ++ "," ++ q;
    "              set output to output & " ++ q ++ "{\" ++ q ++ "id\" ++ q ++ ":\" ++ q ++ q ++ " & eId & " ++ q ++ "\" ++ q ++ "," ++ q;
    "              set output to output & " ++ q ++ "\" ++ q ++ "summary\" ++ q ++ ":\" ++ q ++ q ++ " & eSummary & " ++ q ++ "\" ++ q ++ "," ++ q;
    "              set output to output & " ++ q ++ "\" ++ q ++ "description\" ++ q ++ ":\" ++ q ++ q ++ " & eDesc & " ++ q ++ "\" ++ q ++ "," ++ q;
    "              set output to output & " ++ q ++ "\" ++ q ++ "location\" ++ q ++ ":\" ++ q ++ q ++ " & eLoc & " ++ q ++ "\" ++ q ++ "," ++ q;
    "              set output to output & " ++ q ++ "\" ++ q ++ "startDate\" ++ q ++ ":\" ++ q ++ q ++ " & (eStart as «class isot» as string) & " ++ q ++ "\" ++ q ++ "," ++ q;
    "              set output to output & " ++ q ++ "\" ++ q ++ "endDate\" ++ q ++ ":\" ++ q ++ q ++ " & (eEnd as «class isot» as string) & " ++ q ++ "\" ++ q ++ "," ++ q;
    "              set output to output & " ++ q ++ "\" ++ q ++ "allDay\" ++ q ++ ":" ++ q ++ " & eAllDay & " ++ q ++ "," ++ q;
    "              set output to output & " ++ q ++ "\" ++ q ++ "calendar\" ++ q ++ ":\" ++ q ++ q ++ " & eCalName & " ++ q ++ "\" ++ q ++ "," ++ q;
    "              set output to output & " ++ q ++ "\" ++ q ++ "url\" ++ q ++ ":\" ++ q ++ q ++ " & eUrl & " ++ q ++ "\" ++ q ++ "," ++ q;
    "              set output to output & " ++ q ++ "\" ++ q ++ "status\" ++ q ++ ":\" ++ q ++ q ++ " & eStatus & " ++ q ++ "\" ++ q ++ "}" ++ q;
    "              set matchCount to matchCount + 1";
    "            end if";
    "          end if";
    "        end repeat";
    "      end repeat";
    "      set output to output & " ++ q ++ "]" ++ q;
    "      return output";
    "    end tell";
    "";
    "    on toLowerCase(theText)";
    "      set lowercaseChars to " ++ q ++ "abcdefghijklmnopqrstuvwxyz" ++ q;
    "      set uppercaseChars to " ++ q ++ "ABCDEFGHIJKLMNOPQRSTUVWXYZ" ++ q;
    "      set resultText to " ++ q ++ q;
    "      repeat with c in theText";
    "        set charOffset to offset of c in uppercaseChars";
    "        if charOffset > 0 then";
    "          set resultText to resultText & character charOffset of lowercaseChars";
    "        else";
    "          set resultText to resultText & c";
    "        end if";
    "      end repeat";
    "      return resultText";
    "    end toLowerCase";
    "" ].

Definition getCalendarsScript : string :=
  unlines (getCalendarsBody ++ replaceTextHandler ++ [ "  " ])%list.

Definition getEventsScript (dateRange : DateRange) (calendar : option string)
    (limit : Z) : string :=
  unlines (getEventsHeader dateRange ++ targetBlock calendar ++ getEventsLoop limit
             ++ replaceTextHandler ++ [ "  " ])%list.

Definition createEventScript (calendarTarget escapedSummary startText endText : string)
    (allDay : bool) (descLine locLine urlLine : string) : string :=
  unlines (createEventLines calendarTarget escapedSummary startText endText allDay
             descLine locLine urlLine).

Definition updateEventScript (eventId calendarName : string)
    (updateLines : list string) : string :=
  unlines (updateEventLines eventId calendarName updateLines).

Definition deleteEventScript (eventId calendarName : string) : string :=
  unlines (deleteEventLines eventId calendarName).

Definition searchEventsScript (escapedQuery : string) (dateRange : DateRange)
    (calendar : option string) (limit : Z) : string :=
  unlines (searchEventsBody escapedQuery dateRange calendar limit
             ++ replaceTextHandler ++ [ "  " ])%list.

(** ** Reading the calendar choice of a getEvents script

    The block is [if A is B then / set targetCals to X / else /
    set targetCals to Y / end if], with A and B quoted literals.  The script
    host compares the two texts, ignoring the case of letters, and runs the
    first assignment when they are equal, the second otherwise. *)
Inductive target : Type :=
  | AllCalendars                   (* set targetCals to calendars *)
  | NamedCalendar (name : string). (* set targetCals to the calendar of that name *)

(** [s] without the text [p] at its head. *)
Fixpoint stripPrefix (p s : string) : option string :=
  match p, s with
  | EmptyString, _ => Some s
  | String a p', String b s' => if Ascii.eqb a b then stripPrefix p' s' else None
  | String _ _, EmptyString => None
  end.

Definition readAssignedTarget (line : string) : option target :=
  match stripPrefix "set targetCals to " (trimStart line) with
  | Some rhs =>
      if String.eqb rhs "calendars" then Some AllCalendars
      else
        match stripPrefix ("{calendar " ++ q) rhs with
        | Some body =>
            match readLiteral body with
            | Some (name, "}") => Some (NamedCalendar name)
            | _ => None
            end
        | None => None
        end
  | None => None
  end.

(** The two literals compared by the line [if A is B then]. *)
Definition readGuard (line : string) : option (string * string) :=
  match stripPrefix ("if " ++ q) (trimStart line) with
  | Some body =>
      match readLiteral body with
      | Some (a, rest) =>
          match stripPrefix (" is " ++ q) rest with
          | Some body' =>
              match readLiteral body' with
              | Some (b, " then") => Some (a, b)
              | _ => None
              end
          | None => None
          end
      | None => None
      end
  | None => None
  end.

Definition runTargetBlock (block : list string) : option target :=
  match block with
  | [ guard; thenLine; elseKw; elseLine; endKw ] =>
      if String.eqb (trimStart elseKw) "else" && String.eqb (trimStart endKw) "end if"
      then
        match readGuard guard, readAssignedTarget thenLine, readAssignedTarget elseLine with
        | Some (a, b), Some t1, Some t2 =>
            Some (if String.eqb (toLowerCase a) (toLowerCase b) then t1 else t2)
        | _, _, _ => None
        end
      else None
  | _ => None
  end.

End Scripts.

(* ====================================================================== *)
(** * The server: date utilities, operations, dispatcher *)
(* ====================================================================== *)

Section Server.

Import Text JSDate JSON Scripts.

Context (h : Host).

(** ** Date objects on this host *)

Definition UTC (t : Z) : Z := (t - LocalTZA h t false)%Z.
Definition LocalTime (t : Z) : Z := (t + LocalTZA h t true)%Z.

Definition isoTime (f : isoFields) : Z :=
  match f_zone f with
  | NoTime => fieldsTime f
  | NoOffset => UTC (fieldsTime f)
  | Offset m => (fieldsTime f - m * msPerMinute)%Z
  end.

Definition fallbackParse (s : string) : option Z :=
  match legacyDateParse h s with
  | Some t => TimeClip t
  | None => None
  end.

(** Date.parse: the Date Time String Format first, then whatever else the
    host recognises. *)
Definition Date_parse (s : string) : option Z :=
  match readIso s with
  | Some f => if legalFields f then TimeClip (isoTime f) else fallbackParse s
  | None => fallbackParse s
  end.

(** [new Date(text)], [new Date(number)], [new Date()], [Date.now()]. *)
Definition newDate (s : string) : Date := mkDate (Date_parse s).

Definition newDateAt (t : Z) : Date := mkDate (TimeClip t).

Definition Date_now : M Z :=
  fun w => (Ok (clock h (ticks w)), mkWorld (submitted w) (S (ticks w))).

Definition newDateNow : M Date := t <- Date_now ;; ret (newDateAt t).

Definition isNaN (v : option Z) : bool :=
  match v with
  | Some _ => false
  | None => true
  end.

(** toISOString raises a RangeError on an invalid Date. *)
Definition toISOString (d : Date) : result string :=
  match getTime d with
  | Some t => Ok (isoString t)
  | None => Throw "Invalid time value"
  end.

(** [d.setHours(0, 0, 0, 0)] and [d.setDate(d.getDate() + 1)], in local
    time. *)
Definition setHoursZero (d : Date) : Date :=
  match getTime d with
  | Some t => mkDate (TimeClip (UTC (MakeDate (Day (LocalTime t)) (MakeTime 0 0 0 0))))
  | None => mkDate None
  end.

Definition setDateNext (d : Date) : Date :=
  match getTime d with
  | Some t =>
      let tl := LocalTime t in
      let dt := (DateFromTime tl + 1)%Z in
      mkDate (TimeClip (UTC (MakeDate (MakeDay (YearFromTime tl) (MonthFromTime tl) dt)
                                      (TimeWithinDay tl))))
  | None => mkDate None
  end.

(** ** AppleScript helpers *)

Definition accessDenied : string :=
  "Calendar access denied. Grant permission in System Settings > Privacy & Security > Calendars".

Definition runAppleScript (script : string) : M string :=
  fun w =>
    let escaped := shellEscape script in
    let command := "osascript -e '" ++ escaped ++ "'" in
    let w' := mkWorld (submitted w ++ [command])%list (ticks w) in
    match execAsync h (submitted w) command with
    | Stdout out => (Ok (trim out), w')
    | Rejected message =>
        if includes message "Not authorized" then (Throw accessDenied, w')
        else (Throw message, w')
    end.

Definition runAppleScriptJSON {T : Type} (JSON_parse : string -> option (list T))
    (script : string) : M (decoded (list T)) :=
  result <- runAppleScript script ;;
  if String.eqb result "" then ret (Structured [])
  else
    match JSON_parse result with
    | Some v => ret (Structured v)
    | None => ret (Opaque result)
    end.

(** ** Date utilities *)

Definition formatDateForAppleScript (date : Date) : string :=
  match getTime date with
  | Some t => toLocaleString h t
  | None => "Invalid Date"
  end.

Definition parseDate (dateStr : string) : option Date :=
  let date := newDate dateStr in
  if isNaN (getTime date) then None else Some date.

Definition formatISODate (dateStr : string) : result string :=
  if String.eqb dateStr "" || String.eqb dateStr "missing value" then Ok ""
  else
    rcatch
      (let date := newDate dateStr in
       if isNaN (getTime date) then Ok "" else toISOString date)
      (fun _ => Ok "").

Definition getDateRange (startDate endDate : Date) : DateRange :=
  mkRange (formatDateForAppleScript startDate) (formatDateForAppleScript endDate).

(** ** Permission checking *)

Definition checkPermissions : M PermissionStatus.t :=
  tryCatch
    (_ <- runAppleScript ("tell application " ++ q ++ "Calendar" ++ q ++ " to count of calendars") ;;
     ret (PermissionStatus.mk true [ "Calendar: accessible" ]))
    (fun _ =>
       ret (PermissionStatus.mk false
              [ "Calendar: NOT accessible (grant Calendar permission in System Settings)" ])).

(** ** Calendars *)

Definition getCalendars : M (decoded (list CalendarInfo.t)) :=
  runAppleScriptJSON (JSON_parse_calendars h) getCalendarsScript.

(** ** Events *)

(** The map callback of getEvents and searchEvents. *)
Definition normalizeEvent (e : CalendarEvent.t) : result CalendarEvent.t :=
  rbind (formatISODate (CalendarEvent.startDate e)) (fun s =>
  rbind (formatISODate (CalendarEvent.endDate e)) (fun en =>
  Ok (CalendarEvent.withDates e s en))).

(** The comparison function of getEvents and searchEvents: the difference
    of the two start times, NaN when one of them is NaN. *)
Definition compareStart (a b : CalendarEvent.t) : option Z :=
  match getTime (newDate (CalendarEvent.startDate a)),
        getTime (newDate (CalendarEvent.startDate b)) with
  | Some x, Some y => Some (x - y)%Z
  | _, _ => None
  end.

(** [events.map(...).sort(...)]; a raw text has no map method. *)
Definition mapAndSort (events : decoded (list CalendarEvent.t)) :
    result (list CalendarEvent.t) :=
  match events with
  | Structured l =>
      rbind (mapResult normalizeEvent l) (fun l' => Ok (arraySort compareStart l'))
  | Opaque _ => Throw "events.map is not a function"
  end.

Definition thirtyDays : Z := (30 * 24 * 60 * 60 * 1000)%Z.

Definition getEvents (calendar startDate endDate : option string) (limit : option Z) :
    M (list CalendarEvent.t) :=
  let limit := match limit with Some n => n | None => 100%Z end in
  start <- (if truthy startDate then ret (parseDate (orEmpty startDate))
            else d <- newDateNow ;; ret (Some d)) ;;
  end_ <- (if truthy endDate then ret (parseDate (orEmpty endDate))
           else t <- Date_now ;; ret (Some (newDateAt (t + thirtyDays)%Z))) ;;
  match start, end_ with
  | Some start, Some end_ =>
      let dateRange := getDateRange start end_ in
      let script := getEventsScript dateRange calendar limit in
      events <- runAppleScriptJSON (JSON_parse_events h) script ;;
      lift (mapAndSort events)
  | _, _ => throw "Invalid date format"
  end.

Definition oneHour : Z := (60 * 60 * 1000)%Z.
Definition oneDay : Z := (24 * 60 * 60 * 1000)%Z.

(** [start.getTime() + delta], NaN when the time is NaN. *)
Definition timePlus (d : Date) (delta : Z) : Date :=
  match getTime d with
  | Some t => newDateAt (t + delta)%Z
  | None => mkDate None
  end.

Definition createEvent (summary startDate : string) (endDate : option string)
    (allDay : option bool) (calendar description location url : option string) :
    M OpResult.t :=
  let allDay := match allDay with Some b => b | None => false end in
  match parseDate startDate with
  | None => ret (OpResult.mk false None (Some "Invalid start date"))
  | Some start =>
      let end_ :=
        if truthy endDate then parseDate (orEmpty endDate)
        else Some (timePlus start (if allDay then oneDay else oneHour)) in
      match end_ with
      | None => ret (OpResult.mk false None (Some "Invalid end date"))
      | Some end_ =>
          let escapedSummary := escapeQuotes summary in
          let escapedDesc := orEmpty (option_map escapeQuotes description) in
          let escapedLoc := orEmpty (option_map escapeQuotes location) in
          let escapedUrl := orEmpty (option_map escapeQuotes url) in
          let calendarTarget :=
            if truthy calendar then "calendar " ++ q ++ escapeQuotes (orEmpty calendar) ++ q
            else "first calendar" in
          let script :=
            createEventScript calendarTarget escapedSummary
              (formatDateForAppleScript start) (formatDateForAppleScript end_) allDay
              (if truthy description
               then "set description of newEvent to " ++ q ++ escapedDesc ++ q else "")
              (if truthy location
               then "set location of newEvent to " ++ q ++ escapedLoc ++ q else "")
              (if truthy url
               then "set url of newEvent to " ++ q ++ escapedUrl ++ q else "") in
          tryCatch
            (id <- runAppleScript script ;; ret (OpResult.mk true (Some id) None))
            (fun message => ret (OpResult.mk false None (Some message)))
      end
  end.

(** The set-statement of a text property, and of a date property. *)
Definition setText (property value : string) : string :=
  "set " ++ property ++ " of theEvent to " ++ q ++ escapeQuotes value ++ q.

Definition setDate (property : string) (date : Date) : string :=
  "set " ++ property ++ " of theEvent to date " ++ q ++ formatDateForAppleScript date ++ q.

Definition textUpdate (property : string) (value : option string) : list string :=
  match value with
  | Some v => [ setText property v ]
  | None => []
  end.

Definition dateUpdate (property : string) (value : option string) : list string :=
  if truthy value then
    match parseDate (orEmpty value) with
    | Some date => [ setDate property date ]
    | None => []
    end
  else [].

Definition allDayUpdate (allDay : option bool) : list string :=
  match allDay with
  | Some b => [ "set allday event of theEvent to " ++ boolToString b ]
  | None => []
  end.

(** The update lines pushed by updateEvent, in the order of its tests. *)
Definition updateLines (summary startDate endDate description location : option string)
    (allDay : option bool) : list string :=
  (textUpdate "summary" summary ++ textUpdate "description" description
     ++ textUpdate "location" location ++ dateUpdate "start date" startDate
     ++ dateUpdate "end date" endDate ++ allDayUpdate allDay)%list.

Definition updateEvent (eventId calendarName : string)
    (summary startDate endDate description location : option string)
    (allDay : option bool) : M OpResult.t :=
  let lines := updateLines summary startDate endDate description location allDay in
  if (length lines =? 0)%nat then ret (OpResult.mk false None (Some "No updates provided"))
  else
    let script := updateEventScript eventId calendarName lines in
    tryCatch
      (_ <- runAppleScript script ;; ret (OpResult.mk true None None))
      (fun message => ret (OpResult.mk false None (Some message))).

Definition deleteEvent (eventId calendarName : string) : M OpResult.t :=
  let script := deleteEventScript eventId calendarName in
  tryCatch
    (_ <- runAppleScript script ;; ret (OpResult.mk true None None))
    (fun message => ret (OpResult.mk false None (Some message))).

(** ** Search and filtered queries *)

Definition oneYear : Z := (365 * 24 * 60 * 60 * 1000)%Z.

Definition searchEvents (query : string) (calendar : option string) (limit : option Z) :
    M (list CalendarEvent.t) :=
  let limit := match limit with Some n => n | None => 50%Z end in
  let escapedQuery := escapeQuotes (toLowerCase query) in
  start <- newDateNow ;;
  t <- Date_now ;;
  let end_ := newDateAt (t + oneYear)%Z in
  let dateRange := getDateRange start end_ in
  let script := searchEventsScript escapedQuery dateRange calendar limit in
  events <- runAppleScriptJSON (JSON_parse_events h) script ;;
  lift (mapAndSort events).

Definition getTodayEvents : M (list CalendarEvent.t) :=
  now <- newDateNow ;;
  let today := setHoursZero now in
  let tomorrow := setDateNext today in
  s <- lift (toISOString today) ;;
  e <- lift (toISOString tomorrow) ;;
  getEvents None (Some s) (Some e) None.

Definition getUpcomingEvents (days : Z) : M (list CalendarEvent.t) :=
  now <- newDateNow ;;
  let future := timePlus now (days * oneDay)%Z in
  s <- lift (toISOString now) ;;
  e <- lift (toISOString future) ;;
  getEvents None (Some s) (Some e) None.

(** ** Tool handler *)

Definition stringifyEvents (events : list CalendarEvent.t) : string :=
  stringify (JArray (map CalendarEvent.toJSON events)).

Definition stringifyCalendars (calendars : decoded (list CalendarInfo.t)) : string :=
  match calendars with
  | Structured l => stringify (JArray (map CalendarInfo.toJSON l))
  | Opaque raw => stringify (JString raw)
  end.

Definition stringifyResult (r : OpResult.t) : string := stringify (OpResult.toJSON r).

Definition handleToolCall (name : string) (args : Args.t) : M string :=
  if String.eqb name "calendar_check_permissions" then
    status <- checkPermissions ;;
    ret (stringify (PermissionStatus.toJSON status))
  else if String.eqb name "calendar_get_calendars" then
    calendars <- getCalendars ;;
    ret (stringifyCalendars calendars)
  else if String.eqb name "calendar_get_events" then
    events <- getEvents (Args.calendar args) (Args.start_date args) (Args.end_date args)
                (Args.limit args) ;;
    ret (stringifyEvents events)
  else if String.eqb name "calendar_create_event" then
    if negb (truthy (Args.summary args)) || negb (truthy (Args.start_date args)) then
      throw "summary and start_date are required"
    else
      result <- createEvent (orEmpty (Args.summary args)) (orEmpty (Args.start_date args))
                  (Args.end_date args) (Args.all_day args) (Args.calendar args)
                  (Args.description args) (Args.location args) (Args.url args) ;;
      ret (stringifyResult result)
  else if String.eqb name "calendar_update_event" then
    if negb (truthy (Args.event_id args)) || negb (truthy (Args.calendar args)) then
      throw "event_id and calendar are required"
    else
      result <- updateEvent (orEmpty (Args.event_id args)) (orEmpty (Args.calendar args))
                  (Args.summary args) (Args.start_date args) (Args.end_date args)
                  (Args.description args) (Args.location args) (Args.all_day args) ;;
      ret (stringifyResult result)
  else if String.eqb name "calendar_delete_event" then
    if negb (truthy (Args.event_id args)) || negb (truthy (Args.calendar args)) then
      throw "event_id and calendar are required"
    else
      result <- deleteEvent (orEmpty (Args.event_id args)) (orEmpty (Args.calendar args)) ;;
      ret (stringifyResult result)
  else if String.eqb name "calendar_search" then
    if negb (truthy (Args.query args)) then throw "query is required"
    else
      events <- searchEvents (orEmpty (Args.query args)) (Args.calendar args)
                  (Args.limit args) ;;
      ret (stringifyEvents events)
  else if String.eqb name "calendar_get_today" then
    events <- getTodayEvents ;;
    ret (stringifyEvents events)
  else if String.eqb name "calendar_get_upcoming" then
    events <- getUpcomingEvents
                (match Args.days args with
                 | Some d => if (d =? 0)%Z then 7%Z else d
                 | None => 7%Z
                 end) ;;
    ret (stringifyEvents events)
  else throw ("Unknown tool: " ++ name).

(** ** The request handler of the server (main) *)

Definition callTool (name : string) (arguments : option Args.t) :
    World -> Envelope * World :=
  fun w =>
    let args := match arguments with Some a => a | None => Args.empty end in
    match handleToolCall name args w with
    | (Ok result, w') => (mkEnvelope [ mkContent "text" result ] None, w')
    | (Throw message, w') =>
        (mkEnvelope [ mkContent "text" ("Error: " ++ message) ] (Some true), w')
    end.

End Server.

(* ====================================================================== *)
(** * Tool definitions *)
(* ====================================================================== *)

Module Tool.
(** A tool of the list: its name, the names of its properties, and the
    required ones. *)
Record t : Type := mk { name : string; properties : list string; required : list string }.
End Tool.

Definition tools : list Tool.t :=
  [ Tool.mk "calendar_check_permissions" [] [];
    Tool.mk "calendar_get_calendars" [] [];
    Tool.mk "calendar_get_events" [ "calendar"; "start_date"; "end_date"; "limit" ] [];
    Tool.mk "calendar_create_event"
      [ "summary"; "start_date"; "end_date"; "all_day"; "calendar"; "description";
        "location"; "url" ]
      [ "summary"; "start_date" ];
    Tool.mk "calendar_update_event"
      [ "event_id"; "calendar"; "summary"; "start_date"; "end_date"; "description";
        "location"; "all_day" ]
      [ "event_id"; "calendar" ];
    Tool.mk "calendar_delete_event" [ "event_id"; "calendar" ] [ "event_id"; "calendar" ];
    Tool.mk "calendar_search" [ "query"; "calendar"; "limit" ] [ "query" ];
    Tool.mk "calendar_get_today" [] [];
    Tool.mk "calendar_get_upcoming" [ "days" ] [] ].

(** The required properties of the tool called [name]. *)
Definition requiredOf (name : string) : list string :=
  match find (fun tl => String.eqb (Tool.name tl) name) tools with
  | Some tl => Tool.required tl
  | None => []
  end.

(** The text property [property] of an argument bag. *)
Definition textArg (args : Args.t) (property : string) : option string :=
  if String.eqb property "calendar" then Args.calendar args
  else if String.eqb property "start_date" then Args.start_date args
  else if String.eqb property "end_date" then Args.end_date args
  else if String.eqb property "summary" then Args.summary args
  else if String.eqb property "description" then Args.description args
  else if String.eqb property "location" then Args.location args
  else if String.eqb property "url" then Args.url args
  else if String.eqb property "event_id" then Args.event_id args
  else if String.eqb property "query" then Args.query args
  else None.

(* ====================================================================== *)
(** * Notions used in the statements *)
(* ====================================================================== *)

(** [needle] occurs in [haystack]. *)
Definition occursIn (needle haystack : string) : Prop :=
  exists before after, haystack = before ++ needle ++ after.

(** The start instant of an event as the comparison function reads it. *)
Definition startInstant (h : Host) (e : CalendarEvent.t) : option Z :=
  getTime (newDate h (CalendarEvent.startDate e)).

(** No event with a start instant comes before an event with an earlier
    one; events without start instant are not constrained. *)
Definition sortedByStart (h : Host) (l : list CalendarEvent.t) : Prop :=
  forall i j a b x y,
    (i < j)%nat -> nth_error l i = Some a -> nth_error l j = Some b ->
    startInstant h a = Some x -> startInstant h b = Some y -> (x <= y)%Z.

(** The comparison function that subtracts the keys, NaN when a key is
    missing: the shape of the comparison function of the event lists. *)
Definition compareBy {A : Type} (key : A -> option Z) (a b : A) : option Z :=
  match key a, key b with
  | Some x, Some y => Some (x - y)%Z
  | _, _ => None
  end.

(** The elements of [l] whose key is [v], in their order in [l]. *)
Definition keyedAt {A : Type} (key : A -> option Z) (v : Z) (l : list A) : list A :=
  filter (fun a => match key a with
                   | Some x => (x =? v)%Z
                   | None => false
                   end) l.

(** The key of an element that has one. *)
Definition keyOr0 {A : Type} (key : A -> option Z) (a : A) : Z :=
  match key a with
  | Some x => x
  | None => 0%Z
  end.

(** The text formatISODate returns. *)
Definition isoText (h : Host) (dateStr : string) : string :=
  match formatISODate h dateStr with
  | Ok s => s
  | Throw _ => ""
  end.

(** An event after the map callback. *)
Definition normalized (h : Host) (e : CalendarEvent.t) : CalendarEvent.t :=
  CalendarEvent.withDates e (isoText h (CalendarEvent.startDate e))
                            (isoText h (CalendarEvent.endDate e)).

(** The envelopes of the request handler. *)
Definition successEnvelope (payload : string) : Envelope :=
  mkEnvelope [ mkContent "text" payload ] None.

Definition errorEnvelope (message : string) : Envelope :=
  mkEnvelope [ mkContent "text" ("Error: " ++ message) ] (Some true).

(** The payload of a failed create, update or delete: the pretty-printed
    object with success false and the error message. *)
Definition failurePayload (message : string) : string :=
  "{" ++ Text.nl ++ "  " ++ Text.q ++ "success" ++ Text.q ++ ": false," ++ Text.nl
      ++ "  " ++ Text.q ++ "error" ++ Text.q ++ ": " ++ JSON.quote message ++ Text.nl ++ "}".

(** What runAppleScript raises when exec rejects with [message]. *)
Definition adapterFailure (message : string) : string :=
  if Text.includes message "Not authorized" then accessDenied else message.

(** The command line runAppleScript hands to exec for [script]. *)
Definition commandFor (script : string) : string :=
  "osascript -e '" ++ Text.shellEscape script ++ "'".

(** ** An example host

    UTC as local time, a fallback that recognises nothing, a clock that
    starts on 15 January 2025 at 10:00 UTC, the long en-US rendering, and a
    given process runner and decoder. *)
Module Example.

Import JSDate.
Open Scope Z_scope.

Definition monthName (m : Z) : string :=
  nth (Z.to_nat m)
    [ "January"; "February"; "March"; "April"; "May"; "June"; "July"; "August";
      "September"; "October"; "November"; "December" ]%string ""%string.

Definition enUS (t : Z) : string :=
  let hr := HourFromTime t in
  let h12 := if hr mod 12 =? 0 then 12 else hr mod 12 in
  (monthName (MonthFromTime t) ++ " " ++ intToString (DateFromTime t) ++ ", "
     ++ intToString (YearFromTime t) ++ " at " ++ intToString h12 ++ ":"
     ++ padDigits 2 (MinFromTime t) ++ ":" ++ padDigits 2 (SecFromTime t)
     ++ (if (hr <? 12)%Z then " AM" else " PM"))%string.

Definition host (exec : list string -> string -> execResult)
    (decode : string -> option (list CalendarEvent.t)) : Host :=
  mkHost (fun _ => None) (fun _ _ => 0) (fun n => 1736935200000 + Z.of_nat n) enUS
         exec decode (fun _ => None).

(** A runner that answers every command with [out], one that rejects every
    command with [message]. *)
Definition answering (out : string) : list string -> string -> execResult :=
  fun _ _ => Stdout out.

Definition rejecting (message : string) : list string -> string -> execResult :=
  fun _ _ => Rejected message.

Definition noEvents : string -> option (list CalendarEvent.t) := fun _ => None.

Definition world0 : World := mkWorld [] 0.

Definition event (id startDate : string) : CalendarEvent.t :=
  CalendarEvent.mk id "Meeting" "" "" startDate "" false "Work" "" "confirmed".

(** A host whose scripts print nothing, and one whose scripts are refused
    by the privacy settings. *)
Definition silentHost : Host := host (answering "") noEvents.

Definition deniedMessage : string :=
  "execution error: Not authorized to send Apple events to Calendar. (-1743)".

Definition deniedHost : Host := host (rejecting deniedMessage) noEvents.

(** Argument bags: for get_events with a start date; for update_event on
    event E1 of calendar Work with a start date and a summary; for
    delete_event on that event. *)
Definition getArgs (start_date : option string) : Args.t :=
  Args.mk None start_date None None None None None None None None None None.

Definition updateArgs (start_date summary : option string) : Args.t :=
  Args.mk (Some "Work") start_date None None summary None None None None (Some "E1")
          None None.

Definition deleteArgs : Args.t := updateArgs None None.

End Example.

(* ====================================================================== *)
(** * Further notions: the command line, literals of a line, adapter use *)
(* ====================================================================== *)

Module Shell.

Import Text.

(** The word that follows -e on the command line, read by the quoting
    rules of sh: between single quotes every character stands for itself;
    outside them a backslash makes the next character stand for itself.
    A word that holds anything else outside quotes is not read. *)
Fixpoint word (inQuotes : bool) (s : string) : option string :=
  match s with
  | EmptyString => if inQuotes then None else Some EmptyString
  | String c r =>
      if inQuotes then
        if Ascii.eqb c "'" then word false r
        else option_map (String c) (word true r)
      else if Ascii.eqb c "'" then word true r
      else if Ascii.eqb c backslash then
        match r with
        | String e r' => option_map (String e) (word false r')
        | EmptyString => None
        end
      else None
  end.

(** The script osascript receives from a command line of runAppleScript. *)
Definition osascriptArgument (command : string) : option string :=
  match Scripts.stripPrefix "osascript -e " command with
  | Some w => word false w
  | None => None
  end.

End Shell.

(** The literal that follows the text [before] at the head of a script
    line: the string it denotes and the rest of the line. *)
Definition literalAfter (before line : string) : option (string * string) :=
  match Scripts.stripPrefix before line with
  | Some body => Text.readLiteral body
  | None => None
  end.

(** A text without double quote and without backslash. *)
Fixpoint plainText (s : string) : bool :=
  match s with
  | EmptyString => true
  | String c s' =>
      negb (Ascii.eqb c Text.dquote) && negb (Ascii.eqb c Text.backslash) && plainText s'
  end.

(** From world [w] to world [w'] at most one command was handed to exec,
    and the commands handed over before are kept. *)
Definition atMostOneCommand (w w' : World) : Prop :=
  submitted w' = submitted w \/ exists command, submitted w' = (submitted w ++ [ command ])%list.

(** An action that hands nothing to exec, and one that hands over at most
    one command. *)
Definition quiet {A : Type} (m : M A) : Prop :=
  forall w, submitted (snd (m w)) = submitted w.

Definition once {A : Type} (m : M A) : Prop :=
  forall w, atMostOneCommand w (snd (m w)).

(** The script of checkPermissions. *)
Definition probeScript : string :=
  "tell application " ++ Text.q ++ "Calendar" ++ Text.q ++ " to count of calendars".

(** The payload of a successful create, and of a successful update or
    delete. *)
Definition createdPayload (id : string) : string :=
  "{" ++ Text.nl ++ "  " ++ Text.q ++ "success" ++ Text.q ++ ": true," ++ Text.nl
      ++ "  " ++ Text.q ++ "id" ++ Text.q ++ ": " ++ JSON.quote id ++ Text.nl ++ "}".

Definition donePayload : string :=
  "{" ++ Text.nl ++ "  " ++ Text.q ++ "success" ++ Text.q ++ ": true" ++ Text.nl ++ "}".

(** A text of ASCII characters only (every byte below 128).  On such a
    text toLowerCase of the host language changes the letters A to Z and
    nothing else, which is [Text.toLowerCase]. *)
Fixpoint asciiText (s : string) : bool :=
  match s with
  | EmptyString => true
  | String c s' => (nat_of_ascii c <? 128)%nat && asciiText s'
  end.

(** A number of the host language is a double.  On the integers of
    magnitude at most 2^53 - 1 (Number.MAX_SAFE_INTEGER) an integer
    argument is its own double, and a template literal prints it in plain
    decimal, which is [JSDate.intToString]; beyond them a double need not
    be the integer that was sent, and its shortest decimal is padded with
    zeros or, from 10^21 on, written with an exponent. *)
Definition safeInteger (n : Z) : bool := (Z.abs n <=? 9007199254740991)%Z.

(** The limit of a request: absent, or a safe integer. *)
Definition safeLimit (limit : option Z) : bool :=
  match limit with
  | Some n => safeInteger n
  | None => true
  end.

(** Local midnight of the day of [t] when local time is UTC plus [offset]. *)
Definition localMidnight (offset t : Z) : Z :=
  ((t + offset) / JSDate.msPerDay * JSDate.msPerDay - offset)%Z.

(** Further example hosts: one whose scripts print [out] and whose decoder
    knows no event list, and one whose local time is UTC plus one hour. *)
Module Example2.

Definition printingHost (out : string) : Host :=
  Example.host (Example.answering out) Example.noEvents.

Definition offsetHost : Host :=
  mkHost (fun _ => None) (fun _ _ => 3600000%Z)
         (fun n => (1736935200000 + Z.of_nat n)%Z) Example.enUS
         (Example.answering "") Example.noEvents (fun _ => None).

Definition searchArgs (query : string) : Args.t :=
  Args.mk None None None None None None None None None None (Some query) None.

Definition createArgs (summary start_date : string) (end_date : option string) : Args.t :=
  Args.mk None (Some start_date) end_date None (Some summary) None None None None None
          None None.

Definition daysArgs (days : option Z) : Args.t :=
  Args.mk None None None None None None None None None None None days.

Definition rangeArgs (start_date end_date : string) : Args.t :=
  Args.mk (Some "Work") (Some start_date) (Some end_date) (Some 10%Z) None None None
          None None None None None.

End Example2.

(* ====================================================================== *)
(** * Properties *)
(* ====================================================================== *)

(** ** Text *)

Section TextFacts.

Import Text.

Lemma append_assoc (a b c : string) : (a ++ b) ++ c = a ++ (b ++ c).
Proof. induction a as [|x a IH]; simpl; [reflexivity | now rewrite IH]. Qed.

Lemma append_nil_r (a : string) : a ++ "" = a.
Proof. induction a as [|x a IH]; simpl; [reflexivity | now rewrite IH]. Qed.

Lemma prefix_occurs (p s : string) :
  prefix p s = true <-> exists r, s = p ++ r.
Proof.
  revert s. induction p as [|a p IH]; intros s.
  - destruct s; simpl; (split; [intros _; eexists; reflexivity | reflexivity]).
  - destruct s as [|b s]; simpl.
    + split; [discriminate | intros [r Hr]; discriminate].
    + destruct (ascii_dec a b) as [->|Hne].
      * rewrite IH. split; intros [r Hr]; exists r; simpl in *; congruence.
      * split; [discriminate | intros [r Hr]; simpl in Hr; congruence].
Qed.

(** [includes] decides occurrence. *)
Lemma includes_occursIn (haystack needle : string) :
  includes haystack needle = true <-> occursIn needle haystack.
Proof.
  unfold occursIn. induction haystack as [|c hs IH]; cbn [includes].
  - destruct (prefix needle "") eqn:Hp.
    + apply prefix_occurs in Hp. destruct Hp as [r Hr].
      split; [intros _; exists "", r; exact Hr | reflexivity].
    + split; [discriminate |].
      intros [b [a Ha]]. destruct b; [|discriminate]. simpl in Ha.
      assert (prefix needle "" = true) by (apply prefix_occurs; eauto). congruence.
  - destruct (prefix needle (String c hs)) eqn:Hp.
    + apply prefix_occurs in Hp. destruct Hp as [r Hr].
      split; [intros _; exists "", r; exact Hr | reflexivity].
    + rewrite IH. split.
      * intros [b [a Ha]]. exists (String c b), a. simpl. now rewrite Ha.
      * intros [b [a Ha]]. destruct b as [|x b].
        -- simpl in Ha.
           assert (prefix needle (String c hs) = true) by (apply prefix_occurs; eauto).
           congruence.
        -- simpl in Ha. injection Ha as _ Ha. eauto.
Qed.

Lemma occursIn_refl (s : string) : occursIn s s.
Proof. exists "", "". simpl. now rewrite append_nil_r. Qed.

Lemma occursIn_app_l (n a b : string) : occursIn n a -> occursIn n (a ++ b).
Proof.
  intros [x [y ->]]. exists x, (y ++ b). now rewrite !append_assoc.
Qed.

Lemma occursIn_app_r (n a b : string) : occursIn n b -> occursIn n (a ++ b).
Proof.
  intros [x [y ->]]. exists (a ++ x), y. now rewrite !append_assoc.
Qed.

Lemma occursIn_trans (a b c : string) : occursIn a b -> occursIn b c -> occursIn a c.
Proof.
  intros [x [y ->]] [u [v ->]]. exists (u ++ x), (y ++ v).
  now rewrite !append_assoc.
Qed.

Lemma occursIn_join (sep x : string) (l : list string) :
  In x l -> occursIn x (join sep l).
Proof.
  induction l as [|y l IH]; [intros [] |].
  intros [-> | Hin].
  - destruct l; simpl; [apply occursIn_refl | apply occursIn_app_l, occursIn_refl].
  - specialize (IH Hin). destruct l as [|z l]; [destruct Hin |].
    change (join sep (y :: z :: l)) with (y ++ sep ++ join sep (z :: l)).
    now apply occursIn_app_r, occursIn_app_r.
Qed.

(** Escaping leaves a string without double quote unchanged. *)
Lemma replaceAllChar_absent (c : ascii) (by_ s : string) :
  (forall a b, s <> a ++ String c b) -> replaceAllChar c by_ s = s.
Proof.
  induction s as [|x s IH]; intros H; simpl; [reflexivity |].
  destruct (Ascii.eqb_spec x c) as [->|Hne].
  - exfalso. apply (H "" s). reflexivity.
  - simpl. f_equal. apply IH. intros a b ->. apply (H (String x a) b). reflexivity.
Qed.

(** The literal that holds the escaped text of a string without backslash
    denotes that string, whatever follows the closing quote. *)
Lemma readLiteral_escapeQuotes (s rest : string) :
  noBackslash s = true ->
  readLiteral (escapeQuotes s ++ q ++ rest) = Some (s, rest).
Proof.
  unfold escapeQuotes. induction s as [|c s IH]; intros Hs; simpl in *.
  - reflexivity.
  - apply andb_true_iff in Hs. destruct Hs as [Hc Hs]. specialize (IH Hs).
    destruct (Ascii.eqb_spec c dquote) as [->|Hq].
    + simpl. simpl in IH. rewrite IH. reflexivity.
    + simpl. destruct (Ascii.eqb_spec c dquote) as [|_]; [contradiction |].
      destruct (Ascii.eqb c backslash); [discriminate |].
      simpl in IH. rewrite IH. reflexivity.
Qed.

End TextFacts.

(** ** Escaping and the generated scripts *)

Section ScriptFacts.

Import Text Scripts.

(** C1 (code defect).  The escaping applied to the summary before it is put
    between quotes in the script of createEvent replaces double quotes
    only: a backslash and a line feed come out unchanged, and for the
    summary made of a backslash and a double quote the literal of the
    generated line denotes the backslash alone, the closing quote of the
    template being left over after it. *)
Theorem C1_backslash_is_not_escaped :
  escapeQuotes bs = bs /\ escapeQuotes nl = nl /\
  forall calendarTarget startText endText allDay descLine locLine urlLine,
  exists rest,
    nth 2 (createEventLines calendarTarget (escapeQuotes (bs ++ q)) startText endText
             allDay descLine locLine urlLine) ""
    = ("      set newEvent to make new event at end of events of " ++ calendarTarget
         ++ " with properties {summary:" ++ q)
        ++ (escapeQuotes (bs ++ q) ++ q ++ rest)
    /\ readLiteral (escapeQuotes (bs ++ q) ++ q ++ rest) = Some (bs, q ++ rest)
    /\ bs <> bs ++ q.
Proof.
  split; [reflexivity | split; [reflexivity |]].
  intros. eexists. split; [| split].
  - cbn [nth createEventLines]. rewrite !append_assoc. reflexivity.
  - reflexivity.
  - discriminate.
Qed.

(** A summary that ends in a backslash: the closing quote of the template
    is read as an escaped quote and the literal runs on to the quote that
    opens the start date. *)
Lemma trailing_backslash_swallows_template (rest : string) :
  readLiteral (escapeQuotes ("C:" ++ bs) ++ q ++ ", start date:date " ++ q ++ rest)
  = Some ("C:" ++ q ++ ", start date:date ", rest).
Proof. reflexivity. Qed.

(** The escaping of updateEvent is the same function. *)
Lemma setText_literal (property value : string) :
  noBackslash value = true ->
  exists pre, setText property value = pre ++ q ++ (escapeQuotes value ++ q ++ "")
              /\ readLiteral (escapeQuotes value ++ q ++ "") = Some (value, "").
Proof.
  intros Hv. exists ("set " ++ property ++ " of theEvent to "). split.
  - unfold setText. rewrite !append_assoc. reflexivity.
  - now apply readLiteral_escapeQuotes.
Qed.

Lemma targetBlock_in_script (dateRange : DateRange) (calendar : option string)
    (limit : Z) (line : string) :
  In line (targetBlock calendar) ->
  occursIn line (getEventsScript dateRange calendar limit).
Proof.
  intros Hin. unfold getEventsScript, unlines. apply occursIn_join.
  apply in_or_app. right. apply in_or_app. left. exact Hin.
Qed.

(** C2 (code defect).  With the calendar argument absent the script of
    getEvents holds the test of the literal undefined against the empty
    literal, so the block assigns the calendar of empty name and not all
    calendars; only an empty calendar name selects all calendars, whereas
    searchEvents selects all calendars for an absent one. *)
Theorem C2_absent_calendar_is_not_all_calendars :
  (forall dateRange limit,
      occursIn ("      if " ++ q ++ "undefined" ++ q ++ " is " ++ q ++ q ++ " then")
               (getEventsScript dateRange None limit))
  /\ runTargetBlock (targetBlock None) = Some (NamedCalendar "")
  /\ runTargetBlock (targetBlock (Some "")) = Some AllCalendars
  /\ searchTarget None = "set targetCals to calendars".
Proof.
  split; [| repeat split; reflexivity].
  intros. apply targetBlock_in_script. left. reflexivity.
Qed.

End ScriptFacts.

(** ** The sort of the event lists *)

Section SortFacts.

Context {A : Type} (key : A -> option Z).

Local Abbreviation cmp := (compareBy key).
Local Abbreviation kz := (keyOr0 key).

(** The prefix is sorted when, read backwards, the keys do not increase. *)
Local Abbreviation descending := (StronglySorted (fun a b => (kz b <= kz a)%Z)).
Local Abbreviation ascending := (StronglySorted (fun a b => (kz a <= kz b)%Z)).
Local Abbreviation keyed := (Forall (fun a => key a <> None)).

Lemma SortCompare_negative (x y : A) :
  (SortCompare cmp x y <? 0)%Z = true ->
  exists kx ky, key x = Some kx /\ key y = Some ky /\ (kx < ky)%Z.
Proof.
  unfold SortCompare, cmp, compareBy.
  destruct (key x) as [kx|], (key y) as [ky|]; try discriminate.
  intros H. apply Z.ltb_lt in H. exists kx, ky. repeat split; lia.
Qed.

Lemma SortCompare_keyed (x y : A) :
  key x <> None -> key y <> None -> SortCompare cmp x y = (kz x - kz y)%Z.
Proof.
  unfold SortCompare, cmp, compareBy, kz, keyOr0.
  destruct (key x), (key y); congruence.
Qed.

Lemma insertBack_perm (x : A) (revPrefix : list A) :
  Permutation (insertBack cmp x revPrefix) (x :: revPrefix).
Proof.
  induction revPrefix as [|y rest IH]; simpl; [reflexivity |].
  destruct (SortCompare cmp x y <? 0)%Z; [| reflexivity].
  rewrite IH. apply perm_swap.
Qed.

Lemma insertBack_descending (x : A) (revPrefix : list A) :
  key x <> None -> keyed revPrefix -> descending revPrefix ->
  descending (insertBack cmp x revPrefix).
Proof.
  intros Hx. induction revPrefix as [|y rest IH]; intros Hk Hs; simpl.
  - repeat constructor.
  - inversion Hk as [|? ? Hy Hrest]; subst. inversion Hs as [|? ? Hs' Hall]; subst.
    rewrite SortCompare_keyed by assumption.
    destruct (kz x - kz y <? 0)%Z eqn:Hlt.
    + apply Z.ltb_lt in Hlt. constructor; [now apply IH |].
      eapply Permutation_Forall; [symmetry; apply insertBack_perm |].
      constructor; [lia | exact Hall].
    + apply Z.ltb_ge in Hlt. constructor; [exact Hs |].
      constructor; [lia |].
      eapply Forall_impl; [| exact Hall]. simpl. intros a Ha. lia.
Qed.

(** An element moves in front of elements of a strictly larger key only:
    the elements of any one key keep their order. *)
Lemma insertBack_stable (v : Z) (x : A) (revPrefix : list A) :
  keyedAt key v (rev (insertBack cmp x revPrefix))
  = keyedAt key v (rev revPrefix ++ [x]).
Proof.
  unfold keyedAt. induction revPrefix as [|y rest IH]; simpl; [reflexivity |].
  destruct (SortCompare cmp x y <? 0)%Z eqn:Hlt.
  - apply SortCompare_negative in Hlt. destruct Hlt as (kx & ky & Hx & Hy & Hxy).
    simpl. rewrite !filter_app, IH, !filter_app. simpl. rewrite Hx, Hy.
    rewrite <- !app_assoc. f_equal.
    destruct (kx =? v)%Z eqn:E1, (ky =? v)%Z eqn:E2; try reflexivity.
    apply Z.eqb_eq in E1, E2. lia.
  - simpl. rewrite <- !app_assoc. reflexivity.
Qed.

Lemma fold_insertBack_perm (l acc : list A) :
  Permutation (fold_left (fun rp x => insertBack cmp x rp) l acc) (rev l ++ acc).
Proof.
  revert acc. induction l as [|x l IH]; intros acc; simpl; [reflexivity |].
  rewrite IH, insertBack_perm, <- app_assoc. simpl.
  apply Permutation_app_head. reflexivity.
Qed.

Lemma fold_insertBack_descending (l acc : list A) :
  keyed l -> keyed acc -> descending acc ->
  descending (fold_left (fun rp x => insertBack cmp x rp) l acc).
Proof.
  revert acc. induction l as [|x l IH]; intros acc Hl Ha Hs; simpl; [exact Hs |].
  inversion Hl as [|? ? Hx Hl']; subst. apply IH; [exact Hl' | |].
  - eapply Permutation_Forall; [symmetry; apply insertBack_perm |].
    constructor; assumption.
  - now apply insertBack_descending.
Qed.

Lemma fold_insertBack_stable (v : Z) (l acc : list A) :
  keyedAt key v (rev (fold_left (fun rp x => insertBack cmp x rp) l acc))
  = keyedAt key v (rev acc ++ l).
Proof.
  revert acc. induction l as [|x l IH]; intros acc; simpl.
  - now rewrite app_nil_r.
  - rewrite IH. unfold keyedAt in *. rewrite filter_app.
    change (filter _ (rev (insertBack cmp x acc)))
      with (keyedAt key v (rev (insertBack cmp x acc))).
    rewrite insertBack_stable. unfold keyedAt.
    rewrite <- filter_app, <- app_assoc. reflexivity.
Qed.

Lemma descending_rev (l : list A) : descending l -> ascending (rev l).
Proof.
  induction 1 as [|a l Hs IH Hall]; simpl; [constructor |].
  clear Hs. revert IH. generalize (rev_involutive l).
  assert (Hall' : Forall (fun b => (kz b <= kz a)%Z) (rev l)).
  { apply Forall_forall. intros b Hb. apply in_rev in Hb.
    rewrite Forall_forall in Hall. now apply Hall. }
  clear Hall. intros _. induction (rev l) as [|b m IHm]; intros Hm; simpl.
  - repeat constructor.
  - inversion Hm as [|? ? Hm' Hbm]; subst. inversion Hall' as [|? ? Hb Hall'']; subst.
    constructor; [now apply IHm |].
    apply Forall_app. split; [exact Hbm | repeat constructor; exact Hb].
Qed.

(** The sort permutes its input. *)
Lemma arraySort_perm (l : list A) : Permutation (arraySort cmp l) l.
Proof.
  unfold arraySort. rewrite <- Permutation_rev, fold_insertBack_perm, app_nil_r.
  symmetry. apply Permutation_rev.
Qed.

(** The elements of any one key keep their order, consistent comparison
    function or not. *)
Lemma arraySort_stable (v : Z) (l : list A) :
  keyedAt key v (arraySort cmp l) = keyedAt key v l.
Proof. unfold arraySort. now rewrite fold_insertBack_stable. Qed.

(** When every element has a key the result is in non-decreasing order of
    the keys. *)
Lemma arraySort_ascending (l : list A) : keyed l -> ascending (arraySort cmp l).
Proof.
  intros Hl. unfold arraySort. apply descending_rev.
  apply fold_insertBack_descending; [exact Hl | constructor | constructor].
Qed.

End SortFacts.

(** ** Date utilities *)

Section DateFacts.

Import Text JSDate.

Context (h : Host).

Lemma formatISODate_value (dateStr : string) :
  formatISODate h dateStr
  = Ok (if String.eqb dateStr "" || String.eqb dateStr "missing value" then ""
        else match Date_parse h dateStr with
             | Some t => isoString t
             | None => ""
             end).
Proof.
  unfold formatISODate, newDate, toISOString, rcatch. simpl.
  destruct (String.eqb dateStr "" || String.eqb dateStr "missing value"); [reflexivity |].
  destruct (Date_parse h dateStr); reflexivity.
Qed.

Lemma isoText_value (dateStr : string) :
  isoText h dateStr
  = if String.eqb dateStr "" || String.eqb dateStr "missing value" then ""
    else match Date_parse h dateStr with
         | Some t => isoString t
         | None => ""
         end.
Proof. unfold isoText. now rewrite formatISODate_value. Qed.

Lemma normalizeEvent_value (e : CalendarEvent.t) :
  normalizeEvent h e = Ok (normalized h e).
Proof.
  unfold normalizeEvent, normalized, isoText.
  rewrite !formatISODate_value. reflexivity.
Qed.

Lemma mapResult_normalizeEvent (l : list CalendarEvent.t) :
  mapResult (normalizeEvent h) l = Ok (map (normalized h) l).
Proof.
  induction l as [|e l IH]; simpl; [reflexivity |].
  now rewrite normalizeEvent_value, IH.
Qed.

(** What getEvents and searchEvents return for a decoded list. *)
Lemma mapAndSort_value (l : list CalendarEvent.t) :
  mapAndSort h (Structured l)
  = Ok (arraySort (compareBy (startInstant h)) (map (normalized h) l)).
Proof. unfold mapAndSort. now rewrite mapResult_normalizeEvent. Qed.

(** When every item has a start instant after the map, the returned list
    is a permutation of the mapped items in non-decreasing order of the
    start instants, and items of equal start instant keep their order. *)
Lemma mapAndSort_sorted_stable (l : list CalendarEvent.t) :
  Forall (fun e => startInstant h e <> None) (map (normalized h) l) ->
  exists r,
    mapAndSort h (Structured l) = Ok r
    /\ Permutation r (map (normalized h) l)
    /\ StronglySorted
         (fun a b => (keyOr0 (startInstant h) a <= keyOr0 (startInstant h) b)%Z) r
    /\ forall v, keyedAt (startInstant h) v r
                 = keyedAt (startInstant h) v (map (normalized h) l).
Proof.
  intros Hk. eexists. split; [apply mapAndSort_value |]. split; [| split].
  - apply arraySort_perm.
  - now apply arraySort_ascending.
  - intros v. apply arraySort_stable.
Qed.

Lemma StronglySorted_nth {A : Type} (R : A -> A -> Prop) (l : list A) :
  StronglySorted R l ->
  forall i j a b, (i < j)%nat -> nth_error l i = Some a -> nth_error l j = Some b -> R a b.
Proof.
  induction 1 as [|x l Hs IH Hall]; intros i j a b Hij Hi Hj.
  - destruct i; discriminate.
  - destruct j as [|j]; [lia |]. simpl in Hj. destruct i as [|i]; simpl in Hi.
    + injection Hi as <-. rewrite Forall_forall in Hall. apply Hall.
      eapply nth_error_In. exact Hj.
    + apply (IH i j); [lia | assumption | assumption].
Qed.

(** In particular such a returned list is sorted by start. *)
Lemma mapAndSort_sortedByStart (l : list CalendarEvent.t) :
  Forall (fun e => startInstant h e <> None) (map (normalized h) l) ->
  exists r, mapAndSort h (Structured l) = Ok r /\ sortedByStart h r.
Proof.
  intros Hk. destruct (mapAndSort_sorted_stable l Hk) as (r & Hr & _ & Hs & _).
  exists r. split; [exact Hr |].
  intros i j a b x y Hij Hi Hj Ha Hb.
  pose proof (StronglySorted_nth _ _ Hs i j a b Hij Hi Hj) as Hab.
  unfold keyOr0 in Hab. now rewrite Ha, Hb in Hab.
Qed.

Lemma Date_parse_empty : legacyDateParse h "" = None -> Date_parse h "" = None.
Proof.
  intros H. unfold Date_parse, fallbackParse.
  change (readIso "") with (@None isoFields). now rewrite H.
Qed.

(** A text in the Date Time String Format with legal element values. *)
Lemma Date_parse_iso (s : string) (f : isoFields) :
  readIso s = Some f -> legalFields f = true ->
  Date_parse h s = TimeClip (isoTime h f).
Proof. intros Hr Hl. unfold Date_parse. now rewrite Hr, Hl. Qed.

Lemma SortCompare_nan {A : Type} (key : A -> option Z) (x y : A) :
  key x = None \/ key y = None -> SortCompare (compareBy key) x y = 0%Z.
Proof.
  unfold SortCompare, compareBy. intros [H | H]; rewrite H; [reflexivity |].
  destruct (key x); reflexivity.
Qed.

(** Three elements of which the second has no key stay as they are. *)
Lemma arraySort_around_nan {A : Type} (key : A -> option Z) (a b c : A) :
  key b = None -> arraySort (compareBy key) [ a; b; c ] = [ a; b; c ].
Proof.
  intros Hb. unfold arraySort. cbn [fold_left insertBack].
  rewrite (SortCompare_nan key b a) by (left; exact Hb). cbn [Z.ltb Z.compare].
  cbn [insertBack]. rewrite (SortCompare_nan key c b) by (right; exact Hb).
  reflexivity.
Qed.

End DateFacts.

(** Solves [Date_parse h s = Some t] for a literal [s] in the Date Time
    String Format that carries no local time. *)
Ltac iso_parse :=
  erewrite Date_parse_iso by (vm_compute; reflexivity);
  vm_compute; reflexivity.

Section EventListFacts.

Import Text JSDate.

Context (h : Host).

Lemma isoText_missing : isoText h "missing value" = "".
Proof. rewrite isoText_value. reflexivity. Qed.

Lemma isoText_empty : isoText h "" = "".
Proof. rewrite isoText_value. reflexivity. Qed.

Lemma isoText_jan1 : isoText h "2025-01-01" = "2025-01-01T00:00:00.000Z".
Proof.
  rewrite isoText_value.
  assert (Hp : Date_parse h "2025-01-01" = Some 1735689600000%Z) by iso_parse.
  rewrite Hp. vm_compute. reflexivity.
Qed.

Lemma isoText_jan2 : isoText h "2025-01-02" = "2025-01-02T00:00:00.000Z".
Proof.
  rewrite isoText_value.
  assert (Hp : Date_parse h "2025-01-02" = Some 1735776000000%Z) by iso_parse.
  rewrite Hp. vm_compute. reflexivity.
Qed.

(** C3 (code defect).  An item whose start is the missing-value sentinel is
    mapped to an empty start, the comparison function yields NaN against
    it, and the list comes back in its input order: the item that starts on
    2 January stays before the item that starts on 1 January. *)
Theorem C3_missing_start_leaves_list_unsorted :
  legacyDateParse h "" = None ->
  exists r,
    mapAndSort h
      (Structured [ Example.event "a" "2025-01-02";
                    Example.event "b" "missing value";
                    Example.event "c" "2025-01-01" ]) = Ok r
    /\ map CalendarEvent.id r = [ "a"; "b"; "c" ]
    /\ map (startInstant h) r = [ Some 1735776000000%Z; None; Some 1735689600000%Z ]
    /\ ~ sortedByStart h r.
Proof.
  intros Hl. pose proof (Date_parse_empty h Hl) as He.
  assert (Hr : mapAndSort h
      (Structured [ Example.event "a" "2025-01-02";
                    Example.event "b" "missing value";
                    Example.event "c" "2025-01-01" ])
    = Ok [ Example.event "a" "2025-01-02T00:00:00.000Z";
           Example.event "b" "";
           Example.event "c" "2025-01-01T00:00:00.000Z" ]).
  { rewrite mapAndSort_value. f_equal. cbn [map].
    unfold normalized, Example.event.
    cbn [CalendarEvent.startDate CalendarEvent.endDate].
    rewrite isoText_jan1, isoText_jan2, isoText_missing, isoText_empty.
    unfold CalendarEvent.withDates.
    cbn [CalendarEvent.id CalendarEvent.summary CalendarEvent.description
         CalendarEvent.location CalendarEvent.allDay CalendarEvent.calendar
         CalendarEvent.url CalendarEvent.status].
    apply arraySort_around_nan. exact He. }
  assert (Ha : startInstant h (Example.event "a" "2025-01-02T00:00:00.000Z")
               = Some 1735776000000%Z).
  { unfold startInstant, newDate, Example.event.
    cbn [getTime CalendarEvent.startDate]. iso_parse. }
  assert (Hb : startInstant h (Example.event "b" "") = None).
  { unfold startInstant, newDate, Example.event.
    cbn [getTime CalendarEvent.startDate]. exact He. }
  assert (Hc : startInstant h (Example.event "c" "2025-01-01T00:00:00.000Z")
               = Some 1735689600000%Z).
  { unfold startInstant, newDate, Example.event.
    cbn [getTime CalendarEvent.startDate]. iso_parse. }
  eexists. split; [exact Hr |]. split; [reflexivity |].
  split; [cbn [map]; now rewrite Ha, Hb, Hc |].
  intros Hsorted.
  specialize (Hsorted 0%nat 2%nat _ _ 1735776000000%Z 1735689600000%Z
                ltac:(lia) eq_refl eq_refl Ha Hc).
  lia.
Qed.

End EventListFacts.

(** ** The execution adapter *)

Section AdapterFacts.

Import Text Scripts.

Context (h : Host).

Lemma runAppleScript_rejected (script : string) (w : World) (message : string) :
  execAsync h (submitted w) (commandFor script) = Rejected message ->
  runAppleScript h script w
  = (Throw (adapterFailure message),
     mkWorld (submitted w ++ [ commandFor script ]) (ticks w)).
Proof.
  intros H. unfold runAppleScript, adapterFailure. fold (commandFor script).
  rewrite H. destruct (includes message "Not authorized"); reflexivity.
Qed.

Lemma runAppleScript_stdout (script : string) (w : World) (out : string) :
  execAsync h (submitted w) (commandFor script) = Stdout out ->
  runAppleScript h script w
  = (Ok (trim out), mkWorld (submitted w ++ [ commandFor script ]) (ticks w)).
Proof.
  intros H. unfold runAppleScript. fold (commandFor script). now rewrite H.
Qed.

(** Every call of runAppleScript hands exactly one command to exec. *)
Lemma runAppleScript_submits (script : string) (w : World) :
  snd (runAppleScript h script w)
  = mkWorld (submitted w ++ [ commandFor script ]) (ticks w).
Proof.
  destruct (execAsync h (submitted w) (commandFor script)) as [out | m] eqn:E.
  - now rewrite (runAppleScript_stdout _ _ _ E).
  - now rewrite (runAppleScript_rejected _ _ _ E).
Qed.

(** C5.  When exec rejects, runAppleScript raises the fixed access-denied
    message if the rejection message contains the text Not authorized, and
    the rejection message itself otherwise. *)
Theorem C5_adapter_failure_translation (script : string) (w : World) (message : string) :
  execAsync h (submitted w) (commandFor script) = Rejected message ->
  (occursIn "Not authorized" message ->
   fst (runAppleScript h script w)
   = Throw "Calendar access denied. Grant permission in System Settings > Privacy & Security > Calendars")
  /\ (~ occursIn "Not authorized" message ->
      fst (runAppleScript h script w) = Throw message).
Proof.
  intros H. rewrite (runAppleScript_rejected _ _ _ H). unfold adapterFailure.
  destruct (includes message "Not authorized") eqn:Hi; simpl.
  - split; [reflexivity |]. intros Hn. exfalso. apply Hn.
    now apply includes_occursIn.
  - split; [| reflexivity]. intros Ho. apply includes_occursIn in Ho. congruence.
Qed.

End AdapterFacts.

(** ** The dispatcher *)

Section DispatcherFacts.

Import Text Scripts JSON.

Context (h : Host).

Lemma handle_create (args : Args.t) :
  handleToolCall h "calendar_create_event" args
  = if negb (truthy (Args.summary args)) || negb (truthy (Args.start_date args)) then
      throw "summary and start_date are required"
    else
      result <- createEvent h (orEmpty (Args.summary args)) (orEmpty (Args.start_date args))
                  (Args.end_date args) (Args.all_day args) (Args.calendar args)
                  (Args.description args) (Args.location args) (Args.url args) ;;
      ret (stringifyResult result).
Proof. reflexivity. Qed.

Lemma handle_update (args : Args.t) :
  handleToolCall h "calendar_update_event" args
  = if negb (truthy (Args.event_id args)) || negb (truthy (Args.calendar args)) then
      throw "event_id and calendar are required"
    else
      result <- updateEvent h (orEmpty (Args.event_id args)) (orEmpty (Args.calendar args))
                  (Args.summary args) (Args.start_date args) (Args.end_date args)
                  (Args.description args) (Args.location args) (Args.all_day args) ;;
      ret (stringifyResult result).
Proof. reflexivity. Qed.

Lemma handle_delete (args : Args.t) :
  handleToolCall h "calendar_delete_event" args
  = if negb (truthy (Args.event_id args)) || negb (truthy (Args.calendar args)) then
      throw "event_id and calendar are required"
    else
      result <- deleteEvent h (orEmpty (Args.event_id args)) (orEmpty (Args.calendar args)) ;;
      ret (stringifyResult result).
Proof. reflexivity. Qed.

Lemma handle_search (args : Args.t) :
  handleToolCall h "calendar_search" args
  = if negb (truthy (Args.query args)) then throw "query is required"
    else
      events <- searchEvents h (orEmpty (Args.query args)) (Args.calendar args)
                  (Args.limit args) ;;
      ret (stringifyEvents events).
Proof. reflexivity. Qed.

Lemma handle_get_events (args : Args.t) :
  handleToolCall h "calendar_get_events" args
  = (events <- getEvents h (Args.calendar args) (Args.start_date args)
                 (Args.end_date args) (Args.limit args) ;;
     ret (stringifyEvents events)).
Proof. reflexivity. Qed.

(** The request handler turns a raised exception into the error envelope
    and a returned text into the success envelope. *)
Lemma callTool_throw (name : string) (args : Args.t) (w w' : World) (message : string) :
  handleToolCall h name args w = (Throw message, w') ->
  callTool h name (Some args) w = (errorEnvelope message, w').
Proof. intros H. unfold callTool. now rewrite H. Qed.

Lemma callTool_ok (name : string) (args : Args.t) (w w' : World) (payload : string) :
  handleToolCall h name args w = (Ok payload, w') ->
  callTool h name (Some args) w = (successEnvelope payload, w').
Proof. intros H. unfold callTool. now rewrite H. Qed.

(** C4.  A call of create_event, update_event, delete_event or search in
    which a required argument is absent (or empty) raises at once: the world
    is unchanged, so nothing was handed to the execution adapter; the
    message contains the name of the missing argument; and the request
    handler answers with the error envelope. *)
Theorem C4_missing_required_argument (name property : string) (args : Args.t) (w : World) :
  In name [ "calendar_create_event"; "calendar_update_event"; "calendar_delete_event";
            "calendar_search" ] ->
  In property (requiredOf name) ->
  truthy (textArg args property) = false ->
  exists message,
    handleToolCall h name args w = (Throw message, w)
    /\ occursIn property message
    /\ callTool h name (Some args) w = (errorEnvelope message, w).
Proof.
  intros Hname Hprop Hmiss.
  assert (Hgoal : exists message,
             handleToolCall h name args w = (Throw message, w)
             /\ occursIn property message).
  { simpl in Hname.
    destruct Hname as [<- | [<- | [<- | [<- | []]]]];
      simpl in Hprop; repeat (destruct Hprop as [<- | Hprop]); try contradiction;
      cbn in Hmiss.
    - exists "summary and start_date are required". split.
      + rewrite handle_create, Hmiss. reflexivity.
      + exists "", " and start_date are required". reflexivity.
    - exists "summary and start_date are required". split.
      + rewrite handle_create, Hmiss, orb_true_r. reflexivity.
      + exists "summary and ", " are required". reflexivity.
    - exists "event_id and calendar are required". split.
      + rewrite handle_update, Hmiss. reflexivity.
      + exists "", " and calendar are required". reflexivity.
    - exists "event_id and calendar are required". split.
      + rewrite handle_update, Hmiss, orb_true_r. reflexivity.
      + exists "event_id and ", " are required". reflexivity.
    - exists "event_id and calendar are required". split.
      + rewrite handle_delete, Hmiss. reflexivity.
      + exists "", " and calendar are required". reflexivity.
    - exists "event_id and calendar are required". split.
      + rewrite handle_delete, Hmiss, orb_true_r. reflexivity.
      + exists "event_id and ", " are required". reflexivity.
    - exists "query is required". split.
      + rewrite handle_search, Hmiss. reflexivity.
      + exists "", " is required". reflexivity. }
  destruct Hgoal as (message & Hh & Ho). exists message.
  split; [exact Hh |]. split; [exact Ho |]. now apply callTool_throw.
Qed.

End DispatcherFacts.

(** ** Create, update, delete *)

Section OperationFacts.

Import Text Scripts JSON.

Context (h : Host).

Lemma stringifyResult_failure (message : string) :
  stringifyResult (OpResult.mk false None (Some message)) = failurePayload message.
Proof.
  unfold stringifyResult, stringify, failurePayload, OpResult.toJSON, quote. simpl.
  rewrite !append_assoc. reflexivity.
Qed.

(** A rejected script inside the try of createEvent, updateEvent and
    deleteEvent becomes a returned object, not an exception. *)
Lemma tryCatch_rejected (script : string) (k : string -> M OpResult.t) (w : World)
    (message : string) :
  execAsync h (submitted w) (commandFor script) = Rejected message ->
  tryCatch (x <- runAppleScript h script ;; k x)
           (fun e => ret (OpResult.mk false None (Some e))) w
  = (Ok (OpResult.mk false None (Some (adapterFailure message))),
     mkWorld (submitted w ++ [ commandFor script ]) (ticks w)).
Proof.
  intros H. unfold tryCatch, bind. now rewrite (runAppleScript_rejected h _ _ _ H).
Qed.

Lemma createEvent_rejected (summary startDate : string) (endDate : option string)
    (allDay : option bool) (calendar description location url : option string)
    (w : World) (message : string) :
  (forall command, execAsync h (submitted w) command = Rejected message) ->
  parseDate h startDate <> None ->
  (truthy endDate = true -> parseDate h (orEmpty endDate) <> None) ->
  exists command,
    createEvent h summary startDate endDate allDay calendar description location url w
    = (Ok (OpResult.mk false None (Some (adapterFailure message))),
       mkWorld (submitted w ++ [ command ]) (ticks w)).
Proof.
  intros Hx Hs He. unfold createEvent.
  destruct (parseDate h startDate) as [start|]; [| congruence].
  destruct (truthy endDate).
  - destruct (parseDate h (orEmpty endDate)) as [end_|]; [| now exfalso; apply He].
    eexists. apply tryCatch_rejected. apply Hx.
  - eexists. apply tryCatch_rejected. apply Hx.
Qed.

Lemma updateEvent_rejected (eventId calendarName : string)
    (summary startDate endDate description location : option string)
    (allDay : option bool) (w : World) (message : string) :
  (forall command, execAsync h (submitted w) command = Rejected message) ->
  updateLines h summary startDate endDate description location allDay <> [] ->
  exists command,
    updateEvent h eventId calendarName summary startDate endDate description location
      allDay w
    = (Ok (OpResult.mk false None (Some (adapterFailure message))),
       mkWorld (submitted w ++ [ command ]) (ticks w)).
Proof.
  intros Hx Hl. unfold updateEvent.
  destruct (updateLines h summary startDate endDate description location allDay)
    as [|line lines]; [congruence |].
  cbn [length Nat.eqb]. eexists. apply tryCatch_rejected. apply Hx.
Qed.

Lemma deleteEvent_rejected (eventId calendarName : string) (w : World) (message : string) :
  (forall command, execAsync h (submitted w) command = Rejected message) ->
  exists command,
    deleteEvent h eventId calendarName w
    = (Ok (OpResult.mk false None (Some (adapterFailure message))),
       mkWorld (submitted w ++ [ command ]) (ticks w)).
Proof.
  intros Hx. unfold deleteEvent. eexists. apply tryCatch_rejected. apply Hx.
Qed.

Lemma unknown_tool (name : string) (args : Args.t) (w : World) :
  ~ In name (map Tool.name tools) ->
  handleToolCall h name args w = (Throw ("Unknown tool: " ++ name), w).
Proof.
  intros Hn. unfold handleToolCall.
  repeat match goal with
         | |- context [String.eqb name ?s] =>
             destruct (String.eqb_spec name s) as [->|_];
             [exfalso; apply Hn; simpl; tauto |]
         end.
  reflexivity.
Qed.

(** C9.  When the arguments of create_event, update_event or delete_event
    pass the validation (and, for create_event, the dates parse; for
    update_event, there is an update line) and exec rejects the script, the
    envelope carries no isError flag and its text is the JSON object with
    success false and the adapter's message; an exception raised by the
    handler (a validation failure, an unknown tool) gives instead the
    envelope with isError true and the text Error: followed by the
    message. *)
Theorem C9_adapter_failure_is_not_flagged (args : Args.t) (w : World) (message : string) :
  (forall command, execAsync h (submitted w) command = Rejected message) ->
  (truthy (Args.summary args) = true -> truthy (Args.start_date args) = true ->
   parseDate h (orEmpty (Args.start_date args)) <> None ->
   (truthy (Args.end_date args) = true ->
    parseDate h (orEmpty (Args.end_date args)) <> None) ->
   fst (callTool h "calendar_create_event" (Some args) w)
   = mkEnvelope [ mkContent "text" (failurePayload (adapterFailure message)) ] None)
  /\ (truthy (Args.event_id args) = true -> truthy (Args.calendar args) = true ->
      updateLines h (Args.summary args) (Args.start_date args) (Args.end_date args)
        (Args.description args) (Args.location args) (Args.all_day args) <> [] ->
      fst (callTool h "calendar_update_event" (Some args) w)
      = mkEnvelope [ mkContent "text" (failurePayload (adapterFailure message)) ] None)
  /\ (truthy (Args.event_id args) = true -> truthy (Args.calendar args) = true ->
      fst (callTool h "calendar_delete_event" (Some args) w)
      = mkEnvelope [ mkContent "text" (failurePayload (adapterFailure message)) ] None)
  /\ (forall name w' raised,
         handleToolCall h name args w = (Throw raised, w') ->
         fst (callTool h name (Some args) w)
         = mkEnvelope [ mkContent "text" ("Error: " ++ raised) ] (Some true))
  /\ (forall name,
         ~ In name (map Tool.name tools) ->
         fst (callTool h name (Some args) w)
         = mkEnvelope [ mkContent "text" ("Error: Unknown tool: " ++ name) ] (Some true)).
Proof.
  intros Hx. repeat split.
  - intros Hs Hd Hp He.
    destruct (createEvent_rejected (orEmpty (Args.summary args))
                (orEmpty (Args.start_date args)) (Args.end_date args)
                (Args.all_day args) (Args.calendar args) (Args.description args)
                (Args.location args) (Args.url args) w message Hx Hp He) as [c Hc].
    erewrite callTool_ok; [reflexivity |].
    rewrite handle_create, Hs, Hd. cbn [negb orb]. unfold bind. rewrite Hc.
    unfold ret. now rewrite stringifyResult_failure.
  - intros Hi Hc Hl.
    destruct (updateEvent_rejected (orEmpty (Args.event_id args))
                (orEmpty (Args.calendar args)) _ _ _ _ _ _ w message Hx Hl) as [c Hu].
    erewrite callTool_ok; [reflexivity |].
    rewrite handle_update, Hi, Hc. cbn [negb orb]. unfold bind. rewrite Hu.
    unfold ret. now rewrite stringifyResult_failure.
  - intros Hi Hc.
    destruct (deleteEvent_rejected (orEmpty (Args.event_id args))
                (orEmpty (Args.calendar args)) w message Hx) as [c Hd].
    erewrite callTool_ok; [reflexivity |].
    rewrite handle_delete, Hi, Hc. cbn [negb orb]. unfold bind. rewrite Hd.
    unfold ret. now rewrite stringifyResult_failure.
  - intros name w' raised Hr. now rewrite (callTool_throw h _ _ _ _ _ Hr).
  - intros name Hn. now rewrite (callTool_throw h _ _ _ _ _ (unknown_tool name args w Hn)).
Qed.

End OperationFacts.

(** ** Partial updates *)

Section UpdateFacts.

Import Text Scripts JSON.

Context (h : Host).

Lemma truthy_Some (s : string) : truthy (Some s) = true <-> s <> "".
Proof.
  unfold truthy. destruct (String.eqb_spec s ""); simpl; split; congruence.
Qed.

Lemma in_textUpdate (property line : string) (value : option string) :
  In line (textUpdate property value)
  <-> exists v, value = Some v /\ line = setText property v.
Proof.
  unfold textUpdate. destruct value as [v|]; simpl.
  - split.
    + intros [<- | []]. eauto.
    + intros (v' & [= <-] & ->). now left.
  - split; [intros [] | intros (v' & Hv & _); discriminate].
Qed.

Lemma in_dateUpdate (property line : string) (value : option string) :
  In line (dateUpdate h property value)
  <-> exists s d, value = Some s /\ s <> "" /\ parseDate h s = Some d
                  /\ line = setDate h property d.
Proof.
  unfold dateUpdate. destruct value as [s|].
  - destruct (truthy (Some s)) eqn:Ht.
    + apply truthy_Some in Ht. cbn [orEmpty].
      destruct (parseDate h s) as [d|] eqn:Hp; simpl.
      * split.
        -- intros [<- | []]. exists s, d. auto.
        -- intros (s' & d' & [= <-] & _ & Hd & ->). left. congruence.
      * split; [intros [] |]. intros (s' & d' & [= <-] & _ & Hd & _). congruence.
    + split; [intros [] |]. intros (s' & d' & [= <-] & Hne & _).
      apply truthy_Some in Hne. congruence.
  - simpl. split; [intros [] | intros (s' & d' & Hv & _); discriminate].
Qed.

Lemma in_allDayUpdate (line : string) (allDay : option bool) :
  In line (allDayUpdate allDay)
  <-> exists b, allDay = Some b
                /\ line = "set allday event of theEvent to " ++ boolToString b.
Proof.
  unfold allDayUpdate. destruct allDay as [b|]; simpl.
  - split.
    + intros [<- | []]. eauto.
    + intros (b' & [= <-] & ->). now left.
  - split; [intros [] | intros (b' & Hb & _); discriminate].
Qed.

Lemma updateLines_in_script (eventId calendarName line : string) (lines : list string) :
  In line lines -> occursIn line (updateEventScript eventId calendarName lines).
Proof.
  intros Hin. unfold updateEventScript, unlines.
  apply occursIn_trans with (b := "      " ++ join (nl ++ "      ") lines).
  - apply occursIn_app_r. now apply occursIn_join.
  - apply occursIn_join. unfold updateEventLines. simpl. tauto.
Qed.

(** C8 (as amended).  The update lines of updateEvent are exactly: a
    set-statement for each of summary, description and location that is
    supplied, one for each of start_date and end_date that is supplied, not
    empty and parses as a date, and one for all_day when it is supplied.
    Each of them occurs in the generated script.  When there is no update
    line the operation returns the failure No updates provided and hands
    nothing to the execution adapter; otherwise it hands over that one
    script. *)
Theorem C8_update_lines (eventId calendarName : string)
    (summary startDate endDate description location : option string)
    (allDay : option bool) (w : World) :
  let lines := updateLines h summary startDate endDate description location allDay in
  (forall line,
      In line lines <->
      (exists v, summary = Some v /\ line = setText "summary" v)
      \/ (exists v, description = Some v /\ line = setText "description" v)
      \/ (exists v, location = Some v /\ line = setText "location" v)
      \/ (exists s d, startDate = Some s /\ s <> "" /\ parseDate h s = Some d
                      /\ line = setDate h "start date" d)
      \/ (exists s d, endDate = Some s /\ s <> "" /\ parseDate h s = Some d
                      /\ line = setDate h "end date" d)
      \/ (exists b, allDay = Some b
                    /\ line = "set allday event of theEvent to " ++ boolToString b))
  /\ (forall line,
         In line lines -> occursIn line (updateEventScript eventId calendarName lines))
  /\ (lines = [] ->
      updateEvent h eventId calendarName summary startDate endDate description location
        allDay w
      = (Ok (OpResult.mk false None (Some "No updates provided")), w))
  /\ (lines <> [] ->
      snd (updateEvent h eventId calendarName summary startDate endDate description
             location allDay w)
      = mkWorld (submitted w ++ [ commandFor (updateEventScript eventId calendarName lines) ])
                (ticks w)).
Proof.
  intros lines. split; [| split; [| split]].
  - intros line. unfold lines, updateLines. rewrite !in_app_iff.
    rewrite !in_textUpdate, !in_dateUpdate, in_allDayUpdate. reflexivity.
  - intros line. apply updateLines_in_script.
  - intros Hl. unfold updateEvent. fold lines. rewrite Hl. reflexivity.
  - intros Hl. unfold updateEvent. fold lines.
    destruct lines as [|l0 ls]; [congruence |]. cbn [length Nat.eqb].
    unfold tryCatch, bind.
    pose proof (runAppleScript_submits h
                  (updateEventScript eventId calendarName (l0 :: ls)) w) as Hs.
    destruct (runAppleScript h (updateEventScript eventId calendarName (l0 :: ls)) w)
      as [[x|e] w']; simpl in *; exact Hs.
Qed.

End UpdateFacts.

(** ** The date window of getEvents *)

Section WindowFacts.

Import Text Scripts JSON JSDate.

Context (h : Host).

Lemma runAppleScriptJSON_submits {T : Type} (parse : string -> option (list T))
    (script : string) (w : World) :
  snd (runAppleScriptJSON h parse script w)
  = mkWorld (submitted w ++ [ commandFor script ]) (ticks w).
Proof.
  unfold runAppleScriptJSON, bind.
  pose proof (runAppleScript_submits h script w) as Hs.
  destruct (runAppleScript h script w) as [[out|e] w']; simpl in *; [| exact Hs].
  destruct (String.eqb out ""); [exact Hs |].
  destruct (parse out); exact Hs.
Qed.

Lemma callTool_world (name : string) (args : Args.t) (w : World) :
  snd (callTool h name (Some args) w) = snd (handleToolCall h name args w).
Proof.
  unfold callTool. destruct (handleToolCall h name args w) as [[r|e] w']; reflexivity.
Qed.

(** getEvents, with the two reads of its date window made explicit. *)
Lemma getEvents_window (calendar startDate endDate : option string) (limit : option Z)
    (w : World) :
  getEvents h calendar startDate endDate limit w
  = let w1 := if truthy startDate then w else mkWorld (submitted w) (S (ticks w)) in
    let w2 := if truthy endDate then w1 else mkWorld (submitted w1) (S (ticks w1)) in
    let start := if truthy startDate then parseDate h (orEmpty startDate)
                 else Some (newDateAt (clock h (ticks w))) in
    let end_ := if truthy endDate then parseDate h (orEmpty endDate)
                else Some (newDateAt (clock h (ticks w1) + thirtyDays)%Z) in
    match start, end_ with
    | Some start, Some end_ =>
        (events <- runAppleScriptJSON h (JSON_parse_events h)
                     (getEventsScript (getDateRange h start end_) calendar
                        (match limit with Some n => n | None => 100%Z end)) ;;
         lift (mapAndSort h events)) w2
    | _, _ => (Throw "Invalid date format", w2)
    end.
Proof.
  unfold getEvents, newDateNow, Date_now, bind, ret, throw.
  destruct (truthy startDate), (truthy endDate); cbn [submitted ticks];
    repeat match goal with
           | |- context [parseDate h ?s] => destruct (parseDate h s)
           end; reflexivity.
Qed.

(** The world after getEvents has built its script: the command of the
    script is handed over, whatever the adapter answers. *)
Lemma getEvents_tail (script : string) (w : World) :
  snd ((events <- runAppleScriptJSON h (JSON_parse_events h) script ;;
        lift (mapAndSort h events)) w)
  = mkWorld (submitted w ++ [ commandFor script ]) (ticks w).
Proof.
  unfold bind, lift.
  pose proof (runAppleScriptJSON_submits (JSON_parse_events h) script w) as Hsub.
  destruct (runAppleScriptJSON h (JSON_parse_events h) script w) as [[ev|e] w'];
    simpl in Hsub; subst w'; [| reflexivity].
  destruct (mapAndSort h ev); reflexivity.
Qed.

Lemma handle_get_events_world (args : Args.t) (w : World) :
  snd (callTool h "calendar_get_events" (Some args) w)
  = snd (getEvents h (Args.calendar args) (Args.start_date args)
           (Args.end_date args) (Args.limit args) w).
Proof.
  rewrite callTool_world, handle_get_events. unfold bind.
  destruct (getEvents h (Args.calendar args) (Args.start_date args)
              (Args.end_date args) (Args.limit args) w) as [[r|e] w']; reflexivity.
Qed.

(** C10 (as amended).  A start_date or end_date that is supplied, is not
    the empty string and does not parse makes get_events raise Invalid date
    format before anything is handed to the execution adapter, and the
    request handler answers with the error envelope of that message.  The
    defaults are applied argument by argument, for a limit that is absent
    or a safe integer: a start_date that is absent or empty is replaced by
    the clock reading and an end_date that is absent or empty by a clock
    reading plus thirty days, whether the other argument is defaulted too
    (second part; two clock readings), or is supplied and parses (third
    and fourth part; one clock reading). *)
Theorem C10_unparseable_date_is_an_error (args : Args.t) (w : World) :
  (forall s,
      Args.start_date args = Some s \/ Args.end_date args = Some s ->
      s <> "" -> parseDate h s = None ->
      exists w',
        handleToolCall h "calendar_get_events" args w = (Throw "Invalid date format", w')
        /\ callTool h "calendar_get_events" (Some args) w
           = (mkEnvelope [ mkContent "text" "Error: Invalid date format" ] (Some true), w')
        /\ submitted w' = submitted w)
  /\ (safeLimit (Args.limit args) = true ->
      truthy (Args.start_date args) = false -> truthy (Args.end_date args) = false ->
      snd (callTool h "calendar_get_events" (Some args) w)
      = mkWorld
          (submitted w
             ++ [ commandFor
                    (getEventsScript
                       (getDateRange h (newDateAt (clock h (ticks w)))
                          (newDateAt (clock h (S (ticks w)) + 30 * 24 * 60 * 60 * 1000)%Z))
                       (Args.calendar args)
                       (match Args.limit args with Some n => n | None => 100%Z end)) ])
          (S (S (ticks w))))
  /\ (forall (s : string) (endD : Date),
      safeLimit (Args.limit args) = true ->
      truthy (Args.start_date args) = false ->
      Args.end_date args = Some s -> s <> "" -> parseDate h s = Some endD ->
      snd (callTool h "calendar_get_events" (Some args) w)
      = mkWorld
          (submitted w
             ++ [ commandFor
                    (getEventsScript
                       (getDateRange h (newDateAt (clock h (ticks w))) endD)
                       (Args.calendar args)
                       (match Args.limit args with Some n => n | None => 100%Z end)) ])
          (S (ticks w)))
  /\ (forall (s : string) (startD : Date),
      safeLimit (Args.limit args) = true ->
      Args.start_date args = Some s -> s <> "" -> parseDate h s = Some startD ->
      truthy (Args.end_date args) = false ->
      snd (callTool h "calendar_get_events" (Some args) w)
      = mkWorld
          (submitted w
             ++ [ commandFor
                    (getEventsScript
                       (getDateRange h startD
                          (newDateAt (clock h (ticks w) + 30 * 24 * 60 * 60 * 1000)%Z))
                       (Args.calendar args)
                       (match Args.limit args with Some n => n | None => 100%Z end)) ])
          (S (ticks w))).
Proof.
  refine (conj _ (conj _ (conj _ _))).
  - intros s Hs Hne Hp.
    assert (Hg : exists w',
               getEvents h (Args.calendar args) (Args.start_date args)
                 (Args.end_date args) (Args.limit args) w
               = (Throw "Invalid date format", w')
               /\ submitted w' = submitted w).
    { rewrite getEvents_window. cbv zeta.
      apply truthy_Some in Hne.
      destruct Hs as [Hs | Hs]; rewrite Hs, Hne; cbn [orEmpty]; rewrite Hp.
      - eexists. split; [reflexivity |].
        destruct (truthy (Args.end_date args)); reflexivity.
      - destruct (truthy (Args.start_date args)).
        + destruct (parseDate h (orEmpty (Args.start_date args)));
            (eexists; split; [reflexivity | reflexivity]).
        + eexists. split; [reflexivity | reflexivity]. }
    destruct Hg as (w' & Hg & Hw). exists w'.
    assert (Hh : handleToolCall h "calendar_get_events" args w
                 = (Throw "Invalid date format", w')).
    { rewrite handle_get_events. unfold bind. now rewrite Hg. }
    split; [exact Hh |]. split; [| exact Hw].
    now apply callTool_throw.
  - intros _ Hs He. rewrite handle_get_events_world, getEvents_window.
    cbv zeta. rewrite Hs, He. cbn [ticks submitted].
    change (30 * 24 * 60 * 60 * 1000)%Z with thirtyDays.
    apply getEvents_tail.
  - intros s endD _ Hs He Hne Hp. rewrite handle_get_events_world, getEvents_window.
    cbv zeta. apply truthy_Some in Hne. rewrite Hs, He, Hne.
    cbn [orEmpty ticks submitted]. rewrite Hp.
    apply getEvents_tail.
  - intros s startD _ Hs Hne Hp He. rewrite handle_get_events_world, getEvents_window.
    cbv zeta. apply truthy_Some in Hne. rewrite Hs, He, Hne.
    cbn [orEmpty ticks submitted]. rewrite Hp.
    change (30 * 24 * 60 * 60 * 1000)%Z with thirtyDays.
    apply getEvents_tail.
Qed.

(** ** parseDate and formatISODate *)

Lemma parseDate_value (dateStr : string) :
  parseDate h dateStr
  = match Date_parse h dateStr with
    | Some t => Some (mkDate (Some t))
    | None => None
    end.
Proof. unfold parseDate, newDate. simpl. destruct (Date_parse h dateStr); reflexivity. Qed.

Lemma TimeClip_range (t v : Z) :
  TimeClip t = Some v -> (- maxTime <= v <= maxTime)%Z.
Proof.
  unfold TimeClip. destruct (Z.abs t <=? maxTime)%Z eqn:E; [| discriminate].
  intros [= <-]. apply Z.leb_le in E. lia.
Qed.

Lemma Date_parse_range (s : string) (t : Z) :
  Date_parse h s = Some t -> (- maxTime <= t <= maxTime)%Z.
Proof.
  unfold Date_parse, fallbackParse.
  destruct (readIso s) as [f|].
  - destruct (legalFields f).
    + apply TimeClip_range.
    + destruct (legacyDateParse h s); [apply TimeClip_range | discriminate].
  - destruct (legacyDateParse h s); [apply TimeClip_range | discriminate].
Qed.

Lemma Date_parse_fallback (s : string) :
  readIso s = None -> legacyDateParse h s = None -> Date_parse h s = None.
Proof. intros Hr Hl. unfold Date_parse, fallbackParse. now rewrite Hr, Hl. Qed.

(** C6.  parseDate is a total function of its text: it returns null or a
    Date whose time value is a number within the range of time values,
    never an invalid Date.  On a host whose Date constructor rejects the
    empty text, invalid and not-a-date, it returns null for these three,
    and it returns the instants of 15 January 2025 for the three ISO
    texts. *)
Theorem C6_parseDate_null_or_valid :
  legacyDateParse h "" = None ->
  legacyDateParse h "invalid" = None ->
  legacyDateParse h "not-a-date" = None ->
  (forall dateStr,
      parseDate h dateStr = None
      \/ exists t, parseDate h dateStr = Some (mkDate (Some t))
                   /\ (- 8640000000000000 <= t <= 8640000000000000)%Z)
  /\ parseDate h "" = None
  /\ parseDate h "invalid" = None
  /\ parseDate h "not-a-date" = None
  /\ parseDate h "2025-01-15" = Some (mkDate (Some 1736899200000%Z))
  /\ parseDate h "2025-01-15T10:00:00Z" = Some (mkDate (Some 1736935200000%Z))
  /\ parseDate h "2025-01-15T10:00:00.000Z" = Some (mkDate (Some 1736935200000%Z)).
Proof.
  intros H1 H2 H3.
  refine (conj _ (conj _ (conj _ (conj _ (conj _ (conj _ _)))))).
  - intros s. rewrite parseDate_value.
    destruct (Date_parse h s) as [t|] eqn:E; [right | now left].
    exists t. split; [reflexivity |]. exact (Date_parse_range _ _ E).
  - rewrite parseDate_value, Date_parse_fallback; [reflexivity | reflexivity | exact H1].
  - rewrite parseDate_value, Date_parse_fallback; [reflexivity | reflexivity | exact H2].
  - rewrite parseDate_value, Date_parse_fallback; [reflexivity | reflexivity | exact H3].
  - rewrite parseDate_value.
    assert (Hp : Date_parse h "2025-01-15" = Some 1736899200000%Z) by iso_parse.
    now rewrite Hp.
  - rewrite parseDate_value.
    assert (Hp : Date_parse h "2025-01-15T10:00:00Z" = Some 1736935200000%Z) by iso_parse.
    now rewrite Hp.
  - rewrite parseDate_value.
    assert (Hp : Date_parse h "2025-01-15T10:00:00.000Z" = Some 1736935200000%Z)
      by iso_parse.
    now rewrite Hp.
Qed.

End WindowFacts.

(** ** Calendar arithmetic: toISOString and Date.parse agree *)

Section DateArithmetic.

Import JSDate.
Open Scope Z_scope.

Lemma YearFromDay_spec (d : Z) :
  DayFromYear (YearFromDay d) <= d < DayFromYear (YearFromDay d + 1).
Proof.
  unfold YearFromDay.
  set (y := 1970 + 400 * d / 146097).
  assert (Hy : 146097 * (y - 1970) <= 400 * d < 146097 * (y - 1970) + 146097).
  { unfold y. pose proof (Z.div_mod (400 * d) 146097 ltac:(lia)).
    pose proof (Z.mod_pos_bound (400 * d) 146097 ltac:(lia)). lia. }
  clearbody y.
  destruct (Z.leb_spec (DayFromYear (y + 1)) d) as [H1|H1].
  - split; [exact H1 |]. unfold DayFromYear in *. Z.div_mod_to_equations. lia.
  - destruct (Z.leb_spec (DayFromYear y) d) as [H2|H2].
    + split; assumption.
    + split; [| replace (y - 1 + 1) with y by lia; exact H2].
      unfold DayFromYear in *. Z.div_mod_to_equations. lia.
Qed.

Lemma daysInYear (y : Z) :
  DayFromYear (y + 1) - DayFromYear y = if isLeapYear y then 366 else 365.
Proof.
  unfold isLeapYear, DayFromYear.
  assert (H4 : y mod 4 = (y mod 400) mod 4)
    by (symmetry; apply Z.mod_mod_divide; exists 100; lia).
  assert (H4' : y mod 4 = (y mod 100) mod 4)
    by (symmetry; apply Z.mod_mod_divide; exists 25; lia).
  assert (H100 : y mod 100 = (y mod 400) mod 100)
    by (symmetry; apply Z.mod_mod_divide; exists 4; lia).
  destruct (Z.eqb_spec (y mod 4) 0), (Z.eqb_spec (y mod 100) 0),
    (Z.eqb_spec (y mod 400) 0); cbn [andb orb negb];
    Z.div_mod_to_equations; lia.
Qed.

Lemma DayWithinYear_range (t : Z) :
  0 <= DayWithinYear t < (if InLeapYear t then 366 else 365).
Proof.
  unfold DayWithinYear, InLeapYear, YearFromTime.
  pose proof (YearFromDay_spec (Day t)) as H.
  pose proof (daysInYear (YearFromDay (Day t))) as H'.
  destruct (isLeapYear (YearFromDay (Day t))); lia.
Qed.

Ltac eval_days :=
  repeat match goal with
         | |- context [daysBeforeMonth ?l (Zpos ?p)] =>
             let v := eval vm_compute in (daysBeforeMonth l (Zpos p)) in
             change (daysBeforeMonth l (Zpos p)) with v
         | |- context [daysBeforeMonth ?l Z0] =>
             change (daysBeforeMonth l Z0) with Z0
         end.

Lemma monthOfDay_range (leap : bool) (dy : Z) :
  0 <= dy < (if leap then 366 else 365) ->
  0 <= monthOfDay leap dy <= 11
  /\ 1 <= dy - daysBeforeMonth leap (monthOfDay leap dy) + 1 <= 31.
Proof.
  intros H. unfold monthOfDay.
  destruct leap; eval_days;
    repeat match goal with
           | |- _ <= (if Z.ltb ?a ?b then _ else _) <= _ /\ _ =>
               destruct (Z.ltb_spec a b); cbv iota; [eval_days; lia |]
           end; eval_days; lia.
Qed.

Lemma timeOfDay (t : Z) :
  MakeTime (HourFromTime t) (MinFromTime t) (SecFromTime t) (msFromTime t)
  = TimeWithinDay t.
Proof.
  unfold MakeTime, HourFromTime, MinFromTime, SecFromTime, msFromTime, TimeWithinDay,
    msPerHour, msPerMinute, msPerSecond, msPerDay.
  Z.div_mod_to_equations. lia.
Qed.

Lemma MakeDay_fromTime (t : Z) :
  MakeDay (YearFromTime t) (MonthFromTime t) (DateFromTime t) = Day t.
Proof. unfold MakeDay, DateFromTime, DayWithinYear, InLeapYear. lia. Qed.

Lemma MakeDate_fromTime (t : Z) : MakeDate (Day t) (TimeWithinDay t) = t.
Proof.
  unfold MakeDate, Day, TimeWithinDay, msPerDay. Z.div_mod_to_equations. lia.
Qed.

Lemma YearFromTime_range (t : Z) :
  - maxTime <= t <= maxTime -> -271822 <= YearFromTime t <= 275761.
Proof.
  intros H. unfold YearFromTime. pose proof (YearFromDay_spec (Day t)) as Hy.
  assert (Hd : -100000000 <= Day t <= 100000000).
  { unfold Day, msPerDay, maxTime in *. Z.div_mod_to_equations. lia. }
  unfold DayFromYear in Hy. Z.div_mod_to_equations. lia.
Qed.

End DateArithmetic.

Section DigitFacts.

Import JSDate.
Open Scope Z_scope.

Lemma digit_cases (d : Z) :
  0 <= d <= 9 ->
  d = 0 \/ d = 1 \/ d = 2 \/ d = 3 \/ d = 4 \/ d = 5 \/ d = 6 \/ d = 7 \/ d = 8 \/ d = 9.
Proof. lia. Qed.

Lemma digitVal_digitChar (d : Z) : 0 <= d <= 9 -> digitVal (digitChar d) = Some d.
Proof.
  intros H. apply digit_cases in H.
  repeat (destruct H as [-> | H]; [reflexivity |]). subst. reflexivity.
Qed.

Lemma readYear_digit (d : Z) (r : string) :
  0 <= d <= 9 ->
  readYear (String (digitChar d) r) = readDigits 4 0 (String (digitChar d) r).
Proof.
  intros H. apply digit_cases in H.
  repeat (destruct H as [-> | H]; [reflexivity |]). subst. reflexivity.
Qed.

(** Reading one digit more is reading the digits and then one digit. *)
Lemma readDigits_succ (n : nat) (acc : Z) (s : string) :
  readDigits (S n) acc s
  = match readDigits n acc s with
    | Some (a, r) => readDigits 1 a r
    | None => None
    end.
Proof.
  revert acc s. induction n as [|n IH]; intros acc s.
  - reflexivity.
  - change (readDigits (S (S n)) acc s)
      with (match s with
            | String c r =>
                match digitVal c with
                | Some d => readDigits (S n) (10 * acc + d) r
                | None => None
                end
            | EmptyString => None
            end).
    destruct s as [|c r]; [reflexivity |].
    destruct (digitVal c) as [d|] eqn:E.
    + rewrite IH. cbn [readDigits]. rewrite E. reflexivity.
    + cbn [readDigits]. rewrite E. reflexivity.
Qed.

Lemma readDigits_padDigits (n : nat) (z acc : Z) (rest : string) :
  0 <= z < 10 ^ Z.of_nat n ->
  readDigits n acc (padDigits n z ++ rest)%string
  = Some (acc * 10 ^ Z.of_nat n + z, rest).
Proof.
  revert z acc rest. induction n as [|n IH]; intros z acc rest Hz.
  - cbn [readDigits padDigits append]. f_equal. f_equal. simpl in Hz. lia.
  - rewrite Nat2Z.inj_succ, Z.pow_succ_r in * by lia.
    cbn [padDigits]. rewrite append_assoc. rewrite readDigits_succ.
    rewrite IH by (Z.div_mod_to_equations; lia).
    cbn [append readDigits].
    rewrite digitVal_digitChar by (Z.div_mod_to_equations; lia).
    f_equal. f_equal. Z.div_mod_to_equations. nia.
Qed.

Lemma readYear_yearString (y : Z) (rest : string) :
  -999999 <= y <= 999999 ->
  readYear (yearString y ++ rest)%string = Some (y, rest).
Proof.
  intros Hy. unfold yearString.
  destruct (Z.leb_spec 0 y) as [H0|H0]; cbn [andb].
  - destruct (Z.leb_spec y 9999) as [H1|H1].
    + pose proof (readDigits_padDigits 4 y 0 rest ltac:(simpl; lia)) as Hr.
      cbn [padDigits append] in *.
      rewrite readYear_digit by (Z.div_mod_to_equations; lia).
      rewrite Hr. repeat f_equal; lia.
    + destruct (Z.ltb_spec y 0); [lia |].
      cbn [append readYear].
      rewrite readDigits_padDigits by (simpl; lia).
      repeat f_equal; lia.
  - destruct (Z.ltb_spec y 0); [| lia].
    cbn [append readYear].
    rewrite readDigits_padDigits by (simpl; lia).
    replace (0 * 10 ^ Z.of_nat 6 + Z.abs y) with (Z.abs y) by lia.
    destruct (Z.eqb_spec (Z.abs y) 0); [lia |]. repeat f_equal; lia.
Qed.

End DigitFacts.

Section RoundTrip.

Import JSDate.
Open Scope Z_scope.

Lemma fields_range (t : Z) :
  0 <= MonthFromTime t + 1 < 100 /\ 1 <= MonthFromTime t + 1 <= 12
  /\ 1 <= DateFromTime t <= 31
  /\ 0 <= HourFromTime t < 24 /\ 0 <= MinFromTime t < 60
  /\ 0 <= SecFromTime t < 60 /\ 0 <= msFromTime t < 1000.
Proof.
  pose proof (monthOfDay_range (InLeapYear t) (DayWithinYear t) (DayWithinYear_range t))
    as [Hm Hd].
  unfold DateFromTime, MonthFromTime, HourFromTime, MinFromTime, SecFromTime, msFromTime,
    msPerHour, msPerMinute, msPerSecond.
  repeat split; try lia; Z.div_mod_to_equations; lia.
Qed.

Lemma readIso_isoString (t : Z) :
  - maxTime <= t <= maxTime ->
  readIso (isoString t)
  = Some (mkIso (YearFromTime t) (MonthFromTime t + 1) (DateFromTime t)
                (HourFromTime t) (MinFromTime t) (SecFromTime t) (msFromTime t)
                (Offset 0)).
Proof.
  intros Ht. pose proof (YearFromTime_range t Ht) as Hy.
  pose proof (fields_range t) as (Hm & _ & Hd & Hh & Hmi & Hs & Hms).
  unfold isoString, readIso.
  rewrite readYear_yearString by lia. cbn [append].
  rewrite readDigits_padDigits by (simpl; lia). cbn [append].
  rewrite readDigits_padDigits by (simpl; lia).
  unfold readTime. cbn [append].
  rewrite readDigits_padDigits by (simpl; lia). cbn [append].
  rewrite readDigits_padDigits by (simpl; lia). cbn [append].
  rewrite readDigits_padDigits by (simpl; lia). cbn [append].
  rewrite readDigits_padDigits by (simpl; lia).
  cbn [readZone]. repeat f_equal; lia.
Qed.

Lemma legalFields_fromTime (t : Z) :
  legalFields (mkIso (YearFromTime t) (MonthFromTime t + 1) (DateFromTime t)
                     (HourFromTime t) (MinFromTime t) (SecFromTime t) (msFromTime t)
                     (Offset 0)) = true.
Proof.
  pose proof (fields_range t) as (_ & Hm & Hd & Hh & Hmi & Hs & Hms).
  unfold legalFields. cbn [f_month f_day f_hour f_min f_sec f_ms].
  repeat (apply andb_true_intro; split); try (apply Z.leb_le; lia).
  apply orb_true_intro. left. apply Z.ltb_lt. lia.
Qed.

Lemma fieldsTime_fromTime (t : Z) :
  fieldsTime (mkIso (YearFromTime t) (MonthFromTime t + 1) (DateFromTime t)
                    (HourFromTime t) (MinFromTime t) (SecFromTime t) (msFromTime t)
                    (Offset 0)) = t.
Proof.
  unfold fieldsTime. cbn [f_year f_month f_day f_hour f_min f_sec f_ms].
  replace (MonthFromTime t + 1 - 1) with (MonthFromTime t) by lia.
  rewrite MakeDay_fromTime, timeOfDay. apply MakeDate_fromTime.
Qed.

(** The text toISOString renders for a time value is read back by
    Date.parse as that time value, on every host. *)
Lemma Date_parse_isoString (h : Host) (t : Z) :
  - maxTime <= t <= maxTime -> Date_parse h (isoString t) = Some t.
Proof.
  intros Ht. unfold Date_parse.
  rewrite (readIso_isoString t Ht), legalFields_fromTime.
  unfold isoTime. cbn [f_zone]. rewrite fieldsTime_fromTime.
  replace (t - 0 * msPerMinute) with t by lia.
  unfold TimeClip. destruct (Z.leb_spec (Z.abs t) maxTime); [reflexivity | lia].
Qed.

End RoundTrip.

(** ** The ISO normalizer *)

Section NormalizerFacts.

Import Text JSDate.

Context (h : Host).

(** C7.  formatISODate never raises.  It returns the empty string for the
    empty string and for the sentinel missing value; for any other text
    that Date.parse accepts it returns the rendering of the parsed time
    value as YYYY-MM-DDTHH:mm:ss.sssZ, a text that Date.parse reads back as
    that same time value to the millisecond; and it returns the empty
    string for a text that Date.parse rejects. *)
Theorem C7_formatISODate_normalizes :
  (forall dateStr,
      exists r,
        formatISODate h dateStr = Ok r
        /\ (dateStr = "" \/ dateStr = "missing value" -> r = "")
        /\ (dateStr <> "" -> dateStr <> "missing value" ->
            forall t, Date_parse h dateStr = Some t ->
                      r = isoString t /\ Date_parse h r = Some t)
        /\ (dateStr <> "" -> dateStr <> "missing value" ->
            Date_parse h dateStr = None -> r = ""))
  /\ formatISODate h "" = Ok ""
  /\ formatISODate h "missing value" = Ok ""
  /\ formatISODate h "2025-01-15" = Ok "2025-01-15T00:00:00.000Z".
Proof.
  refine (conj _ (conj _ (conj _ _))).
  - intros s. eexists. split; [apply formatISODate_value |].
    destruct (String.eqb_spec s "") as [-> | Hne]; cbn [orb].
    + repeat split; try reflexivity; congruence.
    + destruct (String.eqb_spec s "missing value") as [-> | Hnm].
      * repeat split; try reflexivity; congruence.
      * split; [intros [? | ?]; congruence |]. split.
        -- intros _ _ t Ht. rewrite Ht. split; [reflexivity |].
           apply Date_parse_isoString. exact (Date_parse_range h _ _ Ht).
        -- intros _ _ Hn. now rewrite Hn.
  - rewrite formatISODate_value. reflexivity.
  - rewrite formatISODate_value. reflexivity.
  - rewrite formatISODate_value.
    assert (Hp : Date_parse h "2025-01-15" = Some 1736899200000%Z) by iso_parse.
    rewrite Hp. vm_compute. reflexivity.
Qed.

End NormalizerFacts.

(* ====================================================================== *)
(** * The statements on the example host *)
(* ====================================================================== *)

Section Instances.

Import Text JSDate JSON Scripts Example.

(** C8, the claim as stated fails: a start date that is supplied but is
    not a date gets no set-statement.  Supplied alone it leaves no update
    line, and the call fails with No updates provided as if nothing had
    been supplied; supplied with a summary, the script sets the summary
    only. *)
Lemma C8_counterexample_unparseable_start_date :
  updateLines silentHost None (Some "not-a-date") None None None None = []
  /\ callTool silentHost "calendar_update_event"
       (Some (updateArgs (Some "not-a-date") None)) world0
     = (successEnvelope (failurePayload "No updates provided"), world0)
  /\ updateLines silentHost (Some "Review") (Some "not-a-date") None None None None
     = [ setText "summary" "Review" ].
Proof. vm_compute. repeat split; reflexivity. Qed.

(** C10, the claim as stated fails: the empty string is supplied as
    start_date and does not parse, yet get_events does not raise; it reads
    the clock for the start of the window and answers with the (empty)
    list. *)
Lemma C10_counterexample_empty_start_date :
  parseDate silentHost "" = None
  /\ fst (callTool silentHost "calendar_get_events" (Some (getArgs (Some ""))) world0)
     = successEnvelope "[]"
  /\ ticks (snd (callTool silentHost "calendar_get_events" (Some (getArgs (Some "")))
                   world0)) = 2%nat.
Proof. vm_compute. repeat split; reflexivity. Qed.

Lemma C3_witness :
  exists r,
    mapAndSort silentHost
      (Structured [ event "a" "2025-01-02"; event "b" "missing value";
                    event "c" "2025-01-01" ]) = Ok r
    /\ map CalendarEvent.id r = [ "a"; "b"; "c" ]
    /\ map (startInstant silentHost) r
       = [ Some 1735776000000%Z; None; Some 1735689600000%Z ]
    /\ ~ sortedByStart silentHost r.
Proof. apply (C3_missing_start_leaves_list_unsorted silentHost). reflexivity. Defined.

Lemma C4_witness :
  exists message,
    handleToolCall silentHost "calendar_create_event" Args.empty world0
    = (Throw message, world0)
    /\ occursIn "summary" message
    /\ callTool silentHost "calendar_create_event" (Some Args.empty) world0
       = (errorEnvelope message, world0).
Proof.
  apply (C4_missing_required_argument silentHost "calendar_create_event" "summary"
           Args.empty world0).
  - simpl. tauto.
  - simpl. tauto.
  - reflexivity.
Defined.

Lemma C5_witness :
  fst (runAppleScript deniedHost "tell application" world0)
  = Throw "Calendar access denied. Grant permission in System Settings > Privacy & Security > Calendars".
Proof.
  apply (proj1 (C5_adapter_failure_translation deniedHost "tell application" world0
                  deniedMessage eq_refl)).
  exists "execution error: ", " to send Apple events to Calendar. (-1743)". reflexivity.
Defined.

Lemma C6_witness :
  parseDate silentHost "not-a-date" = None
  /\ parseDate silentHost "2025-01-15T10:00:00Z" = Some (mkDate (Some 1736935200000%Z)).
Proof.
  destruct (C6_parseDate_null_or_valid silentHost eq_refl eq_refl eq_refl)
    as (_ & _ & _ & H3 & _ & H5 & _).
  split; [exact H3 | exact H5].
Defined.

Lemma C7_witness :
  exists r,
    formatISODate silentHost "2025-01-15T12:00:00+02:00" = Ok r
    /\ r = isoString 1736935200000%Z
    /\ Date_parse silentHost r = Some 1736935200000%Z.
Proof.
  destruct (proj1 (C7_formatISODate_normalizes silentHost) "2025-01-15T12:00:00+02:00")
    as (r & Hr & _ & Hv & _).
  exists r. split; [exact Hr |].
  apply Hv; [discriminate | discriminate |]. iso_parse.
Defined.

Lemma C8_witness :
  updateEvent silentHost "E1" "Work" None None None None None None world0
  = (Ok (OpResult.mk false None (Some "No updates provided")), world0).
Proof.
  apply (proj1 (proj2 (proj2 (C8_update_lines silentHost "E1" "Work" None None None None
                                None None world0)))).
  reflexivity.
Defined.

Lemma C9_witness :
  fst (callTool deniedHost "calendar_delete_event" (Some deleteArgs) world0)
  = mkEnvelope [ mkContent "text" (failurePayload (adapterFailure deniedMessage)) ] None.
Proof.
  apply (proj1 (proj2 (proj2 (C9_adapter_failure_is_not_flagged deniedHost deleteArgs
                                world0 deniedMessage (fun _ => eq_refl)))));
    reflexivity.
Defined.

Lemma C10_witness :
  exists w',
    handleToolCall silentHost "calendar_get_events" (getArgs (Some "tomorrow")) world0
    = (Throw "Invalid date format", w')
    /\ callTool silentHost "calendar_get_events" (Some (getArgs (Some "tomorrow"))) world0
       = (mkEnvelope [ mkContent "text" "Error: Invalid date format" ] (Some true), w')
    /\ submitted w' = submitted world0.
Proof.
  apply (proj1 (C10_unparseable_date_is_an_error silentHost (getArgs (Some "tomorrow"))
                  world0) "tomorrow").
  - left. reflexivity.
  - discriminate.
  - vm_compute. reflexivity.
Defined.

End Instances.

(* ====================================================================== *)
(** * Further properties of the operations *)
(* ====================================================================== *)


(** ** Quoting: the shell, and the literals of the scripts *)

Section QuotingFacts.

Import Text Scripts.

Lemma shellEscape_cons (c : ascii) (s : string) :
  shellEscape (String c s)
  = (if Ascii.eqb c "'" then "'" ++ bs ++ "''" else String c "") ++ shellEscape s.
Proof. reflexivity. Qed.

Lemma word_quoted_char (c : ascii) (s : string) :
  Ascii.eqb c "'" = false ->
  Shell.word true (String c s) = option_map (String c) (Shell.word true s).
Proof. intros H. cbn [Shell.word]. now rewrite H. Qed.

Lemma word_quoted_escape (s rest : string) :
  Shell.word true (shellEscape s ++ "'" ++ rest)
  = option_map (append s) (Shell.word false rest).
Proof.
  induction s as [|c s IH].
  - cbn. destruct (Shell.word false rest); reflexivity.
  - rewrite shellEscape_cons, append_assoc.
    destruct (Ascii.eqb_spec c "'") as [-> | Hc].
    + change (Shell.word true (("'" ++ bs ++ "''") ++ shellEscape s ++ "'" ++ rest))
        with (option_map (String "'") (Shell.word true (shellEscape s ++ "'" ++ rest))).
      rewrite IH. destruct (Shell.word false rest); reflexivity.
    + change (String c "" ++ shellEscape s ++ "'" ++ rest)
        with (String c (shellEscape s ++ "'" ++ rest)).
      rewrite word_quoted_char by (apply Ascii.eqb_neq; exact Hc).
      rewrite IH. destruct (Shell.word false rest); reflexivity.
Qed.

Lemma stripPrefix_app (p s : string) : stripPrefix p (p ++ s) = Some s.
Proof.
  induction p as [|c p IH]; simpl; [reflexivity |].
  now rewrite Ascii.eqb_refl.
Qed.

(** X1.  The command line runAppleScript builds gives osascript exactly the
    script it was called with, whatever characters the script holds: read
    by the quoting rules of sh, the argument after -e is the script. *)
Theorem X1_command_line_carries_the_script (script : string) :
  Shell.osascriptArgument (commandFor script) = Some script.
Proof.
  unfold Shell.osascriptArgument, commandFor.
  change ("osascript -e '" ++ shellEscape script ++ "'")
    with ("osascript -e " ++ "'" ++ shellEscape script ++ "'").
  rewrite stripPrefix_app.
  change (Shell.word false ("'" ++ shellEscape script ++ "'"))
    with (Shell.word true (shellEscape script ++ "'" ++ "")).
  rewrite word_quoted_escape. cbn [Shell.word option_map]. now rewrite append_nil_r.
Qed.

Lemma literalAfter_escaped (before value rest : string) :
  noBackslash value = true ->
  literalAfter before (before ++ escapeQuotes value ++ q ++ rest) = Some (value, rest).
Proof.
  intros Hv. unfold literalAfter. rewrite stripPrefix_app.
  now apply readLiteral_escapeQuotes.
Qed.

(** X2.  For a calendar name and an event id without backslash, the two
    literals of the script of deleteEvent denote exactly that calendar name
    and that event id, double quotes included. *)
Theorem X2_delete_script_names_calendar_and_event (eventId calendarName : string) :
  noBackslash calendarName = true -> noBackslash eventId = true ->
  literalAfter ("      set theCal to calendar " ++ q)
    (nth 2 (deleteEventLines eventId calendarName) "") = Some (calendarName, "")
  /\ literalAfter ("      set theEvent to (first event of theCal whose uid is " ++ q)
       (nth 3 (deleteEventLines eventId calendarName) "") = Some (eventId, ")").
Proof.
  intros Hc He. cbn [nth deleteEventLines]. split.
  - rewrite <- (literalAfter_escaped ("      set theCal to calendar " ++ q) calendarName ""
                  Hc).
    f_equal; rewrite ?append_assoc; reflexivity.
  - rewrite <- (literalAfter_escaped
                  ("      set theEvent to (first event of theCal whose uid is " ++ q)
                  eventId ")" He).
    f_equal; rewrite ?append_assoc; reflexivity.
Qed.

Lemma lowerChar_backslash (c : ascii) :
  Ascii.eqb (lowerChar c) backslash = Ascii.eqb c backslash.
Proof. destruct c as [[] [] [] [] [] [] [] []]; reflexivity. Qed.

Lemma noBackslash_toLowerCase (s : string) :
  noBackslash (toLowerCase s) = noBackslash s.
Proof.
  induction s as [|c s IH]; simpl; [reflexivity |].
  now rewrite lowerChar_backslash, IH.
Qed.

(** A line of a script that is neither its first nor its last line occurs
    in the script between two line feeds. *)
Lemma line_in_unlines (before after : list string) (x : string) :
  before <> [] -> after <> [] ->
  occursIn (nl ++ x ++ nl) (unlines (before ++ x :: after)).
Proof.
  unfold unlines. intros Hb Ha.
  induction before as [|y before IH]; [congruence |].
  destruct before as [|z before].
  - destruct after as [|a after]; [congruence |].
    change (join nl ([y] ++ x :: a :: after)) with (y ++ nl ++ x ++ nl ++ join nl (a :: after)).
    apply occursIn_app_r.
    exists "", (join nl (a :: after)). cbn [append].
    change (String LF (x ++ nl ++ join nl (a :: after)))
      with (nl ++ x ++ nl ++ join nl (a :: after)).
    now rewrite !append_assoc.
  - change (join nl ((y :: z :: before) ++ x :: after))
      with (y ++ nl ++ join nl ((z :: before) ++ x :: after)).
    apply occursIn_app_r, occursIn_app_r, IH. discriminate.
Qed.

(** The world after searchEvents: two clock reads and the one command of
    its script. *)
Lemma searchEvents_world (h : Host) (query : string) (calendar : option string)
    (limit : option Z) (w : World) :
  snd (searchEvents h query calendar limit w)
  = mkWorld
      (submitted w
         ++ [ commandFor
                (searchEventsScript (escapeQuotes (toLowerCase query))
                   (getDateRange h (newDateAt (clock h (ticks w)))
                      (newDateAt (clock h (S (ticks w)) + oneYear)%Z))
                   calendar (match limit with Some n => n | None => 50%Z end)) ])
      (S (S (ticks w))).
Proof.
  unfold searchEvents, newDateNow, Date_now.
  unfold bind at 1. unfold bind at 1. unfold ret. cbn [ticks submitted].
  unfold bind at 1. cbn [ticks submitted].
  rewrite (getEvents_tail h). reflexivity.
Qed.

(** X3.  searchEvents hands exec one script, and for a query of ASCII
    characters without backslash that script has a line that sets
    searchQuery to a literal which denotes the query in lower case, quotes
    of the query included. *)
Theorem X3_search_literal_is_the_lower_case_query (h : Host) (query : string)
    (calendar : option string) (limit : option Z) (w : World) :
  asciiText query = true -> noBackslash query = true ->
  exists script line,
    submitted (snd (searchEvents h query calendar limit w))
    = (submitted w ++ [ commandFor script ])%list
    /\ occursIn (nl ++ line ++ nl) script
    /\ literalAfter ("      set searchQuery to " ++ q) line = Some (toLowerCase query, "").
Proof.
  intros _ Hq. rewrite searchEvents_world. cbn [submitted].
  set (dateRange := getDateRange h _ _).
  set (lim := match limit with Some n => n | None => 50%Z end).
  exists (searchEventsScript (escapeQuotes (toLowerCase query)) dateRange calendar lim),
    (nth 3 (searchEventsBody (escapeQuotes (toLowerCase query)) dateRange calendar lim) "").
  refine (conj _ (conj _ _)).
  - reflexivity.
  - unfold searchEventsScript.
    set (body := searchEventsBody _ _ _ _).
    change (body ++ replaceTextHandler ++ [ "  " ])%list
      with (firstn 3 body ++ nth 3 body "" :: (skipn 4 body ++ replaceTextHandler ++ [ "  " ]))%list.
    apply line_in_unlines; discriminate.
  - cbn [nth searchEventsBody].
    rewrite <- (literalAfter_escaped ("      set searchQuery to " ++ q) (toLowerCase query) "").
    + f_equal; rewrite ?append_assoc; reflexivity.
    + now rewrite noBackslash_toLowerCase.
Qed.
End QuotingFacts.

(** ** Use of the execution adapter *)

Section AdapterUse.

Import Text Scripts JSON.

Context (h : Host).

Lemma quiet_ret {A : Type} (a : A) : quiet (ret a).
Proof. intros w. reflexivity. Qed.

Lemma quiet_throw {A : Type} (e : string) : quiet (@throw A e).
Proof. intros w. reflexivity. Qed.

Lemma quiet_lift {A : Type} (r : result A) : quiet (lift r).
Proof. intros w. reflexivity. Qed.

Lemma quiet_Date_now : quiet (Date_now h).
Proof. intros w. reflexivity. Qed.

Lemma quiet_bind {A B : Type} (m : M A) (k : A -> M B) :
  quiet m -> (forall a, quiet (k a)) -> quiet (bind m k).
Proof.
  intros Hm Hk w. unfold bind. specialize (Hm w).
  destruct (m w) as [[a|e] w1]; cbn [snd] in *; [| exact Hm].
  rewrite (Hk a w1). exact Hm.
Qed.

Lemma quiet_once {A : Type} (m : M A) : quiet m -> once m.
Proof. intros Hm w. left. apply Hm. Qed.

Lemma once_bind_quiet {A B : Type} (m : M A) (k : A -> M B) :
  once m -> (forall a, quiet (k a)) -> once (bind m k).
Proof.
  intros Hm Hk w. unfold bind. specialize (Hm w).
  destruct (m w) as [[a|e] w1]; cbn [snd] in *; [| exact Hm].
  unfold atMostOneCommand in *. rewrite (Hk a w1). exact Hm.
Qed.

Lemma quiet_bind_once {A B : Type} (m : M A) (k : A -> M B) :
  quiet m -> (forall a, once (k a)) -> once (bind m k).
Proof.
  intros Hm Hk w. unfold bind. specialize (Hm w).
  destruct (m w) as [[a|e] w1]; cbn [snd] in *; [| left; exact Hm].
  specialize (Hk a w1). unfold atMostOneCommand in *. rewrite <- Hm. exact Hk.
Qed.

Lemma once_tryCatch_quiet {A : Type} (m : M A) (handler : string -> M A) :
  once m -> (forall e, quiet (handler e)) -> once (tryCatch m handler).
Proof.
  intros Hm Hk w. unfold tryCatch. specialize (Hm w).
  destruct (m w) as [[a|e] w1]; cbn [snd] in *; [exact Hm |].
  unfold atMostOneCommand in *. rewrite (Hk e w1). exact Hm.
Qed.

Lemma once_runAppleScript (script : string) : once (runAppleScript h script).
Proof. intros w. right. eexists. now rewrite runAppleScript_submits. Qed.

Lemma once_runAppleScriptJSON {T : Type} (parse : string -> option (list T))
    (script : string) : once (runAppleScriptJSON h parse script).
Proof. intros w. right. eexists. now rewrite runAppleScriptJSON_submits. Qed.

Lemma once_getEvents (calendar startDate endDate : option string) (limit : option Z) :
  once (getEvents h calendar startDate endDate limit).
Proof.
  unfold getEvents.
  apply quiet_bind_once.
  { destruct (truthy startDate); [apply quiet_ret |].
    apply quiet_bind; [| intros; apply quiet_ret].
    apply quiet_bind; [apply quiet_Date_now | intros; apply quiet_ret]. }
  intros start. apply quiet_bind_once.
  { destruct (truthy endDate); [apply quiet_ret |].
    apply quiet_bind; [apply quiet_Date_now | intros; apply quiet_ret]. }
  intros end_. destruct start as [start|]; [| apply quiet_once, quiet_throw].
  destruct end_ as [end_|]; [| apply quiet_once, quiet_throw].
  apply once_bind_quiet; [apply once_runAppleScriptJSON | intros; apply quiet_lift].
Qed.

Lemma quiet_newDateNow : quiet (newDateNow h).
Proof. apply quiet_bind; [apply quiet_Date_now | intros; apply quiet_ret]. Qed.

Lemma once_script_result (script : string) (k : string -> M OpResult.t) :
  (forall x, quiet (k x)) ->
  once (tryCatch (x <- runAppleScript h script ;; k x)
                 (fun e => ret (OpResult.mk false None (Some e)))).
Proof.
  intros Hk. apply once_tryCatch_quiet; [| intros; apply quiet_ret].
  apply once_bind_quiet; [apply once_runAppleScript | exact Hk].
Qed.

Lemma once_handleToolCall (name : string) (args : Args.t) :
  once (handleToolCall h name args).
Proof.
  unfold handleToolCall.
  repeat match goal with
         | |- once (if String.eqb name ?s then _ else _) => destruct (String.eqb name s)
         end.
  - apply once_bind_quiet; [| intros; apply quiet_ret].
    unfold checkPermissions. apply once_tryCatch_quiet; [| intros; apply quiet_ret].
    apply once_bind_quiet; [apply once_runAppleScript | intros; apply quiet_ret].
  - apply once_bind_quiet; [| intros; apply quiet_ret].
    apply once_runAppleScriptJSON.
  - apply once_bind_quiet; [apply once_getEvents | intros; apply quiet_ret].
  - destruct (_ || _); [apply quiet_once, quiet_throw |].
    apply once_bind_quiet; [| intros; apply quiet_ret].
    unfold createEvent.
    destruct (parseDate h _); [| apply quiet_once, quiet_ret].
    match goal with |- once (match ?e with _ => _ end) => destruct e end;
      [| apply quiet_once, quiet_ret].
    apply once_script_result. intros; apply quiet_ret.
  - destruct (_ || _); [apply quiet_once, quiet_throw |].
    apply once_bind_quiet; [| intros; apply quiet_ret].
    unfold updateEvent.
    destruct (length _ =? 0)%nat; [apply quiet_once, quiet_ret |].
    apply once_script_result. intros; apply quiet_ret.
  - destruct (_ || _); [apply quiet_once, quiet_throw |].
    apply once_bind_quiet; [| intros; apply quiet_ret].
    apply once_script_result. intros; apply quiet_ret.
  - destruct (negb _); [apply quiet_once, quiet_throw |].
    apply once_bind_quiet; [| intros; apply quiet_ret].
    unfold searchEvents.
    apply quiet_bind_once; [apply quiet_newDateNow |]. intros start.
    apply quiet_bind_once; [apply quiet_Date_now |]. intros t.
    apply once_bind_quiet; [apply once_runAppleScriptJSON | intros; apply quiet_lift].
  - apply once_bind_quiet; [| intros; apply quiet_ret].
    unfold getTodayEvents.
    apply quiet_bind_once; [apply quiet_newDateNow |]. intros now.
    apply quiet_bind_once; [apply quiet_lift |]. intros s.
    apply quiet_bind_once; [apply quiet_lift |]. intros e.
    apply once_getEvents.
  - apply once_bind_quiet; [| intros; apply quiet_ret].
    unfold getUpcomingEvents.
    apply quiet_bind_once; [apply quiet_newDateNow |]. intros now.
    apply quiet_bind_once; [apply quiet_lift |]. intros s.
    apply quiet_bind_once; [apply quiet_lift |]. intros e.
    apply once_getEvents.
  - apply quiet_once, quiet_throw.
Qed.

(** X4.  Whatever the tool name and the arguments, one call of the request
    handler hands at most one command to exec, and the commands handed over
    before it are kept as they were: no operation retries or runs a second
    script. *)
Theorem X4_at_most_one_command_per_call (name : string) (arguments : option Args.t)
    (w : World) :
  submitted (snd (callTool h name arguments w)) = submitted w
  \/ exists command,
       submitted (snd (callTool h name arguments w)) = (submitted w ++ [ command ])%list.
Proof.
  unfold callTool.
  pose proof (once_handleToolCall name
                (match arguments with Some a => a | None => Args.empty end) w) as H.
  destruct (handleToolCall h name _ w) as [[r|e] w']; exact H.
Qed.

End AdapterUse.

(** ** Outcomes of the operations *)

Section OutcomeFacts.

Import Text Scripts JSON JSDate.

Context (h : Host).

Lemma handle_check_permissions (args : Args.t) :
  handleToolCall h "calendar_check_permissions" args
  = (status <- checkPermissions h ;; ret (stringify (PermissionStatus.toJSON status))).
Proof. reflexivity. Qed.

Lemma handle_get_calendars (args : Args.t) :
  handleToolCall h "calendar_get_calendars" args
  = (calendars <- getCalendars h ;; ret (stringifyCalendars calendars)).
Proof. reflexivity. Qed.

(** X5.  check_permissions never answers with an error envelope.  It runs
    the probe script once; when exec returns, the payload is the status
    with calendar true and the detail Calendar: accessible, and when exec
    rejects, whatever the message, the status with calendar false and the
    detail that asks for the permission. *)
Theorem X5_check_permissions_never_fails (arguments : option Args.t) (w : World) :
  exists status,
    callTool h "calendar_check_permissions" arguments w
    = (mkEnvelope [ mkContent "text" (stringify (PermissionStatus.toJSON status)) ] None,
       mkWorld (submitted w ++ [ commandFor probeScript ]) (ticks w))
    /\ status
       = match execAsync h (submitted w) (commandFor probeScript) with
         | Stdout _ => PermissionStatus.mk true [ "Calendar: accessible" ]
         | Rejected _ =>
             PermissionStatus.mk false
               [ "Calendar: NOT accessible (grant Calendar permission in System Settings)" ]
         end.
Proof.
  eexists. split; [| reflexivity].
  unfold callTool. rewrite handle_check_permissions.
  unfold bind at 1, checkPermissions, tryCatch, bind. fold probeScript.
  destruct (execAsync h (submitted w) (commandFor probeScript)) as [out|m] eqn:E.
  - rewrite (runAppleScript_stdout h _ _ _ E). reflexivity.
  - rewrite (runAppleScript_rejected h _ _ _ E). reflexivity.
Qed.

Lemma runAppleScriptJSON_stdout {T : Type} (parse : string -> option (list T))
    (script : string) (w : World) (out : string) :
  execAsync h (submitted w) (commandFor script) = Stdout out ->
  runAppleScriptJSON h parse script w
  = (Ok (if String.eqb (trim out) "" then Structured []
         else match parse (trim out) with
              | Some v => Structured v
              | None => Opaque (trim out)
              end),
     mkWorld (submitted w ++ [ commandFor script ]) (ticks w)).
Proof.
  intros E. unfold runAppleScriptJSON, bind.
  rewrite (runAppleScript_stdout h _ _ _ E).
  destruct (String.eqb (trim out) ""); [reflexivity |].
  destruct (parse (trim out)); reflexivity.
Qed.

Lemma searchEvents_stdout (query : string) (calendar : option string) (limit : option Z)
    (w : World) (out : string) :
  (forall command, execAsync h (submitted w) command = Stdout out) ->
  fst (searchEvents h query calendar limit w)
  = mapAndSort h (if String.eqb (trim out) "" then Structured []
                  else match JSON_parse_events h (trim out) with
                       | Some v => Structured v
                       | None => Opaque (trim out)
                       end).
Proof.
  intros E. unfold searchEvents, newDateNow, Date_now.
  unfold bind at 1. unfold bind at 1. cbn [ret]. unfold bind at 1. unfold bind at 1.
  rewrite runAppleScriptJSON_stdout with (out := out) by apply E.
  unfold lift. reflexivity.
Qed.

Lemma handle_search_fst (args : Args.t) (w : World) :
  truthy (Args.query args) = true ->
  fst (handleToolCall h "calendar_search" args w)
  = match fst (searchEvents h (orEmpty (Args.query args)) (Args.calendar args)
                 (Args.limit args) w) with
    | Ok events => Ok (stringifyEvents events)
    | Throw e => Throw e
    end.
Proof.
  intros Hq. rewrite handle_search, Hq. cbn [negb]. unfold bind.
  destruct (searchEvents h _ _ _ w) as [[ev|e] w']; reflexivity.
Qed.

Lemma callTool_fst (name : string) (args : Args.t) (w : World) :
  fst (callTool h name (Some args) w)
  = match fst (handleToolCall h name args w) with
    | Ok payload => mkEnvelope [ mkContent "text" payload ] None
    | Throw e => mkEnvelope [ mkContent "text" ("Error: " ++ e) ] (Some true)
    end.
Proof.
  unfold callTool. destruct (handleToolCall h name args w) as [[r|e] w']; reflexivity.
Qed.

(** X6.  When the script prints nothing but white space, search and
    get_calendars answer with the empty list, the text of an empty JSON
    array, and no error flag: the decoder is not consulted. *)
Theorem X6_blank_output_is_the_empty_list (args : Args.t) (w : World) (out : string) :
  (forall command, execAsync h (submitted w) command = Stdout out) ->
  trim out = "" ->
  (truthy (Args.query args) = true ->
   fst (callTool h "calendar_search" (Some args) w)
   = mkEnvelope [ mkContent "text" "[]" ] None)
  /\ fst (callTool h "calendar_get_calendars" (Some args) w)
     = mkEnvelope [ mkContent "text" "[]" ] None.
Proof.
  intros E Ht. split.
  - intros Hq. rewrite callTool_fst, (handle_search_fst _ _ Hq).
    rewrite (searchEvents_stdout _ _ _ _ out E), Ht. reflexivity.
  - rewrite callTool_fst, handle_get_calendars. unfold bind at 1, getCalendars.
    rewrite runAppleScriptJSON_stdout with (out := out) by apply E.
    rewrite Ht. reflexivity.
Qed.

(** X7.  When the script prints a text that is not blank and does not
    decode, get_calendars answers without error flag with that text as a
    JSON string, whereas search answers with the error envelope: the raw
    text has no map method. *)
Theorem X7_undecodable_output (args : Args.t) (w : World) (out : string) :
  (forall command, execAsync h (submitted w) command = Stdout out) ->
  trim out <> "" ->
  JSON_parse_calendars h (trim out) = None ->
  JSON_parse_events h (trim out) = None ->
  truthy (Args.query args) = true ->
  fst (callTool h "calendar_get_calendars" (Some args) w)
  = mkEnvelope [ mkContent "text" (JSON.quote (trim out)) ] None
  /\ fst (callTool h "calendar_search" (Some args) w)
     = mkEnvelope [ mkContent "text" "Error: events.map is not a function" ] (Some true).
Proof.
  intros E Hne Hc Hev Hq. apply String.eqb_neq in Hne. split.
  - rewrite callTool_fst, handle_get_calendars. unfold bind at 1, getCalendars.
    rewrite runAppleScriptJSON_stdout with (out := out) by apply E.
    rewrite Hne, Hc. reflexivity.
  - rewrite callTool_fst, (handle_search_fst _ _ Hq).
    rewrite (searchEvents_stdout _ _ _ _ out E), Hne, Hev. reflexivity.
Qed.

Lemma stringifyResult_created (id : string) :
  stringifyResult (OpResult.mk true (Some id) None) = createdPayload id.
Proof.
  unfold stringifyResult, stringify, createdPayload, OpResult.toJSON, quote. simpl.
  rewrite !append_assoc. reflexivity.
Qed.

Lemma tryCatch_stdout (script : string) (k : string -> OpResult.t) (w : World)
    (out : string) :
  execAsync h (submitted w) (commandFor script) = Stdout out ->
  tryCatch (x <- runAppleScript h script ;; ret (k x))
           (fun e => ret (OpResult.mk false None (Some e))) w
  = (Ok (k (trim out)), mkWorld (submitted w ++ [ commandFor script ]) (ticks w)).
Proof.
  intros E. unfold tryCatch, bind. now rewrite (runAppleScript_stdout h _ _ _ E).
Qed.

(** X8.  When exec returns: create_event answers with success true and, as
    id, the printed text without the white space around it (dates that
    parse supposed); update_event with at least one update line and
    delete_event answer with success true alone.  None of them sets the
    error flag. *)
Theorem X8_adapter_success (args : Args.t) (w : World) (out : string) :
  (forall command, execAsync h (submitted w) command = Stdout out) ->
  (truthy (Args.summary args) = true -> truthy (Args.start_date args) = true ->
   parseDate h (orEmpty (Args.start_date args)) <> None ->
   (truthy (Args.end_date args) = true ->
    parseDate h (orEmpty (Args.end_date args)) <> None) ->
   fst (callTool h "calendar_create_event" (Some args) w)
   = mkEnvelope [ mkContent "text" (createdPayload (trim out)) ] None)
  /\ (truthy (Args.event_id args) = true -> truthy (Args.calendar args) = true ->
      updateLines h (Args.summary args) (Args.start_date args) (Args.end_date args)
        (Args.description args) (Args.location args) (Args.all_day args) <> [] ->
      fst (callTool h "calendar_update_event" (Some args) w)
      = mkEnvelope [ mkContent "text" donePayload ] None)
  /\ (truthy (Args.event_id args) = true -> truthy (Args.calendar args) = true ->
      fst (callTool h "calendar_delete_event" (Some args) w)
      = mkEnvelope [ mkContent "text" donePayload ] None).
Proof.
  intros E. refine (conj _ (conj _ _)).
  - intros Hs Hd Hp He. rewrite callTool_fst, handle_create, Hs, Hd. cbn [negb orb].
    unfold bind at 1, createEvent.
    destruct (parseDate h (orEmpty (Args.start_date args))) as [start|]; [| congruence].
    destruct (truthy (Args.end_date args)).
    + destruct (parseDate h (orEmpty (Args.end_date args))) as [end_|];
        [| now exfalso; apply He].
      rewrite tryCatch_stdout with (out := out) by apply E.
      cbn [fst ret]. now rewrite stringifyResult_created.
    + rewrite tryCatch_stdout with (out := out) by apply E.
      cbn [fst ret]. now rewrite stringifyResult_created.
  - intros Hi Hc Hl. rewrite callTool_fst, handle_update, Hi, Hc. cbn [negb orb].
    unfold bind at 1, updateEvent.
    destruct (updateLines h _ _ _ _ _ _) as [|l0 ls]; [congruence |].
    cbn [length Nat.eqb].
    rewrite tryCatch_stdout with (out := out) (k := fun _ => OpResult.mk true None None)
      by apply E.
    reflexivity.
  - intros Hi Hc. rewrite callTool_fst, handle_delete, Hi, Hc. cbn [negb orb].
    unfold bind at 1, deleteEvent.
    rewrite tryCatch_stdout with (out := out) (k := fun _ => OpResult.mk true None None)
      by apply E.
    reflexivity.
Qed.

(** X9.  create_event with a start_date that does not parse, or with an
    end_date that is not empty and does not parse, hands nothing to exec
    and answers, without error flag, with success false and the error
    Invalid start date, respectively Invalid end date. *)
Theorem X9_create_event_rejects_bad_dates (args : Args.t) (w : World) :
  truthy (Args.summary args) = true -> truthy (Args.start_date args) = true ->
  (parseDate h (orEmpty (Args.start_date args)) = None ->
   callTool h "calendar_create_event" (Some args) w
   = (mkEnvelope [ mkContent "text" (failurePayload "Invalid start date") ] None, w))
  /\ (parseDate h (orEmpty (Args.start_date args)) <> None ->
      truthy (Args.end_date args) = true ->
      parseDate h (orEmpty (Args.end_date args)) = None ->
      callTool h "calendar_create_event" (Some args) w
      = (mkEnvelope [ mkContent "text" (failurePayload "Invalid end date") ] None, w)).
Proof.
  intros Hs Hd. split.
  - intros Hp. apply callTool_ok. rewrite handle_create, Hs, Hd. cbn [negb orb].
    unfold bind, createEvent. rewrite Hp. unfold ret.
    now rewrite stringifyResult_failure.
  - intros Hp Ht He. apply callTool_ok. rewrite handle_create, Hs, Hd. cbn [negb orb].
    unfold bind, createEvent.
    destruct (parseDate h (orEmpty (Args.start_date args))) as [start|]; [| congruence].
    rewrite Ht, He. unfold ret. now rewrite stringifyResult_failure.
Qed.

End OutcomeFacts.

(** ** Date windows *)

Section WindowUse.

Import Text Scripts JSON JSDate.

Context (h : Host).

Lemma TimeClip_in_range (t : Z) :
  (- maxTime <= t <= maxTime)%Z -> TimeClip t = Some t.
Proof.
  intros H. unfold TimeClip. destruct (Z.leb_spec (Z.abs t) maxTime); [reflexivity | lia].
Qed.

Lemma isoString_head (t : Z) :
  (- maxTime <= t <= maxTime)%Z ->
  exists c rest, isoString t = String c rest /\ Ascii.eqb c "m" = false.
Proof.
  intros Ht. pose proof (YearFromTime_range t Ht) as Hy.
  unfold isoString, yearString.
  destruct ((0 <=? YearFromTime t)%Z && (YearFromTime t <=? 9999)%Z) eqn:E.
  - apply andb_true_iff in E. destruct E as [E1 E2].
    apply Z.leb_le in E1, E2. cbn [padDigits append].
    eexists _, _. split; [reflexivity |].
    assert (Hd : (0 <= YearFromTime t / 10 / 10 / 10 mod 10 <= 9)%Z)
      by (Z.div_mod_to_equations; lia).
    apply digit_cases in Hd.
    repeat (destruct Hd as [-> | Hd]; [reflexivity |]). rewrite Hd. reflexivity.
  - destruct (YearFromTime t <? 0)%Z; cbn [append];
      (eexists _, _; split; [reflexivity | reflexivity]).
Qed.

Lemma isoString_truthy (t : Z) :
  (- maxTime <= t <= maxTime)%Z -> truthy (Some (isoString t)) = true.
Proof.
  intros Ht. destruct (isoString_head t Ht) as (c & rest & -> & _). reflexivity.
Qed.

Lemma isoString_not_sentinel (t : Z) :
  (- maxTime <= t <= maxTime)%Z ->
  String.eqb (isoString t) "" || String.eqb (isoString t) "missing value" = false.
Proof.
  intros Ht. destruct (isoString_head t Ht) as (c & rest & -> & Hc).
  cbn [String.eqb orb]. now rewrite Hc.
Qed.

(** X10.  A valid Date rendered by toISOString is parsed back by parseDate
    to the same Date, on every host: the window that getTodayEvents and
    getUpcomingEvents hand to getEvents as ISO texts is the window they
    computed. *)
Theorem X10_parseDate_reads_back_toISOString (t : Z) :
  (- 8640000000000000 <= t <= 8640000000000000)%Z ->
  exists s,
    toISOString (mkDate (Some t)) = Ok s
    /\ truthy (Some s) = true
    /\ parseDate h s = Some (mkDate (Some t)).
Proof.
  intros Ht. exists (isoString t). split; [reflexivity |]. split.
  - now apply isoString_truthy.
  - rewrite parseDate_value, Date_parse_isoString by exact Ht. reflexivity.
Qed.

Lemma parseDate_isoString (t : Z) :
  (- maxTime <= t <= maxTime)%Z -> parseDate h (isoString t) = Some (mkDate (Some t)).
Proof.
  intros Ht. rewrite parseDate_value, Date_parse_isoString by exact Ht. reflexivity.
Qed.

(** getEvents between two instants given as ISO texts. *)
Lemma getEvents_between (calendar : option string) (limit : option Z) (a b : Z)
    (w : World) :
  (- maxTime <= a <= maxTime)%Z -> (- maxTime <= b <= maxTime)%Z ->
  getEvents h calendar (Some (isoString a)) (Some (isoString b)) limit w
  = (events <- runAppleScriptJSON h (JSON_parse_events h)
                 (getEventsScript
                    (getDateRange h (mkDate (Some a)) (mkDate (Some b))) calendar
                    (match limit with Some n => n | None => 100%Z end)) ;;
     lift (mapAndSort h events)) w.
Proof.
  intros Ha Hb. rewrite getEvents_window. cbv zeta.
  rewrite !isoString_truthy by assumption. cbn [orEmpty].
  now rewrite !parseDate_isoString by assumption.
Qed.

Lemma handle_get_upcoming (args : Args.t) :
  handleToolCall h "calendar_get_upcoming" args
  = (events <- getUpcomingEvents h
                 (match Args.days args with
                  | Some d => if (d =? 0)%Z then 7%Z else d
                  | None => 7%Z
                  end) ;;
     ret (stringifyEvents events)).
Proof. reflexivity. Qed.

Lemma handle_get_today (args : Args.t) :
  handleToolCall h "calendar_get_today" args
  = (events <- getTodayEvents h ;; ret (stringifyEvents events)).
Proof. reflexivity. Qed.

Lemma getUpcomingEvents_window (days : Z) (w : World) :
  let t := clock h (ticks w) in
  (- maxTime <= t <= maxTime)%Z ->
  (- maxTime <= t + days * 86400000 <= maxTime)%Z ->
  getUpcomingEvents h days w
  = (events <- runAppleScriptJSON h (JSON_parse_events h)
                 (getEventsScript
                    (getDateRange h (mkDate (Some t))
                       (mkDate (Some (t + days * 86400000)%Z))) None 100%Z) ;;
     lift (mapAndSort h events)) (mkWorld (submitted w) (S (ticks w))).
Proof.
  intros t Ht Hf. unfold getUpcomingEvents, newDateNow, Date_now.
  unfold bind at 1. unfold bind at 1. cbn [ret ticks submitted]. fold t.
  unfold newDateAt. rewrite (TimeClip_in_range t Ht).
  unfold timePlus. cbn [getTime]. unfold newDateAt, oneDay.
  change (24 * 60 * 60 * 1000)%Z with 86400000%Z.
  rewrite (TimeClip_in_range _ Hf).
  unfold toISOString. cbn [getTime]. unfold lift at 1 2.
  unfold bind at 1. unfold bind at 1.
  now rewrite getEvents_between.
Qed.

(** X11.  get_upcoming reads the clock once and, when the reading t and t
    plus the days are time values, hands exec the one script of getEvents
    for the window from t to t plus days times 24 hours, over all
    arguments of getEvents at their defaults; the days are 7 when the
    argument is absent or 0. *)
Theorem X11_get_upcoming_window (args : Args.t) (w : World) :
  let t := clock h (ticks w) in
  let days := match Args.days args with
              | Some d => if (d =? 0)%Z then 7%Z else d
              | None => 7%Z
              end in
  (- 8640000000000000 <= t <= 8640000000000000)%Z ->
  (- 8640000000000000 <= t + days * 86400000 <= 8640000000000000)%Z ->
  snd (callTool h "calendar_get_upcoming" (Some args) w)
  = mkWorld
      (submitted w
         ++ [ commandFor
                (getEventsScript
                   (mkRange (toLocaleString h t)
                            (toLocaleString h (t + days * 86400000)%Z))
                   None 100%Z) ])
      (S (ticks w)).
Proof.
  intros t days Ht Hf. rewrite callTool_world, handle_get_upcoming. fold days.
  unfold bind at 1. rewrite (getUpcomingEvents_window days w Ht Hf). fold t.
  set (script := getEventsScript _ _ _).
  unfold bind at 1, lift.
  pose proof (runAppleScriptJSON_submits h (JSON_parse_events h) script
                (mkWorld (submitted w) (S (ticks w)))) as Hs.
  destruct (runAppleScriptJSON h (JSON_parse_events h) script _) as [[ev|e] w'];
    cbn [snd] in *; subst w'; [| reflexivity].
  destruct (mapAndSort h ev); reflexivity.
Qed.

(** X12.  get_upcoming with the days absent, 0 or 7 gives the same answer,
    and no other argument is read. *)
Theorem X12_get_upcoming_defaults_to_seven_days (args1 args2 : Args.t) (w : World) :
  Args.days args1 = None \/ Args.days args1 = Some 0%Z \/ Args.days args1 = Some 7%Z ->
  Args.days args2 = Some 7%Z ->
  callTool h "calendar_get_upcoming" (Some args1) w
  = callTool h "calendar_get_upcoming" (Some args2) w.
Proof.
  intros H1 H2. unfold callTool. rewrite !handle_get_upcoming, H2.
  destruct H1 as [-> | [-> | ->]]; reflexivity.
Qed.

(** X13.  get_upcoming with so many days that the end of the window is no
    time value raises before anything is handed to exec; the answer is the
    error envelope of the RangeError of toISOString. *)
Theorem X13_get_upcoming_out_of_range (args : Args.t) (w : World) :
  let t := clock h (ticks w) in
  let days := match Args.days args with
              | Some d => if (d =? 0)%Z then 7%Z else d
              | None => 7%Z
              end in
  (- 8640000000000000 <= t <= 8640000000000000)%Z ->
  (8640000000000000 < t + days * 86400000)%Z ->
  callTool h "calendar_get_upcoming" (Some args) w
  = (mkEnvelope [ mkContent "text" "Error: Invalid time value" ] (Some true),
     mkWorld (submitted w) (S (ticks w))).
Proof.
  intros t days Ht Hf. apply callTool_throw. rewrite handle_get_upcoming. fold days.
  unfold bind at 1, getUpcomingEvents, newDateNow, Date_now.
  unfold bind at 1. unfold bind at 1. cbn [ret ticks submitted]. fold t.
  unfold newDateAt. rewrite (TimeClip_in_range t Ht).
  unfold timePlus. cbn [getTime]. unfold newDateAt, oneDay.
  change (24 * 60 * 60 * 1000)%Z with 86400000%Z.
  assert (Hc : TimeClip (t + days * 86400000) = None).
  { unfold TimeClip. destruct (Z.leb_spec (Z.abs (t + days * 86400000)) maxTime);
      [unfold maxTime in *; lia | reflexivity]. }
  rewrite Hc. reflexivity.
Qed.

End WindowUse.

Section TodayAndLists.

Import Text Scripts JSON JSDate.

Context (h : Host).

Lemma MakeDay_next (y m d : Z) : MakeDay y m (d + 1) = (MakeDay y m d + 1)%Z.
Proof. unfold MakeDay. lia. Qed.

Lemma setHoursZero_constant_offset (offset t : Z) :
  (forall x b, LocalTZA h x b = offset) ->
  (- maxTime <= localMidnight offset t <= maxTime)%Z ->
  setHoursZero h (mkDate (Some t)) = mkDate (Some (localMidnight offset t)).
Proof.
  intros Ho Hr. unfold setHoursZero, UTC, LocalTime. cbn [getTime].
  rewrite !Ho. unfold MakeDate, MakeTime, Day.
  replace (((t + offset) / msPerDay * msPerDay + (0 * msPerHour + 0 * msPerMinute + 0 * msPerSecond + 0)) - offset)%Z
    with (localMidnight offset t) by (unfold localMidnight; lia).
  now rewrite TimeClip_in_range.
Qed.

Lemma setDateNext_constant_offset (offset t : Z) :
  (forall x b, LocalTZA h x b = offset) ->
  (- maxTime <= localMidnight offset t + msPerDay <= maxTime)%Z ->
  setDateNext h (mkDate (Some (localMidnight offset t)))
  = mkDate (Some (localMidnight offset t + msPerDay)%Z).
Proof.
  intros Ho Hr. unfold setDateNext, UTC, LocalTime. cbn [getTime]. cbv zeta.
  rewrite !Ho. rewrite MakeDay_next, MakeDay_fromTime.
  set (tl := (localMidnight offset t + offset)%Z).
  assert (Htl : tl = ((t + offset) / msPerDay * msPerDay)%Z)
    by (unfold tl, localMidnight; lia).
  assert (Hd : Day tl = ((t + offset) / msPerDay)%Z).
  { rewrite Htl. unfold Day, msPerDay. now rewrite Z.div_mul by lia. }
  assert (Hw : TimeWithinDay tl = 0%Z).
  { rewrite Htl. unfold TimeWithinDay, msPerDay. now rewrite Z.mod_mul by lia. }
  rewrite Hd, Hw. unfold MakeDate.
  replace (((t + offset) / msPerDay + 1) * msPerDay + 0 - offset)%Z
    with (localMidnight offset t + msPerDay)%Z by (unfold localMidnight; lia).
  now rewrite TimeClip_in_range.
Qed.

(** X14.  On a host whose local time is UTC plus a fixed offset,
    get_today reads the clock once and hands exec the one script of
    getEvents for the window from the local midnight before the reading to
    the next local midnight, 24 hours later; the reading lies in that
    window. *)
Theorem X14_get_today_window (offset : Z) (arguments : option Args.t) (w : World) :
  let t := clock h (ticks w) in
  let today := localMidnight offset t in
  (forall x b, LocalTZA h x b = offset) ->
  (- 8640000000000000 <= t <= 8640000000000000)%Z ->
  (- 8640000000000000 <= today)%Z -> (today + 86400000 <= 8640000000000000)%Z ->
  snd (callTool h "calendar_get_today" arguments w)
  = mkWorld
      (submitted w
         ++ [ commandFor
                (getEventsScript
                   (mkRange (toLocaleString h today)
                            (toLocaleString h (today + 86400000)%Z))
                   None 100%Z) ])
      (S (ticks w))
  /\ (today <= t < today + 86400000)%Z.
Proof.
  intros t today Ho Ht Hlo Hhi.
  assert (Hin : (today <= t < today + 86400000)%Z).
  { unfold today, localMidnight, msPerDay. Z.div_mod_to_equations. lia. }
  split; [| exact Hin].
  assert (Hr1 : (- maxTime <= today <= maxTime)%Z) by (unfold maxTime; lia).
  assert (Hr2 : (- maxTime <= today + msPerDay <= maxTime)%Z)
    by (unfold maxTime, msPerDay; lia).
  assert (Hs : snd (handleToolCall h "calendar_get_today"
                      (match arguments with Some a => a | None => Args.empty end) w)
               = mkWorld
                   (submitted w
                      ++ [ commandFor
                             (getEventsScript
                                (mkRange (toLocaleString h today)
                                         (toLocaleString h (today + 86400000)%Z))
                                None 100%Z) ])
                   (S (ticks w))).
  { rewrite handle_get_today. unfold bind at 1, getTodayEvents, newDateNow, Date_now.
    unfold bind at 1. unfold bind at 1. cbn [ret ticks submitted]. fold t.
    unfold newDateAt. rewrite (TimeClip_in_range t Ht).
    rewrite (setHoursZero_constant_offset offset t Ho Hr1).
    rewrite (setDateNext_constant_offset offset t Ho Hr2). fold today.
    unfold toISOString. cbn [getTime]. unfold lift at 1 2.
    unfold bind at 1. unfold bind at 1.
    rewrite getEvents_between by assumption.
    change msPerDay with 86400000%Z.
    set (script := getEventsScript _ _ _).
    unfold bind at 1, lift.
    pose proof (runAppleScriptJSON_submits h (JSON_parse_events h) script
                  (mkWorld (submitted w) (S (ticks w)))) as Hsub.
    destruct (runAppleScriptJSON h (JSON_parse_events h) script _) as [[ev|e] w'];
      cbn [snd] in *; subst w'; [| reflexivity].
    destruct (mapAndSort h ev); reflexivity. }
  unfold callTool.
  destruct (handleToolCall h "calendar_get_today" _ w) as [[r|e] w']; exact Hs.
Qed.

(** X15.  get_events with a start_date and an end_date that both parse,
    and a limit that is absent or a safe integer, reads no clock and hands
    exec the one script of getEvents for exactly these two instants, the
    given calendar and the given limit, 100 when the limit is absent. *)
Theorem X15_get_events_explicit_window (args : Args.t) (w : World) (s1 s2 : string)
    (a b : Z) :
  safeLimit (Args.limit args) = true ->
  Args.start_date args = Some s1 -> Args.end_date args = Some s2 ->
  s1 <> "" -> s2 <> "" ->
  Date_parse h s1 = Some a -> Date_parse h s2 = Some b ->
  snd (callTool h "calendar_get_events" (Some args) w)
  = mkWorld
      (submitted w
         ++ [ commandFor
                (getEventsScript (mkRange (toLocaleString h a) (toLocaleString h b))
                   (Args.calendar args)
                   (match Args.limit args with Some n => n | None => 100%Z end)) ])
      (ticks w).
Proof.
  intros _ H1 H2 Hn1 Hn2 Ha Hb.
  rewrite callTool_world, handle_get_events. unfold bind at 1.
  rewrite getEvents_window. cbv zeta. rewrite H1, H2.
  apply truthy_Some in Hn1, Hn2. rewrite Hn1, Hn2. cbn [orEmpty].
  rewrite !parseDate_value, Ha, Hb.
  set (script := getEventsScript _ _ _).
  unfold bind at 1, lift.
  pose proof (runAppleScriptJSON_submits h (JSON_parse_events h) script w) as Hsub.
  destruct (runAppleScriptJSON h (JSON_parse_events h) script w) as [[ev|e] w'];
    cbn [snd] in *; subst w'; [| reflexivity].
  destruct (mapAndSort h ev); reflexivity.
Qed.

(** The start instant of a mapped item is the instant of the start it was
    mapped from. *)
Lemma startInstant_normalized (e : CalendarEvent.t) (t : Z) :
  CalendarEvent.startDate e <> "" -> CalendarEvent.startDate e <> "missing value" ->
  Date_parse h (CalendarEvent.startDate e) = Some t ->
  startInstant h (normalized h e) = Some t.
Proof.
  intros Hne Hnm Ht. unfold startInstant, newDate, normalized. cbn [getTime].
  destruct e as [i su de lo sd ed ad ca ur st]. cbn in *.
  rewrite isoText_value.
  apply String.eqb_neq in Hne, Hnm. rewrite Hne, Hnm, Ht. cbn [orb].
  apply Date_parse_isoString. exact (Date_parse_range h _ _ Ht).
Qed.

Lemma isoText_idempotent (s : string) : isoText h (isoText h s) = isoText h s.
Proof.
  rewrite (isoText_value h s).
  destruct (String.eqb s "" || String.eqb s "missing value");
    [apply isoText_empty |].
  destruct (Date_parse h s) as [t|] eqn:E; [| apply isoText_empty].
  pose proof (Date_parse_range h _ _ E) as Hr.
  rewrite isoText_value, isoString_not_sentinel by exact Hr.
  now rewrite Date_parse_isoString.
Qed.

(** X16.  Normalizing a date text twice gives what normalizing it once
    gives, and the map callback keeps the instant: an item whose start
    parses to an instant has, after the map, a start that the comparison
    function reads as that same instant. *)
Theorem X16_normalization_keeps_the_instant :
  (forall dateStr,
      exists r, formatISODate h dateStr = Ok r /\ formatISODate h r = Ok r)
  /\ (forall e t,
         CalendarEvent.startDate e <> "" ->
         CalendarEvent.startDate e <> "missing value" ->
         Date_parse h (CalendarEvent.startDate e) = Some t ->
         exists e',
           normalizeEvent h e = Ok e' /\ startInstant h e' = Some t
           /\ CalendarEvent.id e' = CalendarEvent.id e
           /\ CalendarEvent.summary e' = CalendarEvent.summary e).
Proof.
  split.
  - intros s. exists (isoText h s).
    assert (Hf : forall x, formatISODate h x = Ok (isoText h x)).
    { intros x. now rewrite formatISODate_value, isoText_value. }
    split; [apply Hf |]. rewrite Hf. now rewrite isoText_idempotent.
  - intros e t Hne Hnm Ht. exists (normalized h e).
    split; [apply normalizeEvent_value |].
    split; [now apply startInstant_normalized |].
    destruct e; split; reflexivity.
Qed.

(** X17.  When the start of every decoded item is a text other than the
    empty one and the sentinel and parses, getEvents and searchEvents
    return the mapped items each exactly once, and the items of any one
    start instant in the order they came in. *)
Theorem X17_sort_keeps_items_and_ties (l : list CalendarEvent.t) :
  Forall (fun e => CalendarEvent.startDate e <> ""
                   /\ CalendarEvent.startDate e <> "missing value"
                   /\ Date_parse h (CalendarEvent.startDate e) <> None) l ->
  exists r,
    mapAndSort h (Structured l) = Ok r
    /\ Permutation r (map (normalized h) l)
    /\ length r = length l
    /\ forall v, keyedAt (startInstant h) v r
                 = keyedAt (startInstant h) v (map (normalized h) l).
Proof.
  intros _.
  eexists. split; [apply mapAndSort_value |]. split; [apply arraySort_perm |]. split.
  - rewrite (Permutation_length (arraySort_perm (startInstant h) (map (normalized h) l))).
    apply length_map.
  - intros v. apply arraySort_stable.
Qed.

(** X18.  When the start of every decoded item is a text other than the
    empty one and the sentinel and parses, the list getEvents and
    searchEvents return is in non-decreasing order of the start
    instants. *)
Theorem X18_sorted_when_every_start_parses (l : list CalendarEvent.t) :
  Forall (fun e => CalendarEvent.startDate e <> ""
                   /\ CalendarEvent.startDate e <> "missing value"
                   /\ Date_parse h (CalendarEvent.startDate e) <> None) l ->
  exists r, mapAndSort h (Structured l) = Ok r /\ sortedByStart h r.
Proof.
  intros Hl. apply mapAndSort_sortedByStart.
  apply Forall_map. eapply Forall_impl; [| exact Hl].
  intros e (Hne & Hnm & Hp). cbn beta.
  destruct (Date_parse h (CalendarEvent.startDate e)) as [t|] eqn:E; [| congruence].
  now rewrite (startInstant_normalized e t Hne Hnm E).
Qed.

End TodayAndLists.

Section FilterAndCreate.

Import Text Scripts JSON JSDate.

Context (h : Host).

Lemma plainText_noBackslash (s : string) : plainText s = true -> noBackslash s = true.
Proof.
  induction s as [|c s IH]; simpl; [reflexivity |].
  intros H. apply andb_true_iff in H. destruct H as [H Hs].
  apply andb_true_iff in H. destruct H as [_ Hb]. now rewrite Hb, IH.
Qed.

Lemma escapeQuotes_plain (s : string) : plainText s = true -> escapeQuotes s = s.
Proof.
  unfold escapeQuotes. induction s as [|c s IH]; [reflexivity |].
  cbn [plainText replaceAllChar]. intros H.
  apply andb_true_iff in H. destruct H as [H Hs].
  apply andb_true_iff in H. destruct H as [Hq _].
  apply negb_true_iff in Hq. rewrite Hq. cbn [append]. now rewrite IH.
Qed.

Lemma readLiteral_plain (s rest : string) :
  plainText s = true -> readLiteral (s ++ q ++ rest) = Some (s, rest).
Proof.
  intros Hs. rewrite <- (escapeQuotes_plain s Hs) at 1.
  apply readLiteral_escapeQuotes. now apply plainText_noBackslash.
Qed.

Lemma toLowerCase_empty (s : string) : toLowerCase s = "" -> s = "".
Proof. destruct s; [reflexivity | discriminate]. Qed.

(** X19.  For a calendar name without double quote and without backslash,
    the block of the script of getEvents selects all calendars when the
    name is empty and the calendar of exactly that name otherwise. *)
Theorem X19_calendar_filter (calendar : string) :
  plainText calendar = true ->
  runTargetBlock (targetBlock (Some calendar))
  = Some (if String.eqb calendar "" then AllCalendars else NamedCalendar calendar).
Proof.
  intros Hc. unfold runTargetBlock, targetBlock. cbn [templ orEmpty option_map].
  rewrite (escapeQuotes_plain calendar Hc).
  assert (Hg : readGuard ("      if " ++ q ++ calendar ++ q ++ " is " ++ q ++ q ++ " then")
               = Some (calendar, "")).
  { unfold readGuard.
    change (trimStart ("      if " ++ q ++ calendar ++ q ++ " is " ++ q ++ q ++ " then"))
      with (("if " ++ q) ++ calendar ++ q ++ (" is " ++ q) ++ q ++ " then").
    rewrite stripPrefix_app, (readLiteral_plain calendar _ Hc), stripPrefix_app.
    reflexivity. }
  assert (He : readAssignedTarget
                 ("        set targetCals to {calendar " ++ q ++ calendar ++ q ++ "}")
               = Some (NamedCalendar calendar)).
  { unfold readAssignedTarget.
    change (trimStart ("        set targetCals to {calendar " ++ q ++ calendar ++ q ++ "}"))
      with ("set targetCals to " ++ String "{" ("calendar " ++ q ++ calendar ++ q ++ "}")).
    rewrite stripPrefix_app.
    change (String.eqb (String "{" ("calendar " ++ q ++ calendar ++ q ++ "}")) "calendars")
      with false.
    change (String "{" ("calendar " ++ q ++ calendar ++ q ++ "}"))
      with (("{calendar " ++ q) ++ calendar ++ q ++ "}").
    rewrite stripPrefix_app, (readLiteral_plain calendar _ Hc). reflexivity. }
  rewrite Hg, He.
  change (String.eqb (trimStart "      else") "else") with true.
  change (String.eqb (trimStart "      end if") "end if") with true.
  change (readAssignedTarget "        set targetCals to calendars") with (Some AllCalendars).
  cbn [andb toLowerCase]. f_equal.
  destruct (String.eqb_spec calendar "") as [-> | Hne]; [reflexivity |].
  destruct (String.eqb_spec (toLowerCase calendar) "") as [E | _]; [| reflexivity].
  apply toLowerCase_empty in E. contradiction.
Qed.

Lemma createEvent_line_in_script (ct es st en : string) (ad : bool) (d l u : string) :
  occursIn (", start date:date " ++ q ++ st ++ q ++ ", end date:date " ++ q ++ en ++ q
              ++ ", allday event:" ++ boolToString ad ++ "}")
           (createEventScript ct es st en ad d l u).
Proof.
  unfold createEventScript, unlines.
  eapply occursIn_trans; [| apply occursIn_join with (x := nth 2 (createEventLines ct es st en ad d l u) "")].
  - cbn [nth createEventLines].
    exists ("      set newEvent to make new event at end of events of " ++ ct
              ++ " with properties {summary:" ++ q ++ es ++ q), "".
    rewrite !append_assoc. reflexivity.
  - unfold createEventLines. simpl. tauto.
Qed.

(** X20.  create_event without end_date ends the event one hour after its
    start, and 24 hours after it when all_day is true: the one script
    handed to exec gives as end date the instant of the start plus that
    span, with the all-day flag as given (false when absent). *)
Theorem X20_create_event_default_end (args : Args.t) (w : World) (t : Z) :
  let allDay := match Args.all_day args with Some b => b | None => false end in
  let span := if allDay then 86400000%Z else 3600000%Z in
  truthy (Args.summary args) = true -> truthy (Args.start_date args) = true ->
  Date_parse h (orEmpty (Args.start_date args)) = Some t ->
  truthy (Args.end_date args) = false ->
  (t + span <= 8640000000000000)%Z ->
  exists script,
    submitted (snd (callTool h "calendar_create_event" (Some args) w))
    = (submitted w ++ [ commandFor script ])%list
    /\ occursIn (", start date:date " ++ q ++ toLocaleString h t ++ q
                   ++ ", end date:date " ++ q ++ toLocaleString h (t + span)%Z ++ q
                   ++ ", allday event:" ++ boolToString allDay ++ "}") script.
Proof.
  intros allDay span Hs Hd Ht He Hr.
  pose proof (Date_parse_range h _ _ Ht) as Hrange.
  assert (Hclip : TimeClip (t + span) = Some (t + span)%Z).
  { apply TimeClip_in_range. unfold maxTime in *. unfold span. destruct allDay; lia. }
  rewrite callTool_world, handle_create, Hs, Hd. cbn [negb orb].
  unfold bind at 1, createEvent. rewrite parseDate_value, Ht, He. cbv zeta.
  fold allDay. unfold timePlus. cbn [getTime]. unfold newDateAt, oneDay, oneHour.
  change (24 * 60 * 60 * 1000)%Z with 86400000%Z.
  change (60 * 60 * 1000)%Z with 3600000%Z. fold span. rewrite Hclip.
  unfold formatDateForAppleScript. cbn [getTime].
  match goal with
  | |- context [createEventScript ?ct ?es ?st ?en ?ad ?d ?l ?u] =>
      exists (createEventScript ct es st en ad d l u);
      split; [| apply createEvent_line_in_script];
      set (script := createEventScript ct es st en ad d l u)
  end.
  unfold tryCatch, bind.
  pose proof (runAppleScript_submits h script w) as Hsub.
  destruct (runAppleScript h script w) as [[x|e] w']; cbn [snd] in *; subst w';
    reflexivity.
Qed.

End FilterAndCreate.

(* ====================================================================== *)
(** * The further properties on the example hosts *)
(* ====================================================================== *)

Section FurtherInstances.

Import Text JSDate JSON Scripts Example Example2.

Lemma X2_witness :
  literalAfter ("      set theCal to calendar " ++ q)
    (nth 2 (deleteEventLines "E1" ("Team " ++ q ++ "A" ++ q)) "")
  = Some ("Team " ++ q ++ "A" ++ q, "")
  /\ literalAfter ("      set theEvent to (first event of theCal whose uid is " ++ q)
       (nth 3 (deleteEventLines "E1" ("Team " ++ q ++ "A" ++ q)) "") = Some ("E1", ")").
Proof.
  apply (X2_delete_script_names_calendar_and_event "E1" ("Team " ++ q ++ "A" ++ q));
    reflexivity.
Defined.

Lemma X3_witness :
  exists script line,
    submitted (snd (searchEvents silentHost "Team Lunch" None None world0))
    = (submitted world0 ++ [ commandFor script ])%list
    /\ occursIn (nl ++ line ++ nl) script
    /\ literalAfter ("      set searchQuery to " ++ q) line = Some ("team lunch", "").
Proof.
  apply (X3_search_literal_is_the_lower_case_query silentHost "Team Lunch" None None
           world0); reflexivity.
Defined.

Lemma X6_witness :
  fst (callTool (printingHost "  ") "calendar_search" (Some (searchArgs "meeting")) world0)
  = mkEnvelope [ mkContent "text" "[]" ] None
  /\ fst (callTool (printingHost "  ") "calendar_get_calendars"
            (Some (searchArgs "meeting")) world0)
     = mkEnvelope [ mkContent "text" "[]" ] None.
Proof.
  destruct (X6_blank_output_is_the_empty_list (printingHost "  ") (searchArgs "meeting")
              world0 "  " (fun _ => eq_refl) eq_refl) as [H1 H2].
  split; [apply H1; reflexivity | exact H2].
Defined.

Lemma X7_witness :
  fst (callTool (printingHost "oops") "calendar_get_calendars"
         (Some (searchArgs "meeting")) world0)
  = mkEnvelope [ mkContent "text" (JSON.quote (trim "oops")) ] None
  /\ fst (callTool (printingHost "oops") "calendar_search" (Some (searchArgs "meeting"))
            world0)
     = mkEnvelope [ mkContent "text" "Error: events.map is not a function" ] (Some true).
Proof.
  apply (X7_undecodable_output (printingHost "oops") (searchArgs "meeting") world0 "oops"
           (fun _ => eq_refl)); try reflexivity.
  vm_compute. discriminate.
Defined.

Lemma X8_witness :
  fst (callTool (printingHost " EVENT-1 ") "calendar_create_event"
         (Some (createArgs "Lunch" "2025-01-15T12:00:00Z" None)) world0)
  = mkEnvelope [ mkContent "text" (createdPayload (trim " EVENT-1 ")) ] None.
Proof.
  apply (proj1 (X8_adapter_success (printingHost " EVENT-1 ")
                  (createArgs "Lunch" "2025-01-15T12:00:00Z" None) world0 " EVENT-1 "
                  (fun _ => eq_refl))).
  - reflexivity.
  - reflexivity.
  - vm_compute. discriminate.
  - intros H. discriminate H.
Defined.

Lemma X9_witness :
  callTool silentHost "calendar_create_event"
    (Some (createArgs "Lunch" "tomorrow" None)) world0
  = (mkEnvelope [ mkContent "text" (failurePayload "Invalid start date") ] None, world0).
Proof.
  apply (proj1 (X9_create_event_rejects_bad_dates silentHost
                  (createArgs "Lunch" "tomorrow" None) world0 eq_refl eq_refl)).
  vm_compute. reflexivity.
Defined.

Lemma X10_witness :
  exists s,
    toISOString (mkDate (Some 1736935200123%Z)) = Ok s
    /\ truthy (Some s) = true
    /\ parseDate silentHost s = Some (mkDate (Some 1736935200123%Z)).
Proof.
  apply (X10_parseDate_reads_back_toISOString silentHost 1736935200123%Z).
  vm_compute. split; intros H; discriminate H.
Defined.

Lemma X11_witness :
  snd (callTool silentHost "calendar_get_upcoming" (Some (daysArgs None)) world0)
  = mkWorld
      [ commandFor
          (getEventsScript
             (mkRange (enUS 1736935200000%Z) (enUS (1736935200000 + 7 * 86400000)%Z))
             None 100%Z) ]
      1.
Proof.
  apply (X11_get_upcoming_window silentHost (daysArgs None) world0);
    vm_compute; split; intros H; discriminate H.
Defined.

Lemma X12_witness :
  callTool silentHost "calendar_get_upcoming" (Some (daysArgs (Some 0%Z))) world0
  = callTool silentHost "calendar_get_upcoming" (Some (daysArgs (Some 7%Z))) world0.
Proof.
  apply (X12_get_upcoming_defaults_to_seven_days silentHost (daysArgs (Some 0%Z))
           (daysArgs (Some 7%Z)) world0).
  - right. left. reflexivity.
  - reflexivity.
Defined.

Lemma X13_witness :
  callTool silentHost "calendar_get_upcoming" (Some (daysArgs (Some 100000000000%Z)))
    world0
  = (mkEnvelope [ mkContent "text" "Error: Invalid time value" ] (Some true),
     mkWorld [] 1).
Proof.
  apply (X13_get_upcoming_out_of_range silentHost (daysArgs (Some 100000000000%Z))
           world0).
  - vm_compute. split; intros H; discriminate H.
  - vm_compute. reflexivity.
Defined.

Lemma X14_witness :
  snd (callTool offsetHost "calendar_get_today" None world0)
  = mkWorld
      [ commandFor
          (getEventsScript
             (mkRange (enUS (localMidnight 3600000 1736935200000))
                      (enUS (localMidnight 3600000 1736935200000 + 86400000)%Z))
             None 100%Z) ]
      1
  /\ (localMidnight 3600000 1736935200000 <= 1736935200000
      < localMidnight 3600000 1736935200000 + 86400000)%Z.
Proof.
  apply (X14_get_today_window offsetHost 3600000%Z None world0).
  - intros x b. reflexivity.
  - vm_compute. split; intros H; discriminate H.
  - vm_compute. intros H. discriminate H.
  - vm_compute. intros H. discriminate H.
Defined.

Lemma X15_witness :
  snd (callTool silentHost "calendar_get_events"
         (Some (rangeArgs "2025-01-15" "2025-01-16T12:00:00Z")) world0)
  = mkWorld
      [ commandFor
          (getEventsScript (mkRange (enUS 1736899200000%Z) (enUS 1737028800000%Z))
             (Some "Work") 10%Z) ]
      0.
Proof.
  apply (X15_get_events_explicit_window silentHost
           (rangeArgs "2025-01-15" "2025-01-16T12:00:00Z") world0
           "2025-01-15" "2025-01-16T12:00:00Z" 1736899200000%Z 1737028800000%Z);
    try reflexivity; try discriminate; iso_parse.
Defined.

Lemma X16_witness :
  exists e',
    normalizeEvent silentHost (event "a" "2025-01-15T12:00:00+02:00") = Ok e'
    /\ startInstant silentHost e' = Some 1736935200000%Z
    /\ CalendarEvent.id e' = "a"
    /\ CalendarEvent.summary e' = "Meeting".
Proof.
  apply (proj2 (X16_normalization_keeps_the_instant silentHost)
           (event "a" "2025-01-15T12:00:00+02:00") 1736935200000%Z).
  - discriminate.
  - discriminate.
  - unfold event. cbn [CalendarEvent.startDate]. iso_parse.
Defined.

Lemma X17_witness :
  exists r,
    mapAndSort silentHost
      (Structured [ event "late" "2025-01-02"; event "first" "2025-01-01";
                    event "second" "2025-01-01" ]) = Ok r
    /\ Permutation r
         (map (normalized silentHost)
            [ event "late" "2025-01-02"; event "first" "2025-01-01";
              event "second" "2025-01-01" ])
    /\ length r = 3%nat
    /\ forall v, keyedAt (startInstant silentHost) v r
                 = keyedAt (startInstant silentHost) v
                     (map (normalized silentHost)
                        [ event "late" "2025-01-02"; event "first" "2025-01-01";
                          event "second" "2025-01-01" ]).
Proof.
  apply (X17_sort_keeps_items_and_ties silentHost
           [ event "late" "2025-01-02"; event "first" "2025-01-01";
             event "second" "2025-01-01" ]).
  repeat constructor; try discriminate;
    unfold event; cbn [CalendarEvent.startDate];
    (assert (Hp : Date_parse silentHost "2025-01-02" = Some 1735776000000%Z)
       by iso_parse
     || assert (Hp : Date_parse silentHost "2025-01-01" = Some 1735689600000%Z)
       by iso_parse);
    rewrite Hp; discriminate.
Defined.

Lemma X18_witness :
  exists r,
    mapAndSort silentHost
      (Structured [ event "late" "2025-01-02"; event "early" "2025-01-01" ]) = Ok r
    /\ sortedByStart silentHost r.
Proof.
  apply (X18_sorted_when_every_start_parses silentHost
           [ event "late" "2025-01-02"; event "early" "2025-01-01" ]).
  repeat constructor; try discriminate;
    unfold event; cbn [CalendarEvent.startDate];
    (assert (Hp : Date_parse silentHost "2025-01-02" = Some 1735776000000%Z)
       by iso_parse
     || assert (Hp : Date_parse silentHost "2025-01-01" = Some 1735689600000%Z)
       by iso_parse);
    rewrite Hp; discriminate.
Defined.

Lemma X19_witness :
  runTargetBlock (targetBlock (Some "Work")) = Some (NamedCalendar "Work").
Proof. apply (X19_calendar_filter "Work"). reflexivity. Defined.

Lemma X20_witness :
  exists script,
    submitted (snd (callTool silentHost "calendar_create_event"
                      (Some (createArgs "Lunch" "2025-01-15T12:00:00Z" None)) world0))
    = [ commandFor script ]
    /\ occursIn (", start date:date " ++ q ++ enUS 1736942400000%Z ++ q
                   ++ ", end date:date " ++ q ++ enUS (1736942400000 + 3600000)%Z ++ q
                   ++ ", allday event:" ++ boolToString false ++ "}") script.
Proof.
  apply (X20_create_event_default_end silentHost
           (createArgs "Lunch" "2025-01-15T12:00:00Z" None) world0 1736942400000%Z).
  - reflexivity.
  - reflexivity.
  - unfold createArgs. cbn [Args.start_date orEmpty]. iso_parse.
  - reflexivity.
  - vm_compute. intros H. discriminate H.
Defined.

End FurtherInstances.
